(** * Analysis passes of the Go AST analyzer: a shallow embedding

    The development embeds the complexity calculator
    ([presentation/cli/analyzer.go]), the value objects
    ([ComplexityScore], [AnalysisConfiguration], [SourceLocation]), the
    finding entity, the goroutine-leak detector and the concurrency-bug
    detector, and states the properties of the specification over them.
    It goes on with the nesting measure of the smell detector, the
    analysis-result aggregate, the configuration loader, the column helper
    of the table output and the use case that ties the passes together.

    Go's [int] is modelled by [Z].  The counters that are bounded by the
    number of nodes of a syntax tree or by the length of a slice (the
    cyclomatic score, the nesting measure, line numbers, lengths) are used
    as they are.  The cognitive score is not so bounded: it grows
    quadratically with the number of consecutive blocks and doubles with
    every level of an else-if chain; neither are the totals of the use
    case, which add scores up.  These are computed with the wrap-around of
    Go's [int], [int_add].  The width of [int] and the case mapping of the
    [unicode] package are parameters of the development, [Platform].  Go
    strings are [string] (byte sequences).  [map[string][]string] is a
    [gmap]. *)

From stdpp Require Import gmap strings list.
From Stdlib Require Import ZArith Ascii String List Lia DecimalString.
Import ListNotations.
Open Scope Z_scope.

Set Warnings "-register-all".
Scheme All for list.
Scheme All for option.

(* ================================================================== *)
(** ** go/token and go/ast, as far as the passes inspect them *)
(* ================================================================== *)

(** Operator and keyword tokens the passes compare against, and a few
    others so that ordinary programs can be written down. *)
Inductive token : Type :=
| ARROW | LAND | LOR | NOT | ADD | SUB | MUL | QUO | AND
| EQL | NEQ | LSS | GTR | LEQ | GEQ
| ASSIGN | DEFINE | ADD_ASSIGN | INC | DEC | BREAK | CONTINUE.

(** [token.Position], the result of [fset.Position(n.Pos())]. *)
Record Position : Type := mkPosition {
  Filename : string;
  Line : Z;
  Column : Z
}.

(** [ast.Node].  Expressions, statements and declarations are all nodes;
    the passes only ever look at a node through a type switch or a type
    assertion, which is pattern matching here.  Fields that go/ast types
    more narrowly ([*ast.BlockStmt], [*ast.CallExpr], [*ast.Ident]) are
    nodes too; parsed trees always have the narrow shape there.
    [FuncDecl] and [GoStmt] carry the resolved position of their first
    token, the only positions the passes ask for.  A [*ast.FieldList] is
    flattened into the list of its fields. *)
Inductive node : Type :=
(* expressions *)
| Ident (Name : string)
| BasicLit (Value : string)
| FuncLit (Type_ : node) (Body : node)
| CompositeLit (Type_ : option node) (Elts : list node)
| ParenExpr (X : node)
| SelectorExpr (X : node) (Sel : node)
| IndexExpr (X : node) (Index : node)
| CallExpr (Fun : node) (Args : list node)
| StarExpr (X : node)
| UnaryExpr (Op : token) (X : node)
| BinaryExpr (X : node) (Op : token) (Y : node)
| KeyValueExpr (Key : node) (Value : node)
(* types *)
| ChanType (Value : node)
| FuncType (Params : list node) (Results : list node)
| Field (Names : list node) (Type_ : node)
(* statements *)
| DeclStmt (Decl : node)
| EmptyStmt
| LabeledStmt (Label : node) (Stmt : node)
| ExprStmt (X : node)
| SendStmt (Chan : node) (Value : node)
| IncDecStmt (X : node) (Tok : token)
| AssignStmt (Lhs : list node) (Tok : token) (Rhs : list node)
| GoStmt (At : Position) (Call : node)
| DeferStmt (Call : node)
| ReturnStmt (Results : list node)
| BranchStmt (Tok : token) (Label : option node)
| BlockStmt (List_ : list node)
| IfStmt (Init : option node) (Cond : node) (Body : node) (Else : option node)
| CaseClause (List_ : list node) (Body : list node)
| SwitchStmt (Init : option node) (Tag : option node) (Body : node)
| TypeSwitchStmt (Init : option node) (Assign : node) (Body : node)
| CommClause (Comm : option node) (Body : list node)
| SelectStmt (Body : node)
| ForStmt (Init : option node) (Cond : option node) (Post : option node) (Body : node)
| RangeStmt (Key : option node) (Value : option node) (X : node) (Body : node)
(* declarations *)
| ValueSpec (Names : list node) (Type_ : option node) (Values : list node)
| GenDecl (Specs : list node)
| FuncDecl (At : Position) (Recv : list node) (Name : node) (Type_ : node) (Body : option node)
| File (Name : node) (Decls : list node).

Definition optNode (o : option node) : list node :=
  match o with Some n => [n] | None => [] end.

(** The children of a node, in the order [ast.Walk] descends into them. *)
Definition children (n : node) : list node :=
  match n with
  | Ident _ | BasicLit _ | EmptyStmt => []
  | FuncLit t b => [t; b]
  | CompositeLit t elts => optNode t ++ elts
  | ParenExpr x | StarExpr x | UnaryExpr _ x | ChanType x => [x]
  | SelectorExpr x sel => [x; sel]
  | IndexExpr x i => [x; i]
  | CallExpr f args => f :: args
  | BinaryExpr x _ y => [x; y]
  | KeyValueExpr k v => [k; v]
  | FuncType ps rs => ps ++ rs
  | Field names t => names ++ [t]
  | DeclStmt d => [d]
  | LabeledStmt l s => [l; s]
  | ExprStmt x | IncDecStmt x _ => [x]
  | SendStmt c v => [c; v]
  | AssignStmt lhs _ rhs => lhs ++ rhs
  | GoStmt _ c | DeferStmt c => [c]
  | ReturnStmt rs => rs
  | BranchStmt _ l => optNode l
  | BlockStmt l => l
  | IfStmt i c b e => optNode i ++ c :: b :: optNode e
  | CaseClause l b => l ++ b
  | SwitchStmt i t b => optNode i ++ optNode t ++ [b]
  | TypeSwitchStmt i a b => optNode i ++ [a; b]
  | CommClause c b => optNode c ++ b
  | SelectStmt b => [b]
  | ForStmt i c p b => optNode i ++ optNode c ++ optNode p ++ [b]
  | RangeStmt k v x b => optNode k ++ optNode v ++ [x; b]
  | ValueSpec names t vs => names ++ optNode t ++ vs
  | GenDecl specs => specs
  | FuncDecl _ recv name t b => recv ++ name :: t :: optNode b
  | File name decls => name :: decls
  end.

(** [ast.Inspect(n, f)] for a callback that always returns [true] (every
    callback of the passes below does, so the walk never prunes): [f] sees
    the node, then the walk descends into each child in turn.  The mutable
    variables the Go closure captures are the state [S] threaded here. *)
Section Inspect.
Context {S : Type} (f : node -> S -> S).

Fixpoint Inspect (n : node) (s : S) {struct n} : S :=
  let s := f n s in
  let opt o s := match o with Some x => Inspect x s | None => s end in
  let all l s := fold_left (fun s x => Inspect x s) l s in
  match n with
  | Ident _ | BasicLit _ | EmptyStmt => s
  | FuncLit t b => Inspect b (Inspect t s)
  | CompositeLit t elts => all elts (opt t s)
  | ParenExpr x | StarExpr x | UnaryExpr _ x | ChanType x => Inspect x s
  | SelectorExpr x sel => Inspect sel (Inspect x s)
  | IndexExpr x i => Inspect i (Inspect x s)
  | CallExpr fn args => all args (Inspect fn s)
  | BinaryExpr x _ y => Inspect y (Inspect x s)
  | KeyValueExpr k v => Inspect v (Inspect k s)
  | FuncType ps rs => all rs (all ps s)
  | Field names t => Inspect t (all names s)
  | DeclStmt d => Inspect d s
  | LabeledStmt l st => Inspect st (Inspect l s)
  | ExprStmt x | IncDecStmt x _ => Inspect x s
  | SendStmt c v => Inspect v (Inspect c s)
  | AssignStmt lhs _ rhs => all rhs (all lhs s)
  | GoStmt _ c | DeferStmt c => Inspect c s
  | ReturnStmt rs => all rs s
  | BranchStmt _ l => opt l s
  | BlockStmt l => all l s
  | IfStmt i c b e => opt e (Inspect b (Inspect c (opt i s)))
  | CaseClause l b => all b (all l s)
  | SwitchStmt i t b => Inspect b (opt t (opt i s))
  | TypeSwitchStmt i a b => Inspect b (Inspect a (opt i s))
  | CommClause c b => all b (opt c s)
  | SelectStmt b => Inspect b s
  | ForStmt i c p b => Inspect b (opt p (opt c (opt i s)))
  | RangeStmt k v x b => Inspect b (Inspect x (opt v (opt k s)))
  | ValueSpec names t vs => all vs (opt t (all names s))
  | GenDecl specs => all specs s
  | FuncDecl _ recv name t b => opt b (Inspect t (Inspect name (all recv s)))
  | File name decls => all decls (Inspect name s)
  end.
End Inspect.

(** All nodes of a subtree in the order [ast.Inspect] visits them. *)
Fixpoint preorder (n : node) {struct n} : list node :=
  let opt o := match o with Some x => preorder x | None => [] end in
  let all l := flat_map preorder l in
  n ::
  match n with
  | Ident _ | BasicLit _ | EmptyStmt => []
  | FuncLit t b => preorder t ++ preorder b
  | CompositeLit t elts => opt t ++ all elts
  | ParenExpr x | StarExpr x | UnaryExpr _ x | ChanType x => preorder x
  | SelectorExpr x sel => preorder x ++ preorder sel
  | IndexExpr x i => preorder x ++ preorder i
  | CallExpr fn args => preorder fn ++ all args
  | BinaryExpr x _ y => preorder x ++ preorder y
  | KeyValueExpr k v => preorder k ++ preorder v
  | FuncType ps rs => all ps ++ all rs
  | Field names t => all names ++ preorder t
  | DeclStmt d => preorder d
  | LabeledStmt l st => preorder l ++ preorder st
  | ExprStmt x | IncDecStmt x _ => preorder x
  | SendStmt c v => preorder c ++ preorder v
  | AssignStmt lhs _ rhs => all lhs ++ all rhs
  | GoStmt _ c | DeferStmt c => preorder c
  | ReturnStmt rs => all rs
  | BranchStmt _ l => opt l
  | BlockStmt l => all l
  | IfStmt i c b e => opt i ++ preorder c ++ preorder b ++ opt e
  | CaseClause l b => all l ++ all b
  | SwitchStmt i t b => opt i ++ opt t ++ preorder b
  | TypeSwitchStmt i a b => opt i ++ preorder a ++ preorder b
  | CommClause c b => opt c ++ all b
  | SelectStmt b => preorder b
  | ForStmt i c p b => opt i ++ opt c ++ opt p ++ preorder b
  | RangeStmt k v x b => opt k ++ opt v ++ preorder x ++ preorder b
  | ValueSpec names t vs => all names ++ opt t ++ all vs
  | GenDecl specs => all specs
  | FuncDecl _ recv name t b => all recv ++ preorder name ++ preorder t ++ opt b
  | File name decls => preorder name ++ all decls
  end.

(* ================================================================== *)
(** ** The parts of Go's [strings] and [fmt] the passes call *)
(* ================================================================== *)

(** [strings.Contains]: some suffix of [s] starts with [substr]. *)
Fixpoint strings_Contains (s substr : string) : bool :=
  if String.prefix substr s then true
  else match s with
       | EmptyString => false
       | String _ s' => strings_Contains s' substr
       end.

(** What the passes take from the Go implementation they run on: the width
    of [int], 64 bits or 32 ([strconv.IntSize]), and [strings.Map(unicode.ToLower, s)],
    the case mapping [strings.ToLower] applies to a string that is not all
    ASCII (it lowers [U+0130] to [i] and [U+212A] to [k], for instance). *)
Class Platform : Type := {
  int64 : bool;
  unicode_ToLower : string -> string
}.

(** The implementation the examples run on: 64-bit; their strings are
    ASCII, on which the case mapping of [unicode] is not called. *)
Definition amd64 : Platform := {| int64 := true; unicode_ToLower := fun s => s |}.
#[global] Existing Instance amd64.

(** The same with a 32-bit [int]. *)
Definition ia32 : Platform := {| int64 := false; unicode_ToLower := fun s => s |}.

(** [strings.ToLower]: a string of bytes below [utf8.RuneSelf] has its
    letters [A] to [Z] lowered byte by byte; any other string goes through
    the case mapping of [unicode]. *)
Definition toLowerByte (c : ascii) : ascii :=
  let n := N_of_ascii c in
  if ((65 <=? n) && (n <=? 90))%N then ascii_of_N (n + 32) else c.

Fixpoint isASCII (s : string) : bool :=
  match s with
  | EmptyString => true
  | String c s' => (N_of_ascii c <? 128)%N && isASCII s'
  end.

Fixpoint lowerASCII (s : string) : string :=
  match s with
  | EmptyString => EmptyString
  | String c s' => String (toLowerByte c) (lowerASCII s')
  end.

Definition strings_ToLower {go : Platform} (s : string) : string :=
  if isASCII s then lowerASCII s else unicode_ToLower s.

(** Go's [int]: [intSize] bits in two's complement; a sum keeps the low
    bits of the exact result. *)
Definition intSize {go : Platform} : Z := if int64 then 64 else 32.

Definition maxInt {go : Platform} : Z := 2 ^ (intSize - 1) - 1.

Definition minInt {go : Platform} : Z := - 2 ^ (intSize - 1).

Definition int_wrap {go : Platform} (z : Z) : Z :=
  (z + 2 ^ (intSize - 1)) mod 2 ^ intSize - 2 ^ (intSize - 1).

Definition int_add {go : Platform} (a b : Z) : Z := int_wrap (a + b).

(** The [%d] verb of [fmt.Sprintf]. *)
Definition fmt_d (z : Z) : string := NilZero.string_of_int (Z.to_int z).

(** The [%v] verb of [fmt.Sprintf] on a [[]string]. *)
Definition fmt_v (l : list string) : string :=
  "[" +:+ String.concat " " l +:+ "]".

(** Go's [error]: [None] is [nil]. *)
Definition error : Type := option string.

(* ================================================================== *)
(** ** package valueobjects *)
(* ================================================================== *)

Module valueobjects.

(** [complexity.go] *)
Record ComplexityScore : Type := mkComplexityScore {
  cyclomatic : Z;
  cognitive : Z
}.

Definition zeroComplexityScore : ComplexityScore := mkComplexityScore 0 0.

Definition NewComplexityScore (cyclomatic cognitive : Z) : ComplexityScore * error :=
  if cyclomatic <? 1 then
    (zeroComplexityScore,
     Some ("cyclomatic complexity must be >= 1, got " +:+ fmt_d cyclomatic))
  else if cognitive <? 0 then
    (zeroComplexityScore,
     Some ("cognitive complexity must be >= 0, got " +:+ fmt_d cognitive))
  else (mkComplexityScore cyclomatic cognitive, None).

Definition Cyclomatic (c : ComplexityScore) : Z := cyclomatic c.
Definition Cognitive (c : ComplexityScore) : Z := cognitive c.

Definition IsHighComplexity (c : ComplexityScore) : bool :=
  (cyclomatic c >? 15) || (cognitive c >? 20).

(** The configuration value object. *)
Inductive SeverityLevel : Type :=
| SeverityInfo | SeverityWarning | SeverityError | SeverityCritical.

Record AnalysisConfiguration : Type := mkAnalysisConfiguration {
  maxCyclomaticComplexity : Z;
  maxCognitiveComplexity : Z;
  maxFunctionLength : Z;
  enableSmellDetection : bool;
  severityThreshold : SeverityLevel
}.

Definition zeroAnalysisConfiguration : AnalysisConfiguration :=
  mkAnalysisConfiguration 0 0 0 false SeverityInfo.

Definition DefaultAnalysisConfiguration : AnalysisConfiguration :=
  mkAnalysisConfiguration 15 20 80 true SeverityWarning.

Definition NewAnalysisConfiguration (maxCyclomatic maxCognitive maxLength : Z)
    (enableSmells : bool) (severity : SeverityLevel) : AnalysisConfiguration * error :=
  if maxCyclomatic <? 1 then
    (zeroAnalysisConfiguration,
     Some ("max cyclomatic complexity must be >= 1, got " +:+ fmt_d maxCyclomatic))
  else if maxCognitive <? 0 then
    (zeroAnalysisConfiguration,
     Some ("max cognitive complexity must be >= 0, got " +:+ fmt_d maxCognitive))
  else if maxLength <? 1 then
    (zeroAnalysisConfiguration,
     Some ("max function length must be >= 1, got " +:+ fmt_d maxLength))
  else
    (mkAnalysisConfiguration maxCyclomatic maxCognitive maxLength enableSmells severity,
     None).

Definition WithMaxCyclomaticComplexity (c : AnalysisConfiguration) (max : Z)
    : AnalysisConfiguration :=
  mkAnalysisConfiguration max (maxCognitiveComplexity c) (maxFunctionLength c)
    (enableSmellDetection c) (severityThreshold c).

Definition WithMaxCognitiveComplexity (c : AnalysisConfiguration) (max : Z)
    : AnalysisConfiguration :=
  mkAnalysisConfiguration (maxCyclomaticComplexity c) max (maxFunctionLength c)
    (enableSmellDetection c) (severityThreshold c).

Definition WithMaxFunctionLength (c : AnalysisConfiguration) (max : Z)
    : AnalysisConfiguration :=
  mkAnalysisConfiguration (maxCyclomaticComplexity c) (maxCognitiveComplexity c) max
    (enableSmellDetection c) (severityThreshold c).

Definition WithSmellDetection (c : AnalysisConfiguration) (enabled : bool)
    : AnalysisConfiguration :=
  mkAnalysisConfiguration (maxCyclomaticComplexity c) (maxCognitiveComplexity c)
    (maxFunctionLength c) enabled (severityThreshold c).

Definition MaxCyclomaticComplexity (c : AnalysisConfiguration) : Z :=
  maxCyclomaticComplexity c.
Definition MaxCognitiveComplexity (c : AnalysisConfiguration) : Z :=
  maxCognitiveComplexity c.
Definition MaxFunctionLength (c : AnalysisConfiguration) : Z :=
  maxFunctionLength c.

(** The source location value object.  [filepath.Clean] belongs to Go's
    standard library; the constructor takes it as a parameter. *)
Record SourceLocation : Type := mkSourceLocation {
  filePath : string;
  line : Z;
  column : Z
}.

Definition zeroSourceLocation : SourceLocation := mkSourceLocation "" 0 0.

Definition NewSourceLocation (filepath_Clean : string -> string)
    (filePath : string) (line column : Z) : SourceLocation * error :=
  if String.eqb filePath "" then
    (zeroSourceLocation, Some "file path cannot be empty")
  else if line <? 1 then
    (zeroSourceLocation, Some ("line must be >= 1, got " +:+ fmt_d line))
  else if column <? 0 then
    (zeroSourceLocation, Some ("column must be >= 0, got " +:+ fmt_d column))
  else (mkSourceLocation (filepath_Clean filePath) line column, None).

End valueobjects.

(* ================================================================== *)
(** ** package entities *)
(* ================================================================== *)

Module entities.

Inductive FindingType : Type :=
| FindingTypeComplexity | FindingTypeSmell | FindingTypeSecurity
| FindingTypePerformance | FindingTypeBug.

(** The finding without its [timestamp] (the wall clock at construction)
    and its [metadata] (an empty map at construction); [Equals] ignores
    both. *)
Record AnalysisFinding : Type := mkAnalysisFinding {
  id : string;
  findingType : FindingType;
  location : valueobjects.SourceLocation;
  message : string;
  severity : valueobjects.SeverityLevel
}.

Definition zeroAnalysisFinding : AnalysisFinding :=
  mkAnalysisFinding "" FindingTypeComplexity valueobjects.zeroSourceLocation ""
    valueobjects.SeverityInfo.

Definition NewAnalysisFinding (id : string) (findingType : FindingType)
    (location : valueobjects.SourceLocation) (message : string)
    (severity : valueobjects.SeverityLevel) : AnalysisFinding * error :=
  if String.eqb id "" then
    (zeroAnalysisFinding, Some "finding ID cannot be empty")
  else if String.eqb message "" then
    (zeroAnalysisFinding, Some "finding message cannot be empty")
  else (mkAnalysisFinding id findingType location message severity, None).

End entities.

(* ================================================================== *)
(** ** package services *)
(* ================================================================== *)

(** The name held by a field of static type [*ast.Ident]. *)
Definition NameOf (n : node) : string :=
  match n with Ident name => name | _ => "" end.

(** The statement list of a field of static type [*ast.BlockStmt]. *)
Definition ListOf (n : node) : list node :=
  match n with BlockStmt l => l | _ => [] end.

Module services.

Section OnPlatform.
Context {go : Platform}.

(* ---------------------------------------------------------------- *)
(** *** Complexity calculator *)
(* ---------------------------------------------------------------- *)

(** The callback of [calculateCyclomaticComplexity]; the state is the
    captured variable [complexity]. *)
Definition cyclomaticVisit (n : node) (complexity : Z) : Z :=
  match n with
  | IfStmt _ _ _ _ => complexity + 1
  | ForStmt _ _ _ _ => complexity + 1
  | RangeStmt _ _ _ _ => complexity + 1
  | SwitchStmt _ _ _ => complexity + 1
  | TypeSwitchStmt _ _ _ => complexity + 1
  | SelectStmt _ => complexity + 1
  | BinaryExpr _ LAND _ | BinaryExpr _ LOR _ => complexity + 1
  | _ => complexity
  end.

Definition calculateCyclomaticComplexity (node : node) : Z :=
  Inspect cyclomaticVisit node 1.

(** The callback of [calculateCognitiveComplexity]; the state is the pair
    of the captured variables [complexity] and [nesting].  [isRoot] is the
    outcome of the pointer comparison [n == node], true at the first
    visited node only.  [chained cond body nesting] stands for the
    recursive call on the block built around the else-if branch.  The
    sums are sums of [int]s. *)
Definition cognitiveVisit (chained : node -> node -> Z -> Z) (isRoot : bool)
    (n : node) (st : Z * Z) : Z * Z :=
  let '(complexity, nesting) := st in
  match n with
  | IfStmt _ _ _ els =>
      let complexity := int_add complexity (int_add 1 nesting) in
      match els with
      | Some (IfStmt _ cond body _) =>
          (int_add complexity (chained cond body nesting), nesting)
      | _ => (complexity, nesting)
      end
  | ForStmt _ _ _ _ | RangeStmt _ _ _ _ =>
      (int_add complexity (int_add 1 nesting), nesting)
  | SwitchStmt _ _ _ | TypeSwitchStmt _ _ _ =>
      (int_add complexity (int_add 1 nesting), nesting)
  | SelectStmt _ => (int_add complexity (int_add 1 nesting), nesting)
  | BinaryExpr _ LAND _ | BinaryExpr _ LOR _ =>
      (int_add complexity (int_add 1 nesting), nesting)
  | BlockStmt _ =>
      if isRoot then (complexity, nesting) else (complexity, int_add nesting 1)
  | _ => (complexity, nesting)
  end.

(** The block [&ast.BlockStmt{List: []ast.Stmt{&ast.IfStmt{Cond: elseIf.Cond,
    Body: elseIf.Body}}}] the callback builds for an else-if branch. *)
Definition chainedBlock (cond body : node) : node :=
  BlockStmt [IfStmt None cond body None].

(** The walk of the callback below the root.  The recursive call of the
    source is on [chainedBlock cond body], which is no subterm of the
    visited node; it is unfolded by one step here: the fresh root block
    is not counted, its only statement is an [if] without [else], and the
    walk goes on into [cond] and [body].  Lemma [chained_is_recursive_call]
    shows that this is [calculateCognitiveComplexity (chainedBlock cond body)]. *)
Fixpoint cognitiveWalk (n : node) (st : Z * Z) {struct n} : Z * Z :=
  Inspect
    (cognitiveVisit
       (fun cond body nesting =>
          fst (cognitiveWalk body
                 (cognitiveWalk cond (int_add 0 (int_add 1 nesting), nesting))))
       false)
    n st.

Definition chainedScore (cond body : node) (nesting : Z) : Z :=
  fst (cognitiveWalk body
         (cognitiveWalk cond (int_add 0 (int_add 1 nesting), nesting))).

Definition calculateCognitiveComplexity (node : node) (nesting : Z) : Z :=
  fst (fold_left (fun st c => cognitiveWalk c st) (children node)
         (cognitiveVisit chainedScore true node (0, nesting))).

Definition CalculateComplexity (node : node) : valueobjects.ComplexityScore * error :=
  let cyclomatic := calculateCyclomaticComplexity node in
  let cognitive := calculateCognitiveComplexity node 0 in
  valueobjects.NewComplexityScore cyclomatic cognitive.

(* ---------------------------------------------------------------- *)
(** *** Goroutine leak detector *)
(* ---------------------------------------------------------------- *)

Record goroutineContext : Type := mkContext {
  hasChannelReceive : bool;
  hasChannelClose : bool;
  hasSelectStmt : bool;
  hasContextCancel : bool;
  hasTimeout : bool;
  hasPrematureReturn : bool;
  hasChannelSend : bool;
  hasDoubleSend : bool;
  hasDeferClose : bool;
  functionName : string;
  position : Position
}.

(** Assignments to one field of the context. *)
Definition setChannelReceive (c : goroutineContext) : goroutineContext :=
  mkContext true (hasChannelClose c) (hasSelectStmt c) (hasContextCancel c)
    (hasTimeout c) (hasPrematureReturn c) (hasChannelSend c) (hasDoubleSend c)
    (hasDeferClose c) (functionName c) (position c).
Definition setChannelClose (c : goroutineContext) : goroutineContext :=
  mkContext (hasChannelReceive c) true (hasSelectStmt c) (hasContextCancel c)
    (hasTimeout c) (hasPrematureReturn c) (hasChannelSend c) (hasDoubleSend c)
    (hasDeferClose c) (functionName c) (position c).
Definition setSelectStmt (c : goroutineContext) : goroutineContext :=
  mkContext (hasChannelReceive c) (hasChannelClose c) true (hasContextCancel c)
    (hasTimeout c) (hasPrematureReturn c) (hasChannelSend c) (hasDoubleSend c)
    (hasDeferClose c) (functionName c) (position c).
Definition setContextCancel (c : goroutineContext) : goroutineContext :=
  mkContext (hasChannelReceive c) (hasChannelClose c) (hasSelectStmt c) true
    (hasTimeout c) (hasPrematureReturn c) (hasChannelSend c) (hasDoubleSend c)
    (hasDeferClose c) (functionName c) (position c).
Definition setTimeout (c : goroutineContext) : goroutineContext :=
  mkContext (hasChannelReceive c) (hasChannelClose c) (hasSelectStmt c)
    (hasContextCancel c) true (hasPrematureReturn c) (hasChannelSend c)
    (hasDoubleSend c) (hasDeferClose c) (functionName c) (position c).
Definition setPrematureReturn (c : goroutineContext) : goroutineContext :=
  mkContext (hasChannelReceive c) (hasChannelClose c) (hasSelectStmt c)
    (hasContextCancel c) (hasTimeout c) true (hasChannelSend c) (hasDoubleSend c)
    (hasDeferClose c) (functionName c) (position c).
Definition setChannelSend (c : goroutineContext) : goroutineContext :=
  mkContext (hasChannelReceive c) (hasChannelClose c) (hasSelectStmt c)
    (hasContextCancel c) (hasTimeout c) (hasPrematureReturn c) true
    (hasDoubleSend c) (hasDeferClose c) (functionName c) (position c).
Definition setDoubleSend (c : goroutineContext) : goroutineContext :=
  mkContext (hasChannelReceive c) (hasChannelClose c) (hasSelectStmt c)
    (hasContextCancel c) (hasTimeout c) (hasPrematureReturn c) (hasChannelSend c)
    true (hasDeferClose c) (functionName c) (position c).
Definition setDeferClose (c : goroutineContext) : goroutineContext :=
  mkContext (hasChannelReceive c) (hasChannelClose c) (hasSelectStmt c)
    (hasContextCancel c) (hasTimeout c) (hasPrematureReturn c) (hasChannelSend c)
    (hasDoubleSend c) true (functionName c) (position c).
Definition setFunctionName (c : goroutineContext) (name : string) : goroutineContext :=
  mkContext (hasChannelReceive c) (hasChannelClose c) (hasSelectStmt c)
    (hasContextCancel c) (hasTimeout c) (hasPrematureReturn c) (hasChannelSend c)
    (hasDoubleSend c) (hasDeferClose c) name (position c).

Definition collectGoroutines (root : node) : list node :=
  Inspect (fun n goroutines =>
             match n with
             | GoStmt _ _ => goroutines ++ [n]
             | _ => goroutines
             end) root [].

Definition analyzeCallExpression (call : node) (context : goroutineContext)
    : goroutineContext :=
  match call with
  | CallExpr fn _ =>
      let context :=
        match fn with
        | Ident name => if String.eqb name "close" then setChannelClose context else context
        | _ => context
        end in
      match fn with
      | SelectorExpr (Ident name) sel =>
          if String.eqb name "ctx" || String.eqb name "context" then
            if String.eqb (NameOf sel) "Done" then setContextCancel context else context
          else context
      | _ => context
      end
  | _ => context
  end.

(** [gld.isContextDoneCall] *)
Definition gld_isContextDoneCall (expr : node) : bool :=
  match expr with
  | SelectorExpr x sel =>
      if String.eqb (NameOf sel) "Done" then
        match x with
        | Ident name =>
            strings_Contains (strings_ToLower name) "ctx"
            || strings_Contains (strings_ToLower name) "context"
        | _ => false
        end
      else false
  | _ => false
  end.

Definition isDoneChannel (expr : node) : bool :=
  match expr with
  | Ident ident =>
      let name := strings_ToLower ident in
      strings_Contains name "done" || strings_Contains name "quit"
      || strings_Contains name "stop" || strings_Contains name "cancel"
      || strings_Contains name "exit"
  | _ => false
  end.

(** [gld.isTimeoutCall] *)
Definition gld_isTimeoutCall (call : node) : bool :=
  match call with
  | CallExpr (SelectorExpr x sel) _ =>
      if String.eqb (NameOf sel) "After" then
        match x with Ident name => String.eqb name "time" | _ => false end
      else if String.eqb (NameOf sel) "WithTimeout"
              || String.eqb (NameOf sel) "WithDeadline" then
        match x with
        | Ident name => strings_Contains (strings_ToLower name) "context"
        | _ => false
        end
      else false
  | _ => false
  end.

(** One turn of the loop of [analyzeSelectStatement] over the clauses; the
    state is [(hasDefault, hasContextDone, hasTimeout)]. *)
Definition selectClauseStep (st : bool * bool * bool) (clause : node)
    : bool * bool * bool :=
  let '(hasDefault, hasContextDone, hasTimeout) := st in
  match clause with
  | CommClause None _ => (true, hasContextDone, hasTimeout)
  | CommClause (Some (ExprStmt comm)) _ =>
      let '(hasContextDone, hasTimeout) :=
        match comm with
        | UnaryExpr ARROW x =>
            let hasContextDone := if gld_isContextDoneCall x then true else hasContextDone in
            let hasContextDone := if isDoneChannel x then true else hasContextDone in
            let hasTimeout :=
              match x with
              | CallExpr _ _ => if gld_isTimeoutCall x then true else hasTimeout
              | _ => hasTimeout
              end in
            (hasContextDone, hasTimeout)
        | _ => (hasContextDone, hasTimeout)
        end in
      let hasTimeout :=
        match comm with
        | CallExpr _ _ => if gld_isTimeoutCall comm then true else hasTimeout
        | _ => hasTimeout
        end in
      (hasDefault, hasContextDone, hasTimeout)
  | _ => st
  end.

Definition analyzeSelectStatement (selectStmt : node) (context : goroutineContext)
    : goroutineContext :=
  match selectStmt with
  | SelectStmt body =>
      let '(hasDefault, hasContextDone, hasTimeout) :=
        fold_left selectClauseStep (ListOf body) (false, false, false) in
      let context :=
        if hasDefault || hasContextDone || hasTimeout
        then setContextCancel context else context in
      if hasTimeout then setTimeout context else context
  | _ => context
  end.

Definition sameChannel (chan1 chan2 : node) : bool :=
  match chan1, chan2 with
  | Ident name1, Ident name2 => String.eqb name1 name2
  | _, _ => false
  end.

Definition checkForDoubleSend (block sendStmt : node) (context : goroutineContext)
    : goroutineContext :=
  match sendStmt with
  | SendStmt chan_ _ =>
      let sendCount :=
        Inspect (fun n sendCount =>
                   match n with
                   | SendStmt c _ => if sameChannel chan_ c then sendCount + 1 else sendCount
                   | _ => sendCount
                   end) block 0 in
      if sendCount >? 1 then setDoubleSend context else context
  | _ => context
  end.

Definition checkDeferClose (deferStmt : node) (context : goroutineContext)
    : goroutineContext :=
  match deferStmt with
  | DeferStmt (CallExpr (Ident name) _) =>
      if String.eqb name "close" then setDeferClose context else context
  | _ => context
  end.

Definition checkPrematureReturn (block returnStmt : node) (context : goroutineContext)
    : goroutineContext :=
  if hasChannelReceive context || hasChannelSend context
  then setPrematureReturn context else context.

(** The callback of [analyzeFunctionBody]; the state is the context the
    Go code mutates through its pointer. *)
Definition functionBodyVisit (block : node) (n : node) (context : goroutineContext)
    : goroutineContext :=
  match n with
  | SendStmt _ _ => checkForDoubleSend block n (setChannelSend context)
  | UnaryExpr ARROW _ => setChannelReceive context
  | AssignStmt _ _ rhs =>
      fold_left (fun context r =>
                   match r with
                   | UnaryExpr ARROW _ => setChannelReceive context
                   | _ => context
                   end) rhs context
  | CallExpr _ _ => analyzeCallExpression n context
  | SelectStmt _ => analyzeSelectStatement n (setSelectStmt context)
  | DeferStmt _ => checkDeferClose n context
  | ReturnStmt _ => checkPrematureReturn block n context
  | _ => context
  end.

Definition analyzeFunctionBody (block : node) (context : goroutineContext)
    : goroutineContext :=
  Inspect (functionBodyVisit block) block context.

(** The context [analyzeGoroutine] has built when it reaches
    [checkLeakPatterns]. *)
Definition goroutineContextOf (goStmt : node) : goroutineContext :=
  match goStmt with
  | GoStmt pos (CallExpr fn _) =>
      let context :=
        mkContext false false false false false false false false false
          "anonymous_goroutine" pos in
      let context :=
        match fn with
        | CallExpr (Ident name) _ => setFunctionName context name
        | _ => context
        end in
      let context :=
        match fn with
        | FuncLit _ body => analyzeFunctionBody body context
        | _ => context
        end in
      match fn with
      | CallExpr _ args =>
          fold_left (fun context arg =>
                       match arg with
                       | FuncLit _ body => analyzeFunctionBody body context
                       | _ => context
                       end) args context
      | _ => context
      end
  | GoStmt pos _ =>
      mkContext false false false false false false false false false
        "anonymous_goroutine" pos
  | _ =>
      mkContext false false false false false false false false false
        "anonymous_goroutine" (mkPosition "" 0 0)
  end.

(* ---------------------------------------------------------------- *)
(** *** Concurrency bug detector: tallies and predicates *)
(* ---------------------------------------------------------------- *)

Inductive BlockingCause : Type :=
| BlockingCauseChannelMisuse | BlockingCauseSharedMemorySync | BlockingCauseDeadlock.

Definition BlockingCause_String (bc : BlockingCause) : string :=
  match bc with
  | BlockingCauseChannelMisuse => "channel_misuse"
  | BlockingCauseSharedMemorySync => "shared_memory_sync"
  | BlockingCauseDeadlock => "deadlock"
  end.

Record blockingPattern : Type := mkPattern {
  cause : BlockingCause;
  description : string
}.

(** [m[k] = append(m[k], op)] *)
Definition appendOp (m : gmap string (list string)) (k op : string)
    : gmap string (list string) :=
  <[k := default [] (m !! k) ++ [op]]> m.

(** The callback of the nested [ast.Inspect] of [analyzeCallForBlocking]. *)
Definition nestedMutexVisit (n : node) (mutexOps : gmap string (list string))
    : gmap string (list string) :=
  match n with
  | SelectorExpr (Ident id) sel =>
      match mutexOps !! id with
      | Some _ =>
          if String.eqb (NameOf sel) "Lock" || String.eqb (NameOf sel) "RLock"
          then appendOp mutexOps id "lock"
          else if String.eqb (NameOf sel) "Unlock" || String.eqb (NameOf sel) "RUnlock"
          then appendOp mutexOps id "unlock"
          else mutexOps
      | None => mutexOps
      end
  | _ => mutexOps
  end.

(** The first statement of [analyzeCallForBlocking]: the call itself. *)
Definition directMutexTally (call : node) (mutexOps : gmap string (list string))
    : gmap string (list string) :=
  match call with
  | CallExpr (SelectorExpr (Ident ident) sel) _ =>
      if String.eqb (NameOf sel) "Lock" || String.eqb (NameOf sel) "RLock"
      then appendOp mutexOps ident "lock"
      else if String.eqb (NameOf sel) "Unlock" || String.eqb (NameOf sel) "RUnlock"
      then appendOp mutexOps ident "unlock"
      else mutexOps
  | _ => mutexOps
  end.

Definition analyzeCallForBlocking (call : node) (mutexOps : gmap string (list string))
    : gmap string (list string) :=
  let mutexOps := directMutexTally call mutexOps in
  Inspect nestedMutexVisit call mutexOps.

(** [cbd.isTimeoutCall] *)
Definition cbd_isTimeoutCall (call : node) : bool :=
  match call with
  | CallExpr (SelectorExpr _ sel) _ =>
      String.eqb (NameOf sel) "After" || strings_Contains (NameOf sel) "Timeout"
  | _ => false
  end.

(** [cbd.isContextDoneCall] *)
Definition cbd_isContextDoneCall (expr : node) : bool :=
  let named (x sel : node) : option bool :=
    if String.eqb (NameOf sel) "Done" then
      match x with
      | Ident name =>
          Some (strings_Contains (strings_ToLower name) "ctx"
                || strings_Contains (strings_ToLower name) "context")
      | _ => None
      end
    else None in
  match expr with
  | SelectorExpr x sel =>
      match named x sel with Some b => b | None => false end
  | CallExpr (SelectorExpr x sel) _ =>
      match named x sel with Some b => b | None => false end
  | _ => false
  end.

(** One turn of the loop of [isPotentiallyBlockingSelect]; the state is
    [(hasDefault, hasTimeout, hasContextDone, caseCount)]. *)
Definition blockingClauseStep (st : bool * bool * bool * Z) (clause : node)
    : bool * bool * bool * Z :=
  let '(hasDefault, hasTimeout, hasContextDone, caseCount) := st in
  match clause with
  | CommClause None _ => (true, hasTimeout, hasContextDone, caseCount)
  | CommClause (Some comm) _ =>
      let caseCount := caseCount + 1 in
      match comm with
      | ExprStmt (UnaryExpr ARROW x) =>
          let hasContextDone := if cbd_isContextDoneCall x then true else hasContextDone in
          let hasTimeout :=
            match x with
            | CallExpr _ _ => if cbd_isTimeoutCall x then true else hasTimeout
            | _ => hasTimeout
            end in
          (hasDefault, hasTimeout, hasContextDone, caseCount)
      | _ => (hasDefault, hasTimeout, hasContextDone, caseCount)
      end
  | _ => st
  end.

Definition isPotentiallyBlockingSelect (selectStmt : node) : bool :=
  match selectStmt with
  | SelectStmt body =>
      let '(hasDefault, hasTimeout, hasContextDone, caseCount) :=
        fold_left blockingClauseStep (ListOf body) (false, false, false, 0) in
      (caseCount >=? 2) && negb hasDefault && negb hasTimeout && negb hasContextDone
  | _ => false
  end.

(** The two counters of [hasPotentialChannelBlock] after its loop. *)
Definition countOps (first second : string) (ops : list string) : Z * Z :=
  fold_left (fun '(a, b) op =>
               if String.eqb op first then (a + 1, b)
               else if String.eqb op second then (a, b + 1)
               else (a, b)) ops (0, 0).

Definition hasPotentialChannelBlock (ops : list string) : bool :=
  let '(sendCount, receiveCount) := countOps "send" "receive" ops in
  let totalOps := sendCount + receiveCount in
  if totalOps <? 2 then false
  else ((sendCount >? receiveCount * 2) && (sendCount >? 1))
       || ((receiveCount >? sendCount * 2) && (receiveCount >? 1)).

Definition hasPotentialDeadlock (ops : list string) : bool :=
  let '(lockCount, unlockCount) := countOps "lock" "unlock" ops in
  lockCount >? unlockCount + 1.

(** The state of the callback of [analyzeBlockingPatterns]: the slice
    [patterns] and the two tallies. *)
Record blockingState : Type := mkBlockingState {
  patterns : list blockingPattern;
  channelOps : gmap string (list string);
  mutexOps : gmap string (list string)
}.

Definition selectPattern : blockingPattern :=
  mkPattern BlockingCauseChannelMisuse
    "select statement without default or timeout case may block indefinitely".

Definition channelPattern (channelName : string) (ops : list string) : blockingPattern :=
  mkPattern BlockingCauseChannelMisuse
    ("channel '" +:+ channelName +:+ "' operations may cause blocking: " +:+ fmt_v ops).

Definition mutexPattern (mutexName : string) (ops : list string) : blockingPattern :=
  mkPattern BlockingCauseDeadlock
    ("mutex '" +:+ mutexName +:+ "' usage pattern may cause deadlock: " +:+ fmt_v ops).

(** The callback of [analyzeBlockingPatterns]; [recur] is the function
    itself, called on the body of a spawned function literal. *)
Definition blockingVisit (recur : node -> list blockingPattern)
    (n : node) (st : blockingState) : blockingState :=
  match n with
  | SendStmt (Ident name) _ =>
      mkBlockingState (patterns st) (appendOp (channelOps st) name "send") (mutexOps st)
  | UnaryExpr ARROW (Ident name) =>
      mkBlockingState (patterns st) (appendOp (channelOps st) name "receive") (mutexOps st)
  | CallExpr _ _ =>
      mkBlockingState (patterns st) (channelOps st) (analyzeCallForBlocking n (mutexOps st))
  | GoStmt _ (CallExpr (FuncLit _ body) _) =>
      mkBlockingState (patterns st ++ recur body) (channelOps st) (mutexOps st)
  | SelectStmt _ =>
      if isPotentiallyBlockingSelect n
      then mkBlockingState (patterns st ++ [selectPattern]) (channelOps st) (mutexOps st)
      else st
  | _ => st
  end.

(** The two loops after the walk.  Go leaves the order in which [range]
    yields the entries of a map unspecified; [map_to_list] fixes one. *)
Definition channelImbalancePatterns (channelOps : gmap string (list string))
    : list blockingPattern :=
  flat_map (fun '(channelName, ops) =>
              if hasPotentialChannelBlock ops
              then [channelPattern channelName ops] else [])
    (map_to_list channelOps).

Definition mutexImbalancePatterns (mutexOps : gmap string (list string))
    : list blockingPattern :=
  flat_map (fun '(mutexName, ops) =>
              if hasPotentialDeadlock ops
              then [mutexPattern mutexName ops] else [])
    (map_to_list mutexOps).

Definition tallyPatterns (st : blockingState) : list blockingPattern :=
  patterns st
  ++ channelImbalancePatterns (channelOps st)
  ++ mutexImbalancePatterns (mutexOps st).

Fixpoint analyzeBlockingPatterns (block : node) {struct block} : list blockingPattern :=
  tallyPatterns
    (Inspect (blockingVisit analyzeBlockingPatterns) block (mkBlockingState [] ∅ ∅)).

(** [containsGoroutines]: its callback stops descending below the first
    spawn statement, which changes nothing in the flag it returns. *)
Definition containsGoroutines (block : node) : bool :=
  existsb (fun n => match n with GoStmt _ _ => true | _ => false end) (preorder block).

Record raceConditionPattern : Type := mkRacePattern {
  race_description : string
}.

Definition analyzeRaceConditionPatterns (block : node) : list raceConditionPattern := [].

Section WithClean.
(** [path/filepath.Clean] of Go's standard library. *)
Variable filepath_Clean : string -> string.

Definition locationOf (p : Position) : valueobjects.SourceLocation :=
  fst (valueobjects.NewSourceLocation filepath_Clean (Filename p) (Line p) (Column p)).

Definition checkLeakPatterns (context : goroutineContext)
    : list entities.AnalysisFinding :=
  let findings : list entities.AnalysisFinding := [] in
  let location := locationOf (position context) in
  let hasOperations :=
    hasChannelReceive context || hasChannelSend context || hasSelectStmt context in
  if negb hasOperations then findings
  else
    let findings :=
      if hasChannelReceive context && negb (hasChannelClose context)
         && negb (hasContextCancel context)
      then
        findings ++
        [fst (entities.NewAnalysisFinding
                ("channel_receive_leak_" +:+ functionName context +:+ "_"
                 +:+ fmt_d (Line (position context)))
                entities.FindingTypeSmell
                location
                ("Potential goroutine leak in " +:+ functionName context
                 +:+ ": channel_receive_leak detected - channel receive without close operation (confidence: 0.42)")
                valueobjects.SeverityWarning)]
      else findings in
    let findings :=
      if hasSelectStmt context && negb (hasContextCancel context)
         && negb (hasTimeout context)
      then
        findings ++
        [fst (entities.NewAnalysisFinding
                ("select_statement_leak_" +:+ functionName context +:+ "_"
                 +:+ fmt_d (Line (position context)))
                entities.FindingTypeSmell
                location
                ("Potential goroutine leak in " +:+ functionName context
                 +:+ ": select_statement_leak detected - select statement without escape hatch (context cancel or timeout) (confidence: 0.86)")
                valueobjects.SeverityError)]
      else findings in
    let findings :=
      if hasChannelSend context && hasPrematureReturn context
         && negb (hasDeferClose context)
      then
        findings ++
        [fst (entities.NewAnalysisFinding
                ("channel_send_leak_" +:+ functionName context +:+ "_"
                 +:+ fmt_d (Line (position context)))
                entities.FindingTypeSmell
                location
                ("Potential goroutine leak in " +:+ functionName context
                 +:+ ": channel_send_leak detected - channel send with premature return (confidence: 0.57)")
                valueobjects.SeverityWarning)]
      else findings in
    findings.

Definition analyzeGoroutine (goStmt : node) : list entities.AnalysisFinding :=
  checkLeakPatterns (goroutineContextOf goStmt).

Definition DetectLeaks (root : node) : list entities.AnalysisFinding * error :=
  let goroutines := collectGoroutines root in
  (fold_left (fun findings goStmt =>
                let leakFindings := analyzeGoroutine goStmt in
                if (Z.of_nat (length leakFindings) >? 0)
                then findings ++ leakFindings else findings)
     goroutines [],
   None).

(** The finding one turn of the loop of [detectBlockingBugs] builds
    for [pattern]; [pos] and [name] are the position and the name of
    the function declaration. *)
Definition blockingFinding (pos : Position) (name : node) (pattern : blockingPattern)
    : entities.AnalysisFinding :=
  let location := locationOf pos in
  let '(message, severity) :=
    match cause pattern with
    | BlockingCauseChannelMisuse =>
        ("Potential blocking bug in " +:+ NameOf name
         +:+ ": channel misuse detected - " +:+ description pattern,
         valueobjects.SeverityWarning)
    | BlockingCauseSharedMemorySync =>
        ("Potential blocking bug in " +:+ NameOf name
         +:+ ": shared memory synchronization issue - " +:+ description pattern,
         valueobjects.SeverityError)
    | BlockingCauseDeadlock =>
        ("Potential blocking bug in " +:+ NameOf name
         +:+ ": deadlock pattern detected - " +:+ description pattern,
         valueobjects.SeverityCritical)
    end in
  fst (entities.NewAnalysisFinding
         (BlockingCause_String (cause pattern) +:+ "_" +:+ NameOf name
          +:+ "_" +:+ fmt_d (Line pos))
         entities.FindingTypeBug
         location
         message
         severity).

Definition detectBlockingBugs (funcDecl : node) : list entities.AnalysisFinding :=
  match funcDecl with
  | FuncDecl pos _ name _ (Some body) =>
      let blockingPatterns := analyzeBlockingPatterns body in
      fold_left
        (fun findings pattern => findings ++ [blockingFinding pos name pattern])
        blockingPatterns []
  | _ => []
  end.

Definition detectRaceConditions (funcDecl : node) : list entities.AnalysisFinding :=
  match funcDecl with
  | FuncDecl pos _ name _ (Some body) =>
      if negb (containsGoroutines body) then []
      else
        fold_left
          (fun findings pattern =>
             findings ++
             [fst (entities.NewAnalysisFinding
                     ("race_condition_" +:+ NameOf name +:+ "_" +:+ fmt_d (Line pos))
                     entities.FindingTypeBug
                     (locationOf pos)
                     ("Potential race condition in " +:+ NameOf name +:+ ": "
                      +:+ race_description pattern)
                     valueobjects.SeverityCritical)])
          (analyzeRaceConditionPatterns body) []
  | _ => []
  end.

Definition analyzeFunctionConcurrency (funcDecl : node) : list entities.AnalysisFinding :=
  match funcDecl with
  | FuncDecl _ _ _ _ None => []
  | _ => detectBlockingBugs funcDecl ++ detectRaceConditions funcDecl
  end.

Definition DetectBugs (root : node) : list entities.AnalysisFinding * error :=
  (Inspect (fun n findings =>
              match n with
              | FuncDecl _ _ _ _ _ =>
                  let bugFindings := analyzeFunctionConcurrency n in
                  if (Z.of_nat (length bugFindings) >? 0)
                  then findings ++ bugFindings else findings
              | _ => findings
              end) root [],
   None).

End WithClean.

End OnPlatform.

End services.

(* ================================================================== *)
(** ** Notions of the specification *)
(* ================================================================== *)

(** The conditional branch constructs of the cyclomatic rule. *)
Definition isBranchConstruct (n : node) : bool :=
  match n with
  | IfStmt _ _ _ _ | ForStmt _ _ _ _ | RangeStmt _ _ _ _
  | SwitchStmt _ _ _ | TypeSwitchStmt _ _ _ | SelectStmt _ => true
  | _ => false
  end.

(** The short-circuit boolean operators. *)
Definition isShortCircuit (n : node) : bool :=
  match n with
  | BinaryExpr _ LAND _ | BinaryExpr _ LOR _ => true
  | _ => false
  end.

(** Number of nodes of a subtree that satisfy [p]. *)
Definition occurrences (p : node -> bool) (n : node) : Z :=
  Z.of_nat (length (List.filter p (preorder n))).

(** The field invariants the specification states for a configuration. *)
Definition configurationInvariant (c : valueobjects.AnalysisConfiguration) : Prop :=
  1 <= valueobjects.maxCyclomaticComplexity c
  /\ 0 <= valueobjects.maxCognitiveComplexity c
  /\ 1 <= valueobjects.maxFunctionLength c.

(** The "with-X" operations of the public surface. *)
Inductive withOperation : Type :=
| OpMaxCyclomatic (max : Z)
| OpMaxCognitive (max : Z)
| OpMaxFunctionLength (max : Z)
| OpSmellDetection (enabled : bool).

Definition applyWith (c : valueobjects.AnalysisConfiguration) (op : withOperation)
    : valueobjects.AnalysisConfiguration :=
  match op with
  | OpMaxCyclomatic max => valueobjects.WithMaxCyclomaticComplexity c max
  | OpMaxCognitive max => valueobjects.WithMaxCognitiveComplexity c max
  | OpMaxFunctionLength max => valueobjects.WithMaxFunctionLength c max
  | OpSmellDetection enabled => valueobjects.WithSmellDetection c enabled
  end.

(** The argument of a "with-X" operation respects the bound of its field. *)
Definition withOperationInBounds (op : withOperation) : Prop :=
  match op with
  | OpMaxCyclomatic max => 1 <= max
  | OpMaxCognitive max => 0 <= max
  | OpMaxFunctionLength max => 1 <= max
  | OpSmellDetection _ => True
  end.

(** A walk in the order of [ast.Inspect] that also hands an inherited
    context [c] down the tree: [down n c] is the context of the children of
    [n], and leaving [n] restores the context [n] was entered with. *)
Section InspectIn.
Context {C S : Type} (down : node -> C -> C) (f : node -> C -> S -> S).

Fixpoint InspectIn (n : node) (c : C) (s : S) {struct n} : S :=
  let s := f n c s in
  let c := down n c in
  let opt o s := match o with Some x => InspectIn x c s | None => s end in
  let all l s := fold_left (fun s x => InspectIn x c s) l s in
  match n with
  | Ident _ | BasicLit _ | EmptyStmt => s
  | FuncLit t b => InspectIn b c (InspectIn t c s)
  | CompositeLit t elts => all elts (opt t s)
  | ParenExpr x | StarExpr x | UnaryExpr _ x | ChanType x => InspectIn x c s
  | SelectorExpr x sel => InspectIn sel c (InspectIn x c s)
  | IndexExpr x i => InspectIn i c (InspectIn x c s)
  | CallExpr fn args => all args (InspectIn fn c s)
  | BinaryExpr x _ y => InspectIn y c (InspectIn x c s)
  | KeyValueExpr k v => InspectIn v c (InspectIn k c s)
  | FuncType ps rs => all rs (all ps s)
  | Field names t => InspectIn t c (all names s)
  | DeclStmt d => InspectIn d c s
  | LabeledStmt l st => InspectIn st c (InspectIn l c s)
  | ExprStmt x | IncDecStmt x _ => InspectIn x c s
  | SendStmt ch v => InspectIn v c (InspectIn ch c s)
  | AssignStmt lhs _ rhs => all rhs (all lhs s)
  | GoStmt _ cl | DeferStmt cl => InspectIn cl c s
  | ReturnStmt rs => all rs s
  | BranchStmt _ l => opt l s
  | BlockStmt l => all l s
  | IfStmt i cnd b e => opt e (InspectIn b c (InspectIn cnd c (opt i s)))
  | CaseClause l b => all b (all l s)
  | SwitchStmt i t b => InspectIn b c (opt t (opt i s))
  | TypeSwitchStmt i a b => InspectIn b c (InspectIn a c (opt i s))
  | CommClause cm b => all b (opt cm s)
  | SelectStmt b => InspectIn b c s
  | ForStmt i cnd p b => InspectIn b c (opt p (opt cnd (opt i s)))
  | RangeStmt k v x b => InspectIn b c (InspectIn x c (opt v (opt k s)))
  | ValueSpec names t vs => all vs (opt t (all names s))
  | GenDecl specs => all specs s
  | FuncDecl _ recv name t b => opt b (InspectIn t c (InspectIn name c (all recv s)))
  | File name decls => all decls (InspectIn name c s)
  end.
End InspectIn.

(** The cognitive complexity as the specification defines it.  The
    inherited context is [(inFunction, nesting)]: the outermost block of the
    function is entered without counting, every block below it raises the
    nesting by one for the statements it holds, and the nesting is back to
    its previous value after the block.  Every if, loop, switch, type
    switch, select and short-circuit operator adds [1 + nesting].  An
    else-if branch is the [Else] field of its [if]: it is met once, in the
    context of that [if]. *)
Definition referenceDown (n : node) (c : bool * Z) : bool * Z :=
  match n with
  | BlockStmt _ => if fst c then (true, snd c + 1) else (true, snd c)
  | _ => c
  end.

Definition referenceScore (n : node) (c : bool * Z) (total : Z) : Z :=
  if isBranchConstruct n || isShortCircuit n then total + (1 + snd c) else total.

Definition cognitiveReference (function : node) : Z :=
  InspectIn referenceDown referenceScore function (false, 0) 0.

(** Programs used below.  [func name() { body }] declared at [pos]. *)
Definition funcDecl (pos : Position) (name : string) (body : list node) : node :=
  FuncDecl pos [] (Ident name) (FuncType [] []) (Some (BlockStmt body)).

(** [go func() { body }()] at [pos]. *)
Definition spawn (pos : Position) (body : list node) : node :=
  GoStmt pos (CallExpr (FuncLit (FuncType [] []) (BlockStmt body)) []).

(** [if cond { }] *)
Definition emptyIf (cond : string) : node :=
  IfStmt None (Ident cond) (BlockStmt []) None.

(** [func f() { if a { } }] *)
Definition oneIf : node :=
  funcDecl (mkPosition "a.go" 3 1) "f" [emptyIf "a"].

(** [func f() { if a { }; if b { } }] *)
Definition twoIfs : node :=
  funcDecl (mkPosition "a.go" 3 1) "f" [emptyIf "a"; emptyIf "b"].

(** [func f() { if a { } else if b { } }] *)
Definition elseIfChain : node :=
  funcDecl (mkPosition "a.go" 3 1) "f"
    [IfStmt None (Ident "a") (BlockStmt []) (Some (emptyIf "b"))].

(** [go func() { if stop { return }; ch <- 1 }()] *)
Definition returnThenSend : node :=
  spawn (mkPosition "a.go" 5 2)
    [IfStmt None (Ident "stop") (BlockStmt [ReturnStmt []]) None;
     SendStmt (Ident "ch") (BasicLit "1")].

(** [go func() { ch <- 1; if stop { return } }()] *)
Definition sendThenReturn : node :=
  spawn (mkPosition "a.go" 5 2)
    [SendStmt (Ident "ch") (BasicLit "1");
     IfStmt None (Ident "stop") (BlockStmt [ReturnStmt []]) None].

(** A node is a channel send or a channel receive. *)
Definition isChannelOperation (n : node) : bool :=
  match n with
  | SendStmt _ _ | UnaryExpr ARROW _ => true
  | _ => false
  end.

Definition isReturn (n : node) : bool :=
  match n with ReturnStmt _ => true | _ => false end.

(** The inline body of a spawn statement [go func() { ... }()]. *)
Definition inlineBody (goStmt : node) : option node :=
  match goStmt with
  | GoStmt _ (CallExpr (FuncLit _ body) _) => Some body
  | _ => None
  end.

(** [go func() { val := <-ch }()] at [pos]. *)
Definition receiveOnly (pos : Position) (val ch : string) : node :=
  spawn pos [AssignStmt [Ident val] DEFINE [UnaryExpr ARROW (Ident ch)]].

(** A file of package [pkg] whose only function, [name] declared at [fpos],
    has that spawn statement as its body. *)
Definition receiveOnlyFile (pkg : string) (fpos : Position) (name : string)
    (pos : Position) (val ch : string) : node :=
  File (Ident pkg) [funcDecl fpos name [receiveOnly pos val ch]].

(** Number of operations tagged [tag] in a tally. *)
Definition tallyCount (tag : string) (ops : list string) : Z :=
  Z.of_nat (length (List.filter (fun op => String.eqb op tag) ops)).

(** The imbalance condition of the specification on a tally. *)
Definition channelImbalance (ops : list string) : Prop :=
  let sends := tallyCount "send" ops in
  let receives := tallyCount "receive" ops in
  2 <= sends + receives /\ (sends > 2 * receives \/ receives > 2 * sends).

(** [ch <- v] for each value of [vs], in turn. *)
Definition sends (ch : string) (vs : list string) : list node :=
  List.map (fun v => SendStmt (Ident ch) (BasicLit v)) vs.

(** [func name() { ch <- 1; ...; ch <- 15; <-ch }] in a file of package
    [pkg]. *)
Definition fifteenSends (pkg : string) (pos : Position) (name ch : string) : node :=
  File (Ident pkg)
    [funcDecl pos name
       (sends ch ["1"; "2"; "3"; "4"; "5"; "6"; "7"; "8"; "9"; "10";
                  "11"; "12"; "13"; "14"; "15"]
        ++ [ExprStmt (UnaryExpr ARROW (Ident ch))])].

Definition isFuncDecl (n : node) : bool :=
  match n with FuncDecl _ _ _ _ _ => true | _ => false end.

(** [var mu sync.Mutex] *)
Definition declareMutex (mu : string) : node :=
  DeclStmt (GenDecl [ValueSpec [Ident mu]
                       (Some (SelectorExpr (Ident "sync") (Ident "Mutex"))) []]).

(** [x.method()] as a statement. *)
Definition callMethod (x method : string) : node :=
  ExprStmt (CallExpr (SelectorExpr (Ident x) (Ident method)) []).

(** The program of the test "Mutex deadlock - lock without unlock":
    [func test() { var mu sync.Mutex; mu.Lock() }], its function declared
    at [pos]. *)
Definition lockWithoutUnlockAt (pos : Position) : node :=
  File (Ident "main")
    [funcDecl pos "test" [declareMutex "mu"; callMethod "mu" "Lock"]].

(** The tests parse the program from a string under the empty file name,
    which puts the declaration at line 4, column 1 of file "". *)
Definition testPosition : Position := mkPosition "" 4 1.

Definition lockWithoutUnlock : node := lockWithoutUnlockAt testPosition.

(** The same declaration in a file with a name. *)
Definition namedPosition : Position := mkPosition "main.go" 4 1.

(** [case <-ch:] with an empty body. *)
Definition receiveClause (ch : string) : node :=
  CommClause (Some (ExprStmt (UnaryExpr ARROW (Ident ch)))) [].

(** [go func() { select { case <-ch1: case <-ch2: } }()] at [pos]. *)
Definition selectTwo (pos : Position) (ch1 ch2 : string) : node :=
  spawn pos [SelectStmt (BlockStmt [receiveClause ch1; receiveClause ch2])].

(** The enclosing tree: a file of package [pkg] with one function [name],
    declared at [fpos], whose body is the spawn statement at [gpos]. *)
Definition selectTwoFile (pkg : string) (fpos : Position) (name : string)
    (gpos : Position) (ch1 ch2 : string) : node :=
  File (Ident pkg) [funcDecl fpos name [selectTwo gpos ch1 ch2]].

(** The program of the test "Select statement leak - no escape hatch". *)
Definition selectLeakTest : node :=
  selectTwoFile "main" (mkPosition "" 3 1) "test" (mkPosition "" 6 2) "ch1" "ch2".

(** The method names the lock tally recognizes. *)
Definition isLockName (s : string) : bool :=
  String.eqb s "Lock" || String.eqb s "RLock".

Definition isUnlockName (s : string) : bool :=
  String.eqb s "Unlock" || String.eqb s "RUnlock".

(** [x] is a call [m.Lock()] or [m.RLock()]. *)
Definition isLockCall (m : string) (x : node) : bool :=
  match x with
  | CallExpr (SelectorExpr (Ident id) sel) _ => String.eqb id m && isLockName (NameOf sel)
  | _ => false
  end.

(** The subtree holds a call [m.Lock()] or [m.RLock()]. *)
Definition callsLock (m : string) (n : node) : bool :=
  existsb (isLockCall m) (preorder n).

(** No statement of the subtree spawns a function literal. *)
Definition noInlineSpawn (n : node) : bool :=
  forallb (fun x => match inlineBody x with Some _ => false | None => true end)
    (preorder n).

(** [func test() { go func() { mu.Lock() }() }]: one [Lock] call in the
    whole function, no [Unlock]. *)
Definition lockInSpawn : node :=
  File (Ident "main")
    [funcDecl (mkPosition "main.go" 4 1) "test"
       [spawn (mkPosition "main.go" 5 2) [callMethod "mu" "Lock"]]].

(** Number of operations tallied for [m]. *)
Definition lockCount (m : string) (mo : gmap string (list string)) : nat :=
  length (default [] (mo !! m)).

(** The program of the test "Channel receive leak": a function that spawns
    [go func() { val := <-ch }()]. *)
Definition receiveLeakSpawn : node :=
  receiveOnly (mkPosition "main.go" 5 2) "val" "ch".

Definition receiveLeakTest : node :=
  File (Ident "main")
    [funcDecl (mkPosition "main.go" 3 1) "test"
       [AssignStmt [Ident "ch"] DEFINE [CallExpr (Ident "make") [ChanType (Ident "int")]];
        receiveLeakSpawn]].

(** Programs of the repository's test suites, wrapped the way the tests
    parse them: package [main], one function [test], empty file name. *)
Definition testFile (body : list node) : node :=
  File (Ident "main") [funcDecl (mkPosition "" 3 1) "test" body].

(** [ch := make(chan int)] *)
Definition makeChan (ch : string) : node :=
  AssignStmt [Ident ch] DEFINE [CallExpr (Ident "make") [ChanType (Ident "int")]].

(** "Proper mutex usage - no bugs" *)
Definition testProperMutex : node :=
  testFile [declareMutex "mu";
            DeclStmt (GenDecl [ValueSpec [Ident "counter"] (Some (Ident "int")) []]);
            callMethod "mu" "Lock";
            IncDecStmt (Ident "counter") INC;
            callMethod "mu" "Unlock"].

(** "Complex deadlock scenario" *)
Definition testComplexDeadlock : node :=
  testFile [declareMutex "mu";
            callMethod "mu" "Lock";
            spawn (mkPosition "" 7 2) [callMethod "mu" "Lock"; callMethod "mu" "Unlock"]].

(** "Channel close after send" *)
Definition testCloseAfterSend : node :=
  testFile [makeChan "ch";
            spawn (mkPosition "" 5 2)
              [SendStmt (Ident "ch") (BasicLit "1");
               SendStmt (Ident "ch") (BasicLit "2");
               ExprStmt (CallExpr (Ident "close") [Ident "ch"])];
            RangeStmt (Some (Ident "val")) None (Ident "ch")
              (BlockStmt [AssignStmt [Ident "_"] ASSIGN [Ident "val"]])].

(** "Channel send leak - premature return" *)
Definition testSendThenReturn : node :=
  testFile [makeChan "ch";
            spawn (mkPosition "" 5 2) [SendStmt (Ident "ch") (BasicLit "1"); ReturnStmt []]].

(** "Multiple leaks in one function" *)
Definition testMultipleLeaks : node :=
  testFile [makeChan "ch1"; makeChan "ch2";
            spawn (mkPosition "" 6 2)
              [ExprStmt (UnaryExpr ARROW (Ident "ch1"));
               SelectStmt (BlockStmt [receiveClause "ch2"])]].

(* ================================================================== *)
(** ** Notions used by the further properties *)
(* ================================================================== *)

(** Number of branch constructs and short-circuit operators among the
    nodes of [l]. *)
Definition constructs (l : list node) : Z :=
  Z.of_nat (length (List.filter isBranchConstruct l))
  + Z.of_nat (length (List.filter isShortCircuit l)).

(** The cognitive score over unbounded integers: the walk of
    [services.calculateCognitiveComplexity] with exact sums in place of the
    sums of [int]s.  It says what the score is when no sum wraps around, and
    serves to state when none does. *)
Module unbounded.

Definition cognitiveVisit (chained : node -> node -> Z -> Z) (isRoot : bool)
    (n : node) (st : Z * Z) : Z * Z :=
  let '(complexity, nesting) := st in
  match n with
  | IfStmt _ _ _ els =>
      let complexity := complexity + (1 + nesting) in
      match els with
      | Some (IfStmt _ cond body _) =>
          (complexity + chained cond body nesting, nesting)
      | _ => (complexity, nesting)
      end
  | ForStmt _ _ _ _ | RangeStmt _ _ _ _ => (complexity + (1 + nesting), nesting)
  | SwitchStmt _ _ _ | TypeSwitchStmt _ _ _ => (complexity + (1 + nesting), nesting)
  | SelectStmt _ => (complexity + (1 + nesting), nesting)
  | BinaryExpr _ LAND _ | BinaryExpr _ LOR _ => (complexity + (1 + nesting), nesting)
  | BlockStmt _ => if isRoot then (complexity, nesting) else (complexity, nesting + 1)
  | _ => (complexity, nesting)
  end.

Fixpoint cognitiveWalk (n : node) (st : Z * Z) {struct n} : Z * Z :=
  Inspect
    (cognitiveVisit
       (fun cond body nesting =>
          fst (cognitiveWalk body (cognitiveWalk cond (0 + (1 + nesting), nesting))))
       false)
    n st.

Definition chainedScore (cond body : node) (nesting : Z) : Z :=
  fst (cognitiveWalk body (cognitiveWalk cond (0 + (1 + nesting), nesting))).

Definition calculateCognitiveComplexity (node : node) (nesting : Z) : Z :=
  fst (fold_left (fun st c => cognitiveWalk c st) (children node)
         (cognitiveVisit chainedScore true node (0, nesting))).

End unbounded.

(** Both counters of the walk, wrapped. *)
Definition int_wrap2 {go : Platform} (st : Z * Z) : Z * Z :=
  (int_wrap (fst st), int_wrap (snd st)).

(** A function of [n] consecutive empty [if]s:
    [func f() { if a { }; ...; if a { } }]. *)
Definition manyIfs (n : nat) : node :=
  funcDecl (mkPosition "a.go" 3 1) "f" (List.repeat (emptyIf "a") n).

(** The causes [analyzeBlockingPatterns] gives to its patterns. *)
Definition reportedCause (p : services.blockingPattern) : Prop :=
  services.cause p = services.BlockingCauseChannelMisuse
  \/ services.cause p = services.BlockingCauseDeadlock.

(** The finding the leak rule [kind] builds for a context. *)
Definition leakFinding (filepath_Clean : string -> string)
    (context : services.goroutineContext) (kind detail : string)
    (severity : valueobjects.SeverityLevel) : entities.AnalysisFinding :=
  entities.mkAnalysisFinding
    (kind +:+ "_" +:+ services.functionName context +:+ "_"
     +:+ fmt_d (Line (services.position context)))
    entities.FindingTypeSmell
    (services.locationOf filepath_Clean (services.position context))
    ("Potential goroutine leak in " +:+ services.functionName context
     +:+ ": " +:+ kind +:+ " detected - " +:+ detail)
    severity.

(** The finding of the test "Mutex deadlock - lock without unlock", in a
    named file. *)
Definition lockFinding : entities.AnalysisFinding :=
  services.blockingFinding (fun path => path) namedPosition (Ident "test")
    (services.mutexPattern "mu" ["lock"; "lock"]).

Definition isGoStmt (n : node) : bool :=
  match n with GoStmt _ _ => true | _ => false end.

(** [c'] is [c] with some more flags set: same position, same function
    name, and every flag set in [c] is set in [c']. *)
Definition extends (c c' : services.goroutineContext) : Prop :=
  services.position c' = services.position c
  /\ services.functionName c' = services.functionName c
  /\ (services.hasChannelReceive c = true -> services.hasChannelReceive c' = true)
  /\ (services.hasChannelClose c = true -> services.hasChannelClose c' = true)
  /\ (services.hasSelectStmt c = true -> services.hasSelectStmt c' = true)
  /\ (services.hasContextCancel c = true -> services.hasContextCancel c' = true)
  /\ (services.hasTimeout c = true -> services.hasTimeout c' = true)
  /\ (services.hasPrematureReturn c = true -> services.hasPrematureReturn c' = true)
  /\ (services.hasChannelSend c = true -> services.hasChannelSend c' = true)
  /\ (services.hasDoubleSend c = true -> services.hasDoubleSend c' = true)
  /\ (services.hasDeferClose c = true -> services.hasDeferClose c' = true).

(** The nodes at which [analyzeFunctionBody] notes a channel operation or a
    select statement. *)
Definition isLeakTrigger (n : node) : bool :=
  match n with
  | SendStmt _ _ | UnaryExpr ARROW _ | SelectStmt _ => true
  | _ => false
  end.

(** The function bodies [analyzeGoroutine] hands to [analyzeFunctionBody]:
    the body of a spawned function literal, or the function literals among
    the arguments of a call whose result is spawned. *)
Definition analysedBodies (goStmt : node) : list node :=
  match goStmt with
  | GoStmt _ (CallExpr (FuncLit _ body) _) => [body]
  | GoStmt _ (CallExpr (CallExpr _ args) _) =>
      flat_map (fun arg => match arg with FuncLit _ body => [body] | _ => [] end) args
  | _ => []
  end.

(** No channel operation and no select statement has been noted. *)
Definition quiet (c : services.goroutineContext) : Prop :=
  services.hasChannelReceive c = false
  /\ services.hasChannelSend c = false
  /\ services.hasSelectStmt c = false.

(** The finding of the test "Channel receive leak", in a named file. *)
Definition receiveLeakFinding {go : Platform} : entities.AnalysisFinding :=
  leakFinding (fun path => path) (services.goroutineContextOf receiveLeakSpawn)
    "channel_receive_leak" "channel receive without close operation (confidence: 0.42)"
    valueobjects.SeverityWarning.

(** [func test() { ch := make(chan int); go worker(ch) }] *)
Definition namedSpawnTest : node :=
  File (Ident "main")
    [funcDecl (mkPosition "main.go" 3 1) "test"
       [makeChan "ch";
        GoStmt (mkPosition "main.go" 5 2) (CallExpr (Ident "worker") [Ident "ch"])]].

(** The body of [go func() { ch <- 1; select { default: }; return }()] *)
Definition sendDefaultReturn : node :=
  BlockStmt [SendStmt (Ident "ch") (BasicLit "1");
             SelectStmt (BlockStmt [CommClause None []]);
             ReturnStmt []].

(** The body of [go func() { <-in; out <- 1; close(out); return }()] *)
Definition sendCloseReturn : node :=
  BlockStmt [ExprStmt (UnaryExpr ARROW (Ident "in"));
             SendStmt (Ident "out") (BasicLit "1");
             ExprStmt (CallExpr (Ident "close") [Ident "out"]);
             ReturnStmt []].

(** The send-leak finding of a spawn statement, under the identity for
    [filepath.Clean]. *)
Definition sendLeakOf {go : Platform} (goStmt : node) : entities.AnalysisFinding :=
  leakFinding (fun path => path) (services.goroutineContextOf goStmt)
    "channel_send_leak" "channel send with premature return (confidence: 0.57)"
    valueobjects.SeverityWarning.

(** A clause of a select statement that communicates (any clause but
    [default]). *)
Definition isCommunication (clause : node) : bool :=
  match clause with CommClause (Some _) _ => true | _ => false end.

(** A communication clause whose statement is not an expression statement:
    a send [case ch <- v:] or a receive that binds or assigns the value,
    [case v := <-ch:]. *)
Definition bindsOrSends (clause : node) : bool :=
  match clause with
  | CommClause (Some (ExprStmt _)) _ => false
  | CommClause (Some _) _ => true
  | _ => false
  end.

(** [case name := <-x:] with an empty body. *)
Definition bindingClause (name : string) (x : node) : node :=
  CommClause (Some (AssignStmt [Ident name] DEFINE [UnaryExpr ARROW x])) [].

(** [select { case t := <-time.After(d): case v := <-ctx.Done(): }] *)
Definition boundEscapes : list node :=
  [bindingClause "t" (CallExpr (SelectorExpr (Ident "time") (Ident "After")) [Ident "d"]);
   bindingClause "v" (CallExpr (SelectorExpr (Ident "ctx") (Ident "Done")) [])].

(** [case <-c.Done():] with an empty body. *)
Definition doneClause (c : string) : node :=
  CommClause
    (Some (ExprStmt (UnaryExpr ARROW (CallExpr (SelectorExpr (Ident c) (Ident "Done")) []))))
    [].

(** [go func() { select { case <-c.Done(): } }()] at [pos]. *)
Definition selectDone (pos : Position) (c : string) : node :=
  spawn pos [SelectStmt (BlockStmt [doneClause c])].

(** The tag the walk of [analyzeBlockingPatterns] appends to the tally of
    channel [c] at a node. *)
Definition channelTag (c : string) (n : node) : list string :=
  match n with
  | SendStmt (Ident name) _ => if String.eqb name c then ["send"] else []
  | UnaryExpr ARROW (Ident name) => if String.eqb name c then ["receive"] else []
  | _ => []
  end.

Definition channelTags (c : string) (l : list node) : list string :=
  flat_map (channelTag c) l.

(** A send statement on the identifier [c]; a receive expression on it. *)
Definition isSendOn (c : string) (n : node) : bool :=
  match n with SendStmt (Ident name) _ => String.eqb name c | _ => false end.

Definition isReceiveOn (c : string) (n : node) : bool :=
  match n with UnaryExpr ARROW (Ident name) => String.eqb name c | _ => false end.

(** The state of [analyzeBlockingPatterns] when its walk of [block] ends. *)
Definition blockingWalk {go : Platform} (block : node) : services.blockingState :=
  Inspect (services.blockingVisit services.analyzeBlockingPatterns) block
    (services.mkBlockingState [] ∅ ∅).

(* ================================================================== *)
(** ** package services: the nesting measure of the smell detector *)
(* ================================================================== *)

Module smells.

(** The closure [inspect] of [calculateMaxNesting]; the state is the
    captured variable [maxNesting].  The bodies of parsed statements are
    never [nil]. *)
Fixpoint inspect (n : node) (currentNesting maxNesting : Z) {struct n} : Z :=
  let maxNesting :=
    if currentNesting >? maxNesting then currentNesting else maxNesting in
  match n with
  | IfStmt _ _ body els =>
      let maxNesting := inspect body (currentNesting + 1) maxNesting in
      match els with
      | Some (IfStmt _ _ _ _ as elseIf) => inspect elseIf currentNesting maxNesting
      | Some (BlockStmt _ as block) => inspect block (currentNesting + 1) maxNesting
      | _ => maxNesting
      end
  | ForStmt _ _ _ body => inspect body (currentNesting + 1) maxNesting
  | RangeStmt _ _ _ body => inspect body (currentNesting + 1) maxNesting
  | SwitchStmt _ _ body => inspect body (currentNesting + 1) maxNesting
  | TypeSwitchStmt _ _ body => inspect body (currentNesting + 1) maxNesting
  | SelectStmt body => inspect body (currentNesting + 1) maxNesting
  | BlockStmt l =>
      fold_left (fun maxNesting stmt => inspect stmt currentNesting maxNesting) l maxNesting
  | _ => maxNesting
  end.

Definition calculateMaxNesting (block : node) : Z := inspect block 0 0.

End smells.

(** A clause of a switch, type switch or select statement. *)
Definition isClause (n : node) : bool :=
  match n with CaseClause _ _ | CommClause _ _ => true | _ => false end.

(** [if c { body }] *)
Definition ifThen (c : string) (body : list node) : node :=
  IfStmt None (Ident c) (BlockStmt body) None.

(** Five [if] statements, one inside the other. *)
Definition fiveIfs : node :=
  ifThen "a" [ifThen "b" [ifThen "c" [ifThen "d" [ifThen "e" []]]]].

(* ================================================================== *)
(** ** Methods of the value objects and of the finding *)
(* ================================================================== *)

(** [SeverityLevel] and [FindingType] are [int] enumerations. *)
Definition SeverityLevel_int (s : valueobjects.SeverityLevel) : Z :=
  match s with
  | valueobjects.SeverityInfo => 0
  | valueobjects.SeverityWarning => 1
  | valueobjects.SeverityError => 2
  | valueobjects.SeverityCritical => 3
  end.

Definition FindingType_int (t : entities.FindingType) : Z :=
  match t with
  | entities.FindingTypeComplexity => 0
  | entities.FindingTypeSmell => 1
  | entities.FindingTypeSecurity => 2
  | entities.FindingTypePerformance => 3
  | entities.FindingTypeBug => 4
  end.

(** [ComplexityScore.String] *)
Definition ComplexityScore_String (c : valueobjects.ComplexityScore) : string :=
  "cyclomatic=" +:+ fmt_d (valueobjects.cyclomatic c)
  +:+ ", cognitive=" +:+ fmt_d (valueobjects.cognitive c).

(** [AnalysisFinding.IsHighSeverity] *)
Definition IsHighSeverity (f : entities.AnalysisFinding) : bool :=
  SeverityLevel_int (entities.severity f) >=? SeverityLevel_int valueobjects.SeverityError.

(* ================================================================== *)
(** ** package aggregates *)
(* ================================================================== *)

Module aggregates.

(** The analysis result without its two time stamps. *)
Record AnalysisResult : Type := mkAnalysisResult {
  id : string;
  analyzedFiles : list string;
  findings : list entities.AnalysisFinding;
  configuration : valueobjects.AnalysisConfiguration;
  totalFiles : Z;
  totalFunctions : Z;
  totalComplexity : valueobjects.ComplexityScore
}.

Definition zeroAnalysisResult : AnalysisResult :=
  mkAnalysisResult "" [] [] valueobjects.zeroAnalysisConfiguration 0 0
    valueobjects.zeroComplexityScore.

Definition NewAnalysisResult (id : string) (config : valueobjects.AnalysisConfiguration)
    : AnalysisResult * error :=
  if String.eqb id "" then
    (zeroAnalysisResult, Some "analysis result ID cannot be empty")
  else
    (mkAnalysisResult id [] [] config 0 0 valueobjects.zeroComplexityScore, None).

Definition HighSeverityFindings (ar : AnalysisResult) : list entities.AnalysisFinding :=
  fold_left (fun highSeverity finding =>
               if IsHighSeverity finding then highSeverity ++ [finding]
               else highSeverity)
    (findings ar) [].

(** [FindingsByType]: the map from finding types to slices, read as Go
    reads it, a missing key giving the empty slice. *)
Definition FindingsByType (ar : AnalysisResult)
    : entities.FindingType -> list entities.AnalysisFinding :=
  fold_left (fun grouped finding =>
               fun t =>
                 if FindingType_int t =? FindingType_int (entities.findingType finding)
                 then grouped t ++ [finding]
                 else grouped t)
    (findings ar) (fun _ => []).

(** [AddFinding]: the receiver after the call, and the error. *)
Definition AddFinding (ar : AnalysisResult) (finding : entities.AnalysisFinding)
    : AnalysisResult * error :=
  if existsb (fun existing => String.eqb (entities.id existing) (entities.id finding))
       (findings ar)
  then (ar, Some ("finding with ID " +:+ entities.id finding +:+ " already exists"))
  else
    (mkAnalysisResult (id ar) (analyzedFiles ar) (findings ar ++ [finding])
       (configuration ar) (totalFiles ar) (totalFunctions ar) (totalComplexity ar),
     None).

Definition AddAnalyzedFile (ar : AnalysisResult) (filePath : string) : AnalysisResult :=
  if existsb (fun existing => String.eqb existing filePath) (analyzedFiles ar)
  then ar
  else
    let analyzedFiles := analyzedFiles ar ++ [filePath] in
    mkAnalysisResult (id ar) analyzedFiles (findings ar) (configuration ar)
      (Z.of_nat (length analyzedFiles)) (totalFunctions ar) (totalComplexity ar).

Definition SetTotalFunctions (ar : AnalysisResult) (count : Z) : AnalysisResult :=
  mkAnalysisResult (id ar) (analyzedFiles ar) (findings ar) (configuration ar)
    (totalFiles ar) count (totalComplexity ar).

Definition SetTotalComplexity (ar : AnalysisResult)
    (complexity : valueobjects.ComplexityScore) : AnalysisResult :=
  mkAnalysisResult (id ar) (analyzedFiles ar) (findings ar) (configuration ar)
    (totalFiles ar) (totalFunctions ar) complexity.

(** The summary without its duration. *)
Record AnalysisSummary : Type := mkAnalysisSummary {
  TotalFiles : Z;
  TotalFunctions : Z;
  TotalFindings : Z;
  HighSeverityCount : Z;
  ComplexityFindings : Z;
  SmellFindings : Z;
  SecurityFindings : Z;
  PerformanceFindings : Z
}.

Definition Summary (ar : AnalysisResult) : AnalysisSummary :=
  let findingsByType := FindingsByType ar in
  let highSeverityCount := Z.of_nat (length (HighSeverityFindings ar)) in
  mkAnalysisSummary
    (totalFiles ar)
    (totalFunctions ar)
    (Z.of_nat (length (findings ar)))
    highSeverityCount
    (Z.of_nat (length (findingsByType entities.FindingTypeComplexity)))
    (Z.of_nat (length (findingsByType entities.FindingTypeSmell)))
    (Z.of_nat (length (findingsByType entities.FindingTypeSecurity)))
    (Z.of_nat (length (findingsByType entities.FindingTypePerformance))).

End aggregates.

(* ================================================================== *)
(** ** package config *)
(* ================================================================== *)

Module config.

Section Environment.
(** [os.Getenv], [strconv.Atoi] and [strconv.ParseBool] of Go's standard
    library. *)
Variable os_Getenv : string -> string.
Variable strconv_Atoi : string -> Z * error.
Variable strconv_ParseBool : string -> bool * error.

Definition getEnvInt (key : string) (defaultValue : Z) : Z :=
  let value := os_Getenv key in
  if negb (String.eqb value "") then
    match strconv_Atoi value with
    | (intValue, None) => intValue
    | _ => defaultValue
    end
  else defaultValue.

Definition getEnvBool (key : string) (defaultValue : bool) : bool :=
  let value := os_Getenv key in
  if negb (String.eqb value "") then
    match strconv_ParseBool value with
    | (boolValue, None) => boolValue
    | _ => defaultValue
    end
  else defaultValue.

Definition loadAnalysisConfig : valueobjects.AnalysisConfiguration :=
  let config := valueobjects.DefaultAnalysisConfiguration in
  let maxCyclo := getEnvInt "GOAST_MAX_CYCLOMATIC" 0 in
  let config :=
    if maxCyclo >? 0 then valueobjects.WithMaxCyclomaticComplexity config maxCyclo
    else config in
  let maxCog := getEnvInt "GOAST_MAX_COGNITIVE" 0 in
  let config :=
    if maxCog >? 0 then valueobjects.WithMaxCognitiveComplexity config maxCog
    else config in
  let maxLen := getEnvInt "GOAST_MAX_FUNCTION_LENGTH" 0 in
  let config :=
    if maxLen >? 0 then valueobjects.WithMaxFunctionLength config maxLen
    else config in
  let smellDetect := getEnvBool "GOAST_ENABLE_SMELL_DETECTION" true in
  if negb smellDetect then valueobjects.WithSmellDetection config smellDetect
  else config.

End Environment.

End config.

(* ================================================================== *)
(** ** package cli: the column helper of the table output *)
(* ================================================================== *)

Module cli.

(** The slice expression [s[:n]] for [0 <= n <= len(s)]. *)
Fixpoint slice_to (n : nat) (s : string) : string :=
  match n, s with
  | S n', String c s' => String c (slice_to n' s')
  | _, _ => EmptyString
  end.

(** [truncate]; [None] stands for the run-time panic of the slice
    expression, whose bound [maxLen-3] is negative for [maxLen < 3].  The
    bound never exceeds [len(s)] there, the string being longer than
    [maxLen]. *)
Definition truncate (s : string) (maxLen : Z) : option string :=
  if Z.of_nat (String.length s) <=? maxLen then Some s
  else if maxLen - 3 <? 0 then None
  else Some (slice_to (Z.to_nat (maxLen - 3)) s +:+ "...").

End cli.

(** A finding of the Bug type. *)
Definition isBugFinding (f : entities.AnalysisFinding) : bool :=
  FindingType_int (entities.findingType f) =? FindingType_int entities.FindingTypeBug.

(** The findings of type [t] among [l]. *)
Definition ofType (t : entities.FindingType) (l : list entities.AnalysisFinding)
    : list entities.AnalysisFinding :=
  List.filter (fun f => FindingType_int t =? FindingType_int (entities.findingType f)) l.

(** A result that holds the finding of the lock test. *)
Definition lockResult : aggregates.AnalysisResult :=
  aggregates.mkAnalysisResult "run" ["main.go"] [lockFinding]
    valueobjects.DefaultAnalysisConfiguration 1 1 (valueobjects.mkComplexityScore 1 0).

(* ================================================================== *)
(** ** package usecases *)
(* ================================================================== *)

(** The declarations of a field of static type [*ast.File]. *)
Definition DeclsOf (n : node) : list node :=
  match n with File _ decls => decls | _ => [] end.

Module usecases.

Record AnalyzeCodeRequest : Type := mkAnalyzeCodeRequest {
  FilePaths : list string;
  Configuration : valueobjects.AnalysisConfiguration;
  IncludeSmellDetection : bool
}.

Record AnalyzeCodeResponse : Type := mkAnalyzeCodeResponse {
  AnalysisResult : aggregates.AnalysisResult;
  Summary : string;
  Success : bool;
  Error : error
}.

Record FileAnalysisResult : Type := mkFileAnalysisResult {
  FilePath : string;
  Findings : list entities.AnalysisFinding;
  FunctionCount : Z;
  TotalCyclomatic : Z;
  TotalCognitive : Z
}.

Section UseCase.
(** [path/filepath.Clean]; the collaborators of the use case, interfaces
    in the source: the complexity calculator, the smell detector, the file
    parser (the file set it returns is resolved in the positions of the
    tree) and the identifier generator, called once; the rendering of the
    elapsed time in the summary. *)
Variable filepath_Clean : string -> string.
Variable CalculateComplexity : node -> valueobjects.ComplexityScore * error.
Variable DetectSmells :
  node -> valueobjects.AnalysisConfiguration -> list entities.AnalysisFinding * error.
Variable ParseFile : string -> node * error.
Variable GenerateID : string.
Variable elapsed : string.
Context {go : Platform}.

(** One turn of the loop of [analyzeFile] over the declarations; the state
    is [(findings, functionCount, totalCyclomatic, totalCognitive)].  The
    counters are [int]s. *)
Definition functionStep (filePath : string)
    (st : list entities.AnalysisFinding * Z * Z * Z) (decl : node)
    : list entities.AnalysisFinding * Z * Z * Z :=
  let '(findings, functionCount, totalCyclomatic, totalCognitive) := st in
  match decl with
  | FuncDecl pos _ name _ _ =>
      let functionCount := int_add functionCount 1 in
      match CalculateComplexity decl with
      | (_, Some _) => (findings, functionCount, totalCyclomatic, totalCognitive)
      | (complexity, None) =>
          let totalCyclomatic :=
            int_add totalCyclomatic (valueobjects.Cyclomatic complexity) in
          let totalCognitive :=
            int_add totalCognitive (valueobjects.Cognitive complexity) in
          if valueobjects.IsHighComplexity complexity then
            let location :=
              fst (valueobjects.NewSourceLocation filepath_Clean filePath
                     (Line pos) (Column pos)) in
            let severity :=
              if (valueobjects.Cyclomatic complexity >? 20)
                 || (valueobjects.Cognitive complexity >? 30)
              then valueobjects.SeverityError
              else valueobjects.SeverityWarning in
            let finding :=
              fst (entities.NewAnalysisFinding
                     ("complexity_" +:+ NameOf name +:+ "_" +:+ fmt_d (Line pos))
                     entities.FindingTypeComplexity
                     location
                     ("Function " +:+ NameOf name +:+ ": "
                      +:+ ComplexityScore_String complexity)
                     severity) in
            (findings ++ [finding], functionCount, totalCyclomatic, totalCognitive)
          else (findings, functionCount, totalCyclomatic, totalCognitive)
      end
  | _ => st
  end.

Definition analyzeFile (filePath : string) (config : valueobjects.AnalysisConfiguration)
    (includeSmells : bool) : option FileAnalysisResult * error :=
  match ParseFile filePath with
  | (_, Some err) => (None, Some ("failed to parse file: " +:+ err))
  | (astFile, None) =>
      let '(findings, functionCount, totalCyclomatic, totalCognitive) :=
        fold_left (functionStep filePath) (DeclsOf astFile) ([], 0, 0, 0) in
      if includeSmells then
        match DetectSmells astFile config with
        | (_, Some err) => (None, Some ("failed to detect smells: " +:+ err))
        | (smellFindings, None) =>
            (Some (mkFileAnalysisResult filePath (findings ++ smellFindings)
                     functionCount totalCyclomatic totalCognitive),
             None)
        end
      else
        (Some (mkFileAnalysisResult filePath findings
                 functionCount totalCyclomatic totalCognitive),
         None)
  end.

Definition createSummary (result : aggregates.AnalysisResult) : string :=
  let summary := aggregates.Summary result in
  "Analysis complete: " +:+ fmt_d (aggregates.TotalFiles summary)
  +:+ " files, " +:+ fmt_d (aggregates.TotalFunctions summary)
  +:+ " functions analyzed. Found " +:+ fmt_d (aggregates.TotalFindings summary)
  +:+ " issues (" +:+ fmt_d (aggregates.HighSeverityCount summary)
  +:+ " high severity) in " +:+ elapsed
  +:+ ". Complexity: " +:+ ComplexityScore_String (aggregates.totalComplexity result).

(** One turn of the loop of [Execute] over the file paths.  The state is
    the result under construction with the three totals, or the response of
    an early return.  [analyzeFile] returns a file result whenever it
    returns no error. *)
Definition fileStep (request : AnalyzeCodeRequest)
    (st : aggregates.AnalysisResult * Z * Z * Z + AnalyzeCodeResponse) (filePath : string)
    : aggregates.AnalysisResult * Z * Z * Z + AnalyzeCodeResponse :=
  match st with
  | inr response => inr response
  | inl (analysisResult, totalFunctions, totalCyclomatic, totalCognitive) =>
      match analyzeFile filePath (Configuration request) (IncludeSmellDetection request) with
      | (Some fileResult, None) =>
          let analysisResult :=
            fold_left (fun analysisResult finding =>
                         fst (aggregates.AddFinding analysisResult finding))
              (Findings fileResult) analysisResult in
          let totalFunctions := int_add totalFunctions (FunctionCount fileResult) in
          let totalCyclomatic := int_add totalCyclomatic (TotalCyclomatic fileResult) in
          let totalCognitive := int_add totalCognitive (TotalCognitive fileResult) in
          inl (aggregates.AddAnalyzedFile analysisResult filePath,
               totalFunctions, totalCyclomatic, totalCognitive)
      | (_, err) =>
          inr (mkAnalyzeCodeResponse aggregates.zeroAnalysisResult "" false
                 (Some ("failed to analyze file " +:+ filePath +:+ ": "
                        +:+ default "" err)))
      end
  end.

(** [Execute]; the call of [Complete] sets a time stamp only. *)
Definition Execute (request : AnalyzeCodeRequest) : AnalyzeCodeResponse :=
  let resultID := GenerateID in
  match aggregates.NewAnalysisResult resultID (Configuration request) with
  | (_, Some err) =>
      mkAnalyzeCodeResponse aggregates.zeroAnalysisResult "" false
        (Some ("failed to create analysis result: " +:+ err))
  | (analysisResult, None) =>
      match fold_left (fileStep request) (FilePaths request) (inl (analysisResult, 0, 0, 0)) with
      | inr response => response
      | inl (analysisResult, totalFunctions, totalCyclomatic, totalCognitive) =>
          let analysisResult :=
            if totalFunctions >? 0 then
              let avgCyclomatic := Z.quot totalCyclomatic totalFunctions in
              let avgCognitive := Z.quot totalCognitive totalFunctions in
              let totalComplexity :=
                fst (valueobjects.NewComplexityScore avgCyclomatic avgCognitive) in
              aggregates.SetTotalComplexity analysisResult totalComplexity
            else analysisResult in
          let analysisResult := aggregates.SetTotalFunctions analysisResult totalFunctions in
          let summary := createSummary analysisResult in
          mkAnalyzeCodeResponse analysisResult summary true None
      end
  end.

End UseCase.

End usecases.

(** A function declaration the AST calculator scores as highly complex. *)
Definition isHighFunction {go : Platform} (decl : node) : bool :=
  isFuncDecl decl
  && valueobjects.IsHighComplexity (fst (services.CalculateComplexity decl)).

(** [finding] is the complexity finding of [analyzeFile] for the function
    declaration [decl] of the file at [filePath]. *)
Definition reportsComplexity {go : Platform} (filepath_Clean : string -> string) (filePath : string)
    (decl : node) (finding : entities.AnalysisFinding) : Prop :=
  exists pos recv name ty body,
    decl = FuncDecl pos recv name ty body
    /\ entities.id finding = "complexity_" +:+ NameOf name +:+ "_" +:+ fmt_d (Line pos)
    /\ entities.findingType finding = entities.FindingTypeComplexity
    /\ entities.location finding
       = fst (valueobjects.NewSourceLocation filepath_Clean filePath (Line pos) (Column pos))
    /\ entities.message finding
       = "Function " +:+ NameOf name +:+ ": "
         +:+ ComplexityScore_String (fst (services.CalculateComplexity decl))
    /\ entities.severity finding
       = (if (services.calculateCyclomaticComplexity decl >? 20)
             || (services.calculateCognitiveComplexity decl 0 >? 30)
          then valueobjects.SeverityError
          else valueobjects.SeverityWarning).

(** Sum of the cyclomatic scores of the function declarations of [decls];
    sum of their cognitive scores, both exact. *)
Definition sumCyclomatic (decls : list node) : Z :=
  fold_right (fun decl total =>
                if isFuncDecl decl
                then services.calculateCyclomaticComplexity decl + total else total)
    0 decls.

Definition sumCognitive (decls : list node) : Z :=
  fold_right (fun decl total =>
                if isFuncDecl decl
                then unbounded.calculateCognitiveComplexity decl 0 + total else total)
    0 decls.

(** A parser that returns [func f() { if a { } }] in package [main] for
    every path, and a smell detector without findings. *)
Definition oneIfFile : node := File (Ident "main") [oneIf].

Definition parseOneIf (path : string) : node * error := (oneIfFile, None).

Definition noSmells (n : node) (config : valueobjects.AnalysisConfiguration)
    : list entities.AnalysisFinding * error := ([], None).

Definition oneIfRequest : usecases.AnalyzeCodeRequest :=
  usecases.mkAnalyzeCodeRequest ["a.go"; "b.go"; "a.go"]
    valueobjects.DefaultAnalysisConfiguration true.

(** What the loop of [Execute] maintains: [processed] are the paths
    analysed so far. *)
Definition loopInvariant (processed : list string)
    (st : aggregates.AnalysisResult * Z * Z * Z) : Prop :=
  let '(ar, totalFunctions, totalCyclomatic, totalCognitive) := st in
  NoDup (List.map entities.id (aggregates.findings ar))
  /\ NoDup (aggregates.analyzedFiles ar)
  /\ aggregates.totalFiles ar = Z.of_nat (length (aggregates.analyzedFiles ar))
  /\ (forall p, In p (aggregates.analyzedFiles ar) <-> In p processed)
  /\ aggregates.totalComplexity ar = valueobjects.zeroComplexityScore.

(** The response for a request that names the file of [parseOneIf] three
    times under two paths. *)
Definition oneIfResponse {go : Platform} : usecases.AnalyzeCodeResponse :=
  usecases.Execute (fun path => path) services.CalculateComplexity noSmells parseOneIf
    "run-1" "1ms" oneIfRequest.

(** [case <-x.After(d):] with an empty body. *)
Definition afterClause (x : string) : node :=
  CommClause
    (Some (ExprStmt (UnaryExpr ARROW
                       (CallExpr (SelectorExpr (Ident x) (Ident "After")) [Ident "d"]))))
    [].

(** [select { case <-x.After(d): case <-ch: }] *)
Definition selectAfter (x ch : string) : node :=
  SelectStmt (BlockStmt [afterClause x; receiveClause ch]).

(* ================================================================== *)
(** ** Notions used by the imbalance rules in the presence of spawns *)
(* ================================================================== *)

(** The blocks [analyzeBlockingPatterns] tallies when it is run on [body]:
    [body] itself and the body of every function literal spawned inline
    below it. *)
Definition talliedBlock (body block : node) : Prop :=
  block = body
  \/ exists goStmt, In goStmt (preorder body) /\ inlineBody goStmt = Some block.

(** Number of send statements on the identifier [c] below [block]; number
    of receive expressions on it. *)
Definition sendsOn (c : string) (block : node) : Z :=
  Z.of_nat (length (List.filter (isSendOn c) (preorder block))).

Definition receivesOn (c : string) (block : node) : Z :=
  Z.of_nat (length (List.filter (isReceiveOn c) (preorder block))).

(** The imbalance condition of the specification on the operations on [c]
    below [block]. *)
Definition imbalanced (c : string) (block : node) : Prop :=
  2 <= sendsOn c block + receivesOn c block
  /\ (sendsOn c block > 2 * receivesOn c block
      \/ receivesOn c block > 2 * sendsOn c block).

(** [func test() { go func() { ch <- 1; ch <- 2; ch <- 3 }(); <-ch; <-ch }]:
    three sends and two receives on [ch] in the function. *)
Definition spawnedSendsBody : node :=
  BlockStmt [spawn (mkPosition "main.go" 4 2) (sends "ch" ["1"; "2"; "3"]);
             ExprStmt (UnaryExpr ARROW (Ident "ch"));
             ExprStmt (UnaryExpr ARROW (Ident "ch"))].

Definition spawnedSends : node :=
  File (Ident "main")
    [FuncDecl (mkPosition "main.go" 3 1) [] (Ident "test") (FuncType [] [])
       (Some spawnedSendsBody)].

(** [x] is the selector [m.Lock] or [m.RLock]; the selector [m.Unlock] or
    [m.RUnlock]. *)
Definition isLockSelector (m : string) (x : node) : bool :=
  match x with
  | SelectorExpr (Ident id) sel => String.eqb id m && isLockName (NameOf sel)
  | _ => false
  end.

Definition isUnlockSelector (m : string) (x : node) : bool :=
  match x with
  | SelectorExpr (Ident id) sel => String.eqb id m && isUnlockName (NameOf sel)
  | _ => false
  end.

(** The subtree holds no [Unlock] or [RUnlock] on [m]. *)
Definition noUnlockOn (m : string) (n : node) : bool :=
  forallb (fun x => negb (isUnlockSelector m x)) (preorder n).

(** No function literal spawned inline in the subtree holds a [Lock] or
    [RLock] on [m]. *)
Definition noLockInSpawn (m : string) (n : node) : bool :=
  forallb (fun x =>
             match inlineBody x with
             | Some body => forallb (fun y => negb (isLockSelector m y)) (preorder body)
             | None => true
             end) (preorder n).

(** The tally of [m], if any, holds lock operations only. *)
Definition locksOnlyOf (m : string) (mo : gmap string (list string)) : Prop :=
  forall ops, mo !! m = Some ops -> Forall (fun op => op = "lock") ops.

(** A pattern that is not the deadlock pattern of [m]: a channel-misuse
    pattern, or the deadlock pattern of another identifier. *)
Definition notAbout (m : string) (p : services.blockingPattern) : Prop :=
  services.cause p = services.BlockingCauseChannelMisuse
  \/ exists k ops, k <> m /\ p = services.mutexPattern k ops.

(** The same for the finding of a function. *)
Definition findingNotAbout (filepath_Clean : string -> string) (pos : Position)
    (name : node) (m : string) (finding : entities.AnalysisFinding) : Prop :=
  (entities.findingType finding = entities.FindingTypeBug
   /\ entities.severity finding = valueobjects.SeverityWarning
   /\ strings_Contains (entities.message finding) "channel misuse" = true)
  \/ exists k ops,
       k <> m
       /\ finding
          = services.blockingFinding filepath_Clean pos name (services.mutexPattern k ops).

(** [{ mu.Lock(); go func() { work() }() }]: a lock without unlock next to
    a spawn that holds no lock operation. *)
Definition lockThenSpawn : node :=
  BlockStmt [callMethod "mu" "Lock";
             spawn (mkPosition "main.go" 5 2) [ExprStmt (CallExpr (Ident "work") [])]].

(** [{ a.Lock(); b.Lock(); b.Unlock() }]: a lock without unlock next to a
    balanced use of another mutex. *)
Definition lockBesideBalanced : node :=
  BlockStmt [callMethod "a" "Lock"; callMethod "b" "Lock"; callMethod "b" "Unlock"].

(* ================================================================== *)
(** ** Properties *)
(* ================================================================== *)

(** *** The walk *)

(** Case analysis on the width of [int]. *)
Ltac both_widths :=
  match goal with H : Platform |- _ => destruct H as [[|] ?] end.

Lemma node_children_ind (P : node -> Prop) :
  (forall n, Forall P (children n) -> P n) -> forall n, P n.
Proof.
  intros H.
  assert (HL : forall l, list_all node P l -> Forall P l).
  { induction 1; constructor; auto. }
  assert (HO : forall o, option_all node P o -> Forall P (optNode o)).
  { destruct 1; simpl; constructor; auto. }
  induction n; apply H; simpl;
    repeat (first [ assumption | apply HL; assumption | apply HO; assumption
                  | apply Forall_app; split
                  | apply List.Forall_cons | apply List.Forall_nil ]).
Qed.

Lemma preorder_children n : preorder n = n :: flat_map preorder (children n).
Proof.
  destruct n; simpl; try reflexivity;
    repeat match goal with o : option node |- _ => destruct o end; simpl;
    rewrite ?flat_map_app, ?app_nil_r; simpl; rewrite ?app_nil_r, <- ?app_assoc;
    try reflexivity.
Qed.

Lemma Inspect_children {S} (f : node -> S -> S) n s :
  Inspect f n s = fold_left (fun s c => Inspect f c s) (children n) (f n s).
Proof.
  destruct n; simpl; try reflexivity;
    repeat match goal with o : option node |- _ => destruct o end; simpl;
    rewrite ?fold_left_app; simpl; try reflexivity.
Qed.

(** The walk applies the callback to the nodes of the subtree in preorder. *)
Lemma Inspect_preorder {S} (f : node -> S -> S) n :
  forall s, Inspect f n s = fold_left (fun s x => f x s) (preorder n) s.
Proof.
  induction n as [n IH] using node_children_ind. intros s.
  rewrite Inspect_children, preorder_children. simpl.
  generalize (f n s). clear s.
  induction IH as [|c cs Hc _ IHcs]; intros s; simpl; [reflexivity|].
  rewrite fold_left_app, <- Hc. apply IHcs.
Qed.

(** *** Value objects *)

(** C8.  [IsHighComplexity] holds exactly when the cyclomatic value exceeds
    15 or the cognitive value exceeds 20; the predicate reads no
    configuration.  At the boundaries (15, 20) is not high, (16, 20) and
    (15, 21) are. *)
Theorem C8_IsHighComplexity_thresholds :
  (forall c : valueobjects.ComplexityScore,
      valueobjects.IsHighComplexity c = true
      <-> (valueobjects.Cyclomatic c > 15 \/ valueobjects.Cognitive c > 20))
  /\ valueobjects.IsHighComplexity (valueobjects.mkComplexityScore 15 20) = false
  /\ valueobjects.IsHighComplexity (valueobjects.mkComplexityScore 16 20) = true
  /\ valueobjects.IsHighComplexity (valueobjects.mkComplexityScore 15 21) = true.
Proof.
  split; [|repeat split; reflexivity].
  intros [cy co]. unfold valueobjects.IsHighComplexity, valueobjects.Cyclomatic,
    valueobjects.Cognitive. simpl.
  rewrite orb_true_iff, !Z.gtb_ltb, !Z.ltb_lt. lia.
Qed.

(** A configuration accepted by the constructor satisfies the invariants. *)
Lemma NewAnalysisConfiguration_invariant cy co len smells sev :
  snd (valueobjects.NewAnalysisConfiguration cy co len smells sev) = None ->
  configurationInvariant (fst (valueobjects.NewAnalysisConfiguration cy co len smells sev)).
Proof.
  unfold valueobjects.NewAnalysisConfiguration, configurationInvariant.
  destruct (cy <? 1) eqn:E1; [discriminate|].
  destruct (co <? 0) eqn:E2; [discriminate|].
  destruct (len <? 1) eqn:E3; [discriminate|].
  intros _. simpl. apply Z.ltb_ge in E1, E2, E3. lia.
Qed.

(** A "with-X" operation whose argument is within the bound of its field
    keeps the invariants. *)
Lemma applyWith_in_bounds c op :
  configurationInvariant c -> withOperationInBounds op ->
  configurationInvariant (applyWith c op).
Proof.
  unfold configurationInvariant. destruct c, op; simpl; intros; lia.
Qed.

(** C9.  The "with-X" operations store their argument unchecked: from the
    default configuration, one [WithMaxCyclomaticComplexity 0] reaches a
    value whose cyclomatic threshold is 0, one [WithMaxCognitiveComplexity (-1)]
    a negative cognitive threshold, one [WithMaxFunctionLength 0] a zero
    length, although the constructor rejects each of these values. *)
Theorem C9_with_operations_skip_validation :
  configurationInvariant valueobjects.DefaultAnalysisConfiguration
  /\ valueobjects.MaxCyclomaticComplexity
       (applyWith valueobjects.DefaultAnalysisConfiguration (OpMaxCyclomatic 0)) = 0
  /\ ~ configurationInvariant
         (applyWith valueobjects.DefaultAnalysisConfiguration (OpMaxCyclomatic 0))
  /\ ~ configurationInvariant
         (applyWith valueobjects.DefaultAnalysisConfiguration (OpMaxCognitive (-1)))
  /\ ~ configurationInvariant
         (applyWith valueobjects.DefaultAnalysisConfiguration (OpMaxFunctionLength 0))
  /\ snd (valueobjects.NewAnalysisConfiguration 0 20 80 true valueobjects.SeverityWarning)
     <> None.
Proof.
  unfold configurationInvariant; simpl.
  repeat split; try lia; try discriminate; intros (? & ? & ?); lia.
Qed.

(** *** Complexity calculator *)

Lemma fold_cyclomaticVisit l : forall c,
  fold_left (fun s x => services.cyclomaticVisit x s) l c
  = c + Z.of_nat (length (List.filter isBranchConstruct l))
      + Z.of_nat (length (List.filter isShortCircuit l)).
Proof.
  induction l as [|x l IH]; intros c; simpl; [lia|].
  rewrite IH.
  destruct x; simpl; try lia;
    match goal with Op : token |- _ => destruct Op; simpl; lia end.
Qed.

(** C7.  The cyclomatic complexity of a subtree is 1 plus the number of its
    if, for, range, switch, type-switch and select nodes plus the number of
    its [&&] and [||] nodes, wherever they occur in the subtree. *)
Theorem C7_cyclomatic_counts_constructs (n : node) :
  services.calculateCyclomaticComplexity n
  = 1 + occurrences isBranchConstruct n + occurrences isShortCircuit n.
Proof.
  unfold services.calculateCyclomaticComplexity, occurrences.
  rewrite Inspect_preorder. apply fold_cyclomaticVisit.
Qed.

(** The else-if branch of the callback is the recursive call of the source
    on the block built around the chained [if]. *)
Lemma cognitiveWalk_Inspect {go : Platform} n st :
  services.cognitiveWalk n st
  = Inspect (services.cognitiveVisit services.chainedScore false) n st.
Proof. destruct n; reflexivity. Qed.

Lemma chained_is_recursive_call {go : Platform} cond body nesting :
  services.chainedScore cond body nesting
  = services.calculateCognitiveComplexity (services.chainedBlock cond body) nesting.
Proof.
  unfold services.calculateCognitiveComplexity, services.chainedBlock. simpl.
  unfold services.chainedScore at 1. rewrite !cognitiveWalk_Inspect. reflexivity.
Qed.

(** C3.  The computed cognitive complexity is not the reference value.  The
    calculator is called on the function declaration, so the body of the
    function already raises the nesting: [func f() { if a { } }] scores 2,
    the reference 1.  The nesting is never lowered when a block is left: two
    consecutive empty [if]s score 5, the reference 2.  An else-if branch is
    scored by the recursive call and again when the walk reaches it:
    [if a { } else if b { }] scores 7, the reference 2. *)
Theorem C3_cognitive_differs_from_reference {go : Platform} :
  services.calculateCognitiveComplexity oneIf 0 = 2
  /\ cognitiveReference oneIf = 1
  /\ services.calculateCognitiveComplexity twoIfs 0 = 5
  /\ cognitiveReference twoIfs = 2
  /\ services.calculateCognitiveComplexity elseIfChain 0 = 7
  /\ cognitiveReference elseIfChain = 2.
Proof. both_widths; repeat split; vm_compute; reflexivity. Qed.

(** *** Goroutine leak detector *)

(** C4.  The flag depends on the order of the walk.  In
    [go func() { if stop { return }; ch <- 1 }()] the body holds a channel
    send and a return statement, yet the context is built with
    has-premature-return false, and no finding is emitted; with the send
    first the flag is true and the send-leak finding is emitted. *)
Theorem C4_premature_return_depends_on_order {go : Platform} :
  (exists body, inlineBody returnThenSend = Some body
     /\ existsb isChannelOperation (preorder body) = true
     /\ existsb isReturn (preorder body) = true)
  /\ services.hasChannelSend (services.goroutineContextOf returnThenSend) = true
  /\ services.hasPrematureReturn (services.goroutineContextOf returnThenSend) = false
  /\ services.hasPrematureReturn (services.goroutineContextOf sendThenReturn) = true
  /\ length (services.analyzeGoroutine (fun p => p) returnThenSend) = 0%nat
  /\ length (services.analyzeGoroutine (fun p => p) sendThenReturn) = 1%nat.
Proof.
  split; [eexists; split; [reflexivity|split; reflexivity]|].
  repeat split; vm_compute; reflexivity.
Qed.

(** [strings.Contains] sees a substring of a suffix. *)
Lemma strings_Contains_app_r a b sub :
  strings_Contains b sub = true -> strings_Contains (a +:+ b) sub = true.
Proof.
  intros H. induction a as [|c a IH]; simpl; [exact H|].
  rewrite IH.
  match goal with |- (if ?b then _ else _) = _ => destruct b end; reflexivity.
Qed.

(** Appending a batch only when it is non-empty is appending it. *)
Lemma fold_append_nonempty {A B : Type} (F : A -> list B) (l : list A) : forall acc,
  fold_left (fun findings x =>
               if (Z.of_nat (length (F x)) >? 0) then findings ++ F x else findings)
    l acc
  = acc ++ flat_map F l.
Proof.
  induction l as [|x l IH]; intros acc; simpl.
  - rewrite app_nil_r. reflexivity.
  - rewrite IH. destruct (F x) as [|y ys]; simpl.
    + reflexivity.
    + rewrite <- app_assoc. reflexivity.
Qed.

(** The detector concatenates the findings of the collected spawns. *)
Lemma DetectLeaks_flat_map {go : Platform} filepath_Clean root :
  fst (services.DetectLeaks filepath_Clean root)
  = flat_map (services.analyzeGoroutine filepath_Clean) (services.collectGoroutines root).
Proof.
  unfold services.DetectLeaks. simpl.
  exact (fold_append_nonempty (services.analyzeGoroutine filepath_Clean) _ []).
Qed.

(** C5.  A spawn whose context has a receive, no close and no cancel signal
    gets a receive-leak finding of Warning severity whose message carries
    "confidence: 0.42".  In particular [go func() { val := <-ch }()] gets
    that finding and no other. *)
Theorem C5_receive_leak_reported {go : Platform} (filepath_Clean : string -> string) :
  (forall root goStmt,
      In goStmt (services.collectGoroutines root) ->
      services.hasChannelReceive (services.goroutineContextOf goStmt) = true ->
      services.hasChannelClose (services.goroutineContextOf goStmt) = false ->
      services.hasContextCancel (services.goroutineContextOf goStmt) = false ->
      exists finding,
        In finding (fst (services.DetectLeaks filepath_Clean root))
        /\ In finding (services.analyzeGoroutine filepath_Clean goStmt)
        /\ entities.findingType finding = entities.FindingTypeSmell
        /\ entities.severity finding = valueobjects.SeverityWarning
        /\ strings_Contains (entities.message finding) "channel_receive_leak" = true
        /\ strings_Contains (entities.message finding) "confidence: 0.42" = true)
  /\ (forall pkg fpos name pos val ch,
        exists finding,
          services.analyzeGoroutine filepath_Clean (receiveOnly pos val ch) = [finding]
          /\ fst (services.DetectLeaks filepath_Clean
                    (receiveOnlyFile pkg fpos name pos val ch)) = [finding]
          /\ services.hasChannelClose
               (services.goroutineContextOf (receiveOnly pos val ch)) = false
          /\ services.hasContextCancel
               (services.goroutineContextOf (receiveOnly pos val ch)) = false
          /\ entities.severity finding = valueobjects.SeverityWarning
          /\ strings_Contains (entities.message finding) "confidence: 0.42" = true).
Proof.
  split.
  - intros root goStmt Hin Hrecv Hclose Hcancel.
    eexists. split; [|split].
    + rewrite DetectLeaks_flat_map. apply in_flat_map. exists goStmt. split; [exact Hin|].
      unfold services.analyzeGoroutine, services.checkLeakPatterns.
      rewrite Hrecv, Hclose, Hcancel. simpl.
      repeat match goal with |- context [if ?b then _ else _] => destruct b end;
        simpl; left; reflexivity.
    + unfold services.analyzeGoroutine, services.checkLeakPatterns.
      rewrite Hrecv, Hclose, Hcancel. simpl.
      repeat match goal with |- context [if ?b then _ else _] => destruct b end;
        simpl; left; reflexivity.
    + simpl. repeat split; do 2 apply strings_Contains_app_r; reflexivity.
  - intros pkg fpos name pos val ch. eexists. split; [reflexivity|].
    split; [|repeat split; reflexivity].
    rewrite DetectLeaks_flat_map.
    change (services.collectGoroutines (receiveOnlyFile pkg fpos name pos val ch))
      with [receiveOnly pos val ch].
    reflexivity.
Qed.

(** *** Concurrency bug detector: from patterns to findings *)

Lemma fold_append_single {A B : Type} (g : A -> B) (l : list A) : forall acc,
  fold_left (fun findings x => findings ++ [g x]) l acc = acc ++ List.map g l.
Proof.
  induction l as [|x l IH]; intros acc; simpl.
  - rewrite app_nil_r. reflexivity.
  - rewrite IH, <- app_assoc. reflexivity.
Qed.

(** The race-condition rule emits nothing. *)
Lemma detectRaceConditions_nil filepath_Clean funcDecl :
  services.detectRaceConditions filepath_Clean funcDecl = [].
Proof.
  destruct funcDecl; try reflexivity. simpl.
  destruct Body; [|reflexivity].
  destruct (services.containsGoroutines n); reflexivity.
Qed.

(** The findings of a function are the findings of its blocking patterns. *)
Lemma analyzeFunctionConcurrency_map {go : Platform} filepath_Clean pos recv name ty body :
  services.analyzeFunctionConcurrency filepath_Clean (FuncDecl pos recv name ty (Some body))
  = List.map (services.blockingFinding filepath_Clean pos name)
      (services.analyzeBlockingPatterns body).
Proof.
  unfold services.analyzeFunctionConcurrency.
  rewrite detectRaceConditions_nil, app_nil_r.
  unfold services.detectBlockingBugs. apply (fold_append_single _ _ []).
Qed.

(** The constructor never rejects the finding of a pattern: its identifier
    and its message start with fixed text. *)
Lemma blockingFinding_fields filepath_Clean pos name pattern :
  services.blockingFinding filepath_Clean pos name pattern
  = entities.mkAnalysisFinding
      (services.BlockingCause_String (services.cause pattern) +:+ "_" +:+ NameOf name
       +:+ "_" +:+ fmt_d (Line pos))
      entities.FindingTypeBug
      (services.locationOf filepath_Clean pos)
      ("Potential blocking bug in " +:+ NameOf name +:+
       match services.cause pattern with
       | services.BlockingCauseChannelMisuse => ": channel misuse detected - "
       | services.BlockingCauseSharedMemorySync => ": shared memory synchronization issue - "
       | services.BlockingCauseDeadlock => ": deadlock pattern detected - "
       end +:+ services.description pattern)
      match services.cause pattern with
      | services.BlockingCauseChannelMisuse => valueobjects.SeverityWarning
      | services.BlockingCauseSharedMemorySync => valueobjects.SeverityError
      | services.BlockingCauseDeadlock => valueobjects.SeverityCritical
      end.
Proof. destruct pattern as [[] d]; reflexivity. Qed.

Lemma isFuncDecl_inv n :
  isFuncDecl n = true ->
  exists pos recv name ty body, n = FuncDecl pos recv name ty body.
Proof. destruct n; try discriminate. intros _. repeat eexists. Qed.

(** The detector concatenates the findings of the function declarations of
    the tree, in the order of the walk. *)
Lemma DetectBugs_flat_map {go : Platform} filepath_Clean root :
  fst (services.DetectBugs filepath_Clean root)
  = flat_map (services.analyzeFunctionConcurrency filepath_Clean)
      (List.filter isFuncDecl (preorder root)).
Proof.
  unfold services.DetectBugs. simpl. rewrite Inspect_preorder.
  rewrite <- (app_nil_l (flat_map _ _)). generalize (@nil entities.AnalysisFinding).
  induction (preorder root) as [|x l IH]; intros acc.
  - simpl. rewrite app_nil_r. reflexivity.
  - cbn [fold_left List.filter].
    destruct x; cbn [isFuncDecl flat_map]; rewrite IH; try reflexivity.
    match goal with
    | |- context [services.analyzeFunctionConcurrency ?c ?x] =>
        destruct (services.analyzeFunctionConcurrency c x) as [|y ys]
    end; simpl.
    + reflexivity.
    + rewrite <- app_assoc. reflexivity.
Qed.

(** A file made of one function whose body declares no function. *)
Lemma DetectBugs_single_function {go : Platform} filepath_Clean pkg pos name body :
  List.filter isFuncDecl (preorder (BlockStmt body)) = [] ->
  fst (services.DetectBugs filepath_Clean (File (Ident pkg) [funcDecl pos name body]))
  = List.map (services.blockingFinding filepath_Clean pos (Ident name))
      (services.analyzeBlockingPatterns (BlockStmt body)).
Proof.
  intros Hbody. rewrite DetectBugs_flat_map. unfold funcDecl.
  cbn [preorder flat_map List.filter isFuncDecl app] in Hbody |- *.
  rewrite !app_nil_r, Hbody. cbn [flat_map]. rewrite app_nil_r.
  apply analyzeFunctionConcurrency_map.
Qed.

Lemma locationOf_valid filepath_Clean pos :
  Filename pos <> "" -> 1 <= Line pos -> 0 <= Column pos ->
  services.locationOf filepath_Clean pos
  = valueobjects.mkSourceLocation (filepath_Clean (Filename pos)) (Line pos) (Column pos).
Proof.
  intros Hf Hl Hc. unfold services.locationOf, valueobjects.NewSourceLocation.
  destruct (String.eqb_spec (Filename pos) ""); [contradiction|].
  destruct (Z.ltb_spec (Line pos) 1); [lia|].
  destruct (Z.ltb_spec (Column pos) 0); [lia|]. reflexivity.
Qed.

Lemma locationOf_unnamed filepath_Clean pos :
  Filename pos = "" ->
  services.locationOf filepath_Clean pos = valueobjects.zeroSourceLocation.
Proof.
  intros Hf. unfold services.locationOf, valueobjects.NewSourceLocation.
  rewrite Hf. reflexivity.
Qed.

(** C10, as the code has it.  Every finding of the detector belongs to a
    function declaration of the tree and carries the location the source
    location constructor builds from the position of that declaration,
    whatever statement triggered the rule: the cleaned file path, the line
    and the column of the declaration when the file name is not empty (and
    the line is at least 1, the column at least 0); the zero location when
    the file name is empty. *)
Theorem C10_bug_findings_located_at_function {go : Platform}
    (filepath_Clean : string -> string) (root : node)
    (finding : entities.AnalysisFinding) :
  In finding (fst (services.DetectBugs filepath_Clean root)) ->
  exists pos recv name ty body,
    In (FuncDecl pos recv name ty body) (preorder root)
    /\ In finding (services.analyzeFunctionConcurrency filepath_Clean
                     (FuncDecl pos recv name ty body))
    /\ entities.location finding = services.locationOf filepath_Clean pos
    /\ (Filename pos <> "" -> 1 <= Line pos -> 0 <= Column pos ->
        entities.location finding
        = valueobjects.mkSourceLocation
            (filepath_Clean (Filename pos)) (Line pos) (Column pos))
    /\ (Filename pos = "" ->
        entities.location finding = valueobjects.zeroSourceLocation).
Proof.
  rewrite DetectBugs_flat_map, in_flat_map. intros (fd & Hfd & Hin).
  apply filter_In in Hfd. destruct Hfd as [Hfd Hk].
  apply isFuncDecl_inv in Hk. destruct Hk as (pos & recv & name & ty & body & ->).
  exists pos, recv, name, ty, body. split; [exact Hfd|]. split; [exact Hin|].
  assert (Hloc : entities.location finding = services.locationOf filepath_Clean pos).
  { destruct body as [body|]; [|destruct Hin].
    rewrite analyzeFunctionConcurrency_map in Hin. apply in_map_iff in Hin.
    destruct Hin as (p & <- & _). rewrite blockingFinding_fields. reflexivity. }
  split; [exact Hloc|]. split.
  - intros. rewrite Hloc. apply locationOf_valid; assumption.
  - intros. rewrite Hloc. apply locationOf_unnamed; assumption.
Qed.

(** C10 fails as stated: on the program of the repository's own test, parsed
    under the empty file name, the deadlock finding carries line 0 and
    column 0 while the function is declared at line 4, column 1. *)
Lemma C10_unnamed_file_loses_position :
  exists finding,
    fst (services.DetectBugs (fun path => path) lockWithoutUnlock) = [finding]
    /\ valueobjects.line (entities.location finding) = 0
    /\ valueobjects.column (entities.location finding) = 0
    /\ Line testPosition = 4
    /\ Column testPosition = 1
    /\ valueobjects.line (entities.location finding) <> Line testPosition.
Proof.
  eexists. split; [vm_compute; reflexivity|].
  repeat split; discriminate.
Qed.

(** The statement applies to the deadlock finding of the test program in a
    named file. *)
Lemma C10_bug_findings_located_at_function_witness :
  In (services.blockingFinding (fun path => path) namedPosition (Ident "test")
        (services.mutexPattern "mu" ["lock"; "lock"]))
     (fst (services.DetectBugs (fun path => path) (lockWithoutUnlockAt namedPosition)))
  /\ exists pos recv name ty body,
      In (FuncDecl pos recv name ty body) (preorder (lockWithoutUnlockAt namedPosition))
      /\ In (services.blockingFinding (fun path => path) namedPosition (Ident "test")
               (services.mutexPattern "mu" ["lock"; "lock"]))
            (services.analyzeFunctionConcurrency (fun path => path)
               (FuncDecl pos recv name ty body))
      /\ entities.location
           (services.blockingFinding (fun path => path) namedPosition (Ident "test")
              (services.mutexPattern "mu" ["lock"; "lock"]))
         = services.locationOf (fun path => path) pos
      /\ (Filename pos <> "" -> 1 <= Line pos -> 0 <= Column pos ->
          entities.location
            (services.blockingFinding (fun path => path) namedPosition (Ident "test")
               (services.mutexPattern "mu" ["lock"; "lock"]))
          = valueobjects.mkSourceLocation (Filename pos) (Line pos) (Column pos))
      /\ (Filename pos = "" ->
          entities.location
            (services.blockingFinding (fun path => path) namedPosition (Ident "test")
               (services.mutexPattern "mu" ["lock"; "lock"]))
          = valueobjects.zeroSourceLocation).
Proof.
  assert (H : In (services.blockingFinding (fun path => path) namedPosition (Ident "test")
                    (services.mutexPattern "mu" ["lock"; "lock"]))
                 (fst (services.DetectBugs (fun path => path) (lockWithoutUnlockAt namedPosition)))).
  { vm_compute. left. reflexivity. }
  split; [exact H|].
  exact (C10_bug_findings_located_at_function (fun path => path)
           (lockWithoutUnlockAt namedPosition) _ H).
Defined.

(** *** Concurrency bug detector: the channel-imbalance rule *)

Lemma countOps_from a b ops : a <> b -> forall x y,
  fold_left (fun '(p, q) op =>
               if String.eqb op a then (p + 1, q)
               else if String.eqb op b then (p, q + 1)
               else (p, q)) ops (x, y)
  = (x + tallyCount a ops, y + tallyCount b ops).
Proof.
  intros Hab. unfold tallyCount.
  induction ops as [|op ops IH]; intros x y; simpl.
  - f_equal; lia.
  - destruct (String.eqb op a) eqn:Ea.
    + apply String.eqb_eq in Ea. subst op.
      destruct (String.eqb a b) eqn:Eb; [apply String.eqb_eq in Eb; contradiction|].
      rewrite IH. simpl. f_equal; lia.
    + destruct (String.eqb op b) eqn:Eb; rewrite IH; simpl; f_equal; lia.
Qed.

(** The two counters of the loops are the numbers of tagged operations. *)
Lemma countOps_tally a b ops : a <> b ->
  services.countOps a b ops = (tallyCount a ops, tallyCount b ops).
Proof.
  intros H. unfold services.countOps. rewrite countOps_from by exact H. reflexivity.
Qed.

Lemma hasPotentialChannelBlock_iff ops :
  services.hasPotentialChannelBlock ops = true <-> channelImbalance ops.
Proof.
  unfold services.hasPotentialChannelBlock, channelImbalance.
  rewrite countOps_tally by discriminate.
  set (s := tallyCount "send" ops). set (r := tallyCount "receive" ops).
  assert (0 <= s) by (unfold s, tallyCount; lia).
  assert (0 <= r) by (unfold r, tallyCount; lia).
  destruct (s + r <? 2) eqn:E.
  - apply Z.ltb_lt in E. split; [discriminate|lia].
  - apply Z.ltb_ge in E.
    rewrite orb_true_iff, !andb_true_iff, !Z.gtb_ltb, !Z.ltb_lt. lia.
Qed.

Lemma channelImbalancePatterns_In (m : gmap string (list string)) p :
  In p (services.channelImbalancePatterns m)
  <-> exists name ops, m !! name = Some ops /\ channelImbalance ops
                       /\ p = services.channelPattern name ops.
Proof.
  unfold services.channelImbalancePatterns. rewrite in_flat_map. split.
  - intros [[name ops] [Hin Hp]].
    apply list_elem_of_In, elem_of_map_to_list in Hin.
    destruct (services.hasPotentialChannelBlock ops) eqn:E; [|contradiction].
    destruct Hp as [<-|[]]. exists name, ops.
    split; [exact Hin|]. split; [apply hasPotentialChannelBlock_iff; exact E|reflexivity].
  - intros (name & ops & Hm & Hc & ->). exists (name, ops). split.
    + apply list_elem_of_In, elem_of_map_to_list. exact Hm.
    + apply hasPotentialChannelBlock_iff in Hc. rewrite Hc. left. reflexivity.
Qed.

Lemma appendOp_empty k op : services.appendOp ∅ k op = {[k := [op]]}.
Proof. unfold services.appendOp. rewrite lookup_empty. reflexivity. Qed.

Lemma appendOp_singleton k l op :
  services.appendOp {[k := l]} k op = {[k := l ++ [op]]}.
Proof.
  unfold services.appendOp. rewrite lookup_singleton_eq. simpl.
  apply insert_singleton_eq.
Qed.

Lemma fifteenSends_patterns {go : Platform} ch :
  services.analyzeBlockingPatterns
    (BlockStmt (sends ch ["1"; "2"; "3"; "4"; "5"; "6"; "7"; "8"; "9"; "10";
                          "11"; "12"; "13"; "14"; "15"]
                ++ [ExprStmt (UnaryExpr ARROW (Ident ch))]))
  = [services.channelPattern ch
       ["send"; "send"; "send"; "send"; "send"; "send"; "send"; "send"; "send";
        "send"; "send"; "send"; "send"; "send"; "send"; "receive"]].
Proof.
  cbn [sends List.map app services.analyzeBlockingPatterns Inspect fold_left
       services.blockingVisit services.patterns services.channelOps services.mutexOps].
  rewrite appendOp_empty, !appendOp_singleton. cbn [app].
  unfold services.tallyPatterns, services.channelImbalancePatterns,
    services.mutexImbalancePatterns.
  cbn [services.patterns services.channelOps services.mutexOps].
  rewrite map_to_list_singleton, map_to_list_empty. reflexivity.
Qed.

Lemma fifteenSends_findings {go : Platform} filepath_Clean pkg pos name ch :
  fst (services.DetectBugs filepath_Clean (fifteenSends pkg pos name ch))
  = [services.blockingFinding filepath_Clean pos (Ident name)
       (services.channelPattern ch
          ["send"; "send"; "send"; "send"; "send"; "send"; "send"; "send"; "send";
           "send"; "send"; "send"; "send"; "send"; "send"; "receive"])].
Proof.
  unfold fifteenSends. rewrite DetectBugs_single_function by reflexivity.
  rewrite fifteenSends_patterns. reflexivity.
Qed.

(** *** A spawned select without escape hatch, seen by both detectors *)

(** A tally without imbalanced entry yields no pattern. *)
Lemma channelImbalancePatterns_nil (m : gmap string (list string)) :
  (forall name ops, m !! name = Some ops -> services.hasPotentialChannelBlock ops = false) ->
  services.channelImbalancePatterns m = [].
Proof.
  intros H. unfold services.channelImbalancePatterns.
  assert (HF : Forall (fun '(name, ops) => services.hasPotentialChannelBlock ops = false)
                 (map_to_list m)).
  { apply List.Forall_forall. intros [name ops] Hin.
    apply list_elem_of_In, elem_of_map_to_list in Hin. eauto. }
  induction HF as [|[name ops] l Hx _ IH]; simpl; [reflexivity|].
  rewrite Hx. exact IH.
Qed.

Lemma selectTwo_context {go : Platform} pos ch1 ch2 :
  services.isDoneChannel (Ident ch1) = false ->
  services.isDoneChannel (Ident ch2) = false ->
  services.goroutineContextOf (selectTwo pos ch1 ch2)
  = services.mkContext true false true false false false false false false
      "anonymous_goroutine" pos.
Proof.
  intros H1 H2. unfold selectTwo, spawn, receiveClause.
  cbn -[services.isDoneChannel]. rewrite H1, H2. reflexivity.
Qed.

Lemma twoReceives_blocking {go : Platform} ch1 ch2 :
  services.isPotentiallyBlockingSelect
    (SelectStmt (BlockStmt [receiveClause ch1; receiveClause ch2])) = true.
Proof. reflexivity. Qed.

Lemma selectTwo_patterns {go : Platform} pos ch1 ch2 :
  ch1 <> ch2 ->
  services.analyzeBlockingPatterns (BlockStmt [selectTwo pos ch1 ch2])
  = [services.selectPattern; services.selectPattern].
Proof.
  intros Hne. unfold selectTwo, spawn.
  pose proof (twoReceives_blocking ch1 ch2) as Hsel. unfold receiveClause in *.
  cbn -[services.appendOp services.tallyPatterns services.isPotentiallyBlockingSelect].
  rewrite !Hsel.
  cbn -[services.appendOp services.tallyPatterns services.isPotentiallyBlockingSelect].
  unfold services.tallyPatterns.
  cbn [services.patterns services.channelOps services.mutexOps].
  unfold services.mutexImbalancePatterns. rewrite map_to_list_empty.
  rewrite channelImbalancePatterns_nil.
  - reflexivity.
  - intros name ops. rewrite appendOp_empty. unfold services.appendOp.
    rewrite lookup_singleton_ne by exact Hne. simpl.
    rewrite lookup_insert_Some, lookup_singleton_Some.
    intros [[_ <-]|[_ [_ <-]]]; reflexivity.
Qed.

(** C2, as the code has it.  For a spawn whose body is a select with two
    receive clauses on distinct identifiers that do not name a cancel
    signal, the two detectors yield four findings on the enclosing tree.
    The leak detector yields a receive-leak finding (Warning, "confidence:
    0.42"), because the walk of the body meets the two receive expressions
    of the clauses, and the select-leak finding (Error, "confidence:
    0.86").  The bug detector yields the "channel misuse" finding (Bug,
    Warning) twice: once from the analysis of the spawned body and once
    more when the walk of the function goes on into that body. *)
Theorem C2_spawned_select_four_findings {go : Platform}
    (filepath_Clean : string -> string) (pkg : string) (fpos : Position)
    (name : string) (gpos : Position) (ch1 ch2 : string) :
  services.isDoneChannel (Ident ch1) = false ->
  services.isDoneChannel (Ident ch2) = false ->
  ch1 <> ch2 ->
  exists receiveLeak selectLeak misuse1 misuse2,
    fst (services.DetectLeaks filepath_Clean (selectTwoFile pkg fpos name gpos ch1 ch2))
      = [receiveLeak; selectLeak]
    /\ fst (services.DetectBugs filepath_Clean (selectTwoFile pkg fpos name gpos ch1 ch2))
      = [misuse1; misuse2]
    /\ services.analyzeGoroutine filepath_Clean (selectTwo gpos ch1 ch2)
      = [receiveLeak; selectLeak]
    /\ entities.severity receiveLeak = valueobjects.SeverityWarning
    /\ strings_Contains (entities.message receiveLeak) "confidence: 0.42" = true
    /\ entities.severity selectLeak = valueobjects.SeverityError
    /\ strings_Contains (entities.message selectLeak) "select_statement_leak" = true
    /\ strings_Contains (entities.message selectLeak) "confidence: 0.86" = true
    /\ misuse1 = misuse2
    /\ entities.findingType misuse1 = entities.FindingTypeBug
    /\ entities.severity misuse1 = valueobjects.SeverityWarning
    /\ strings_Contains (entities.message misuse1) "channel misuse" = true.
Proof.
  intros H1 H2 Hne. do 4 eexists. split; [|split; [|split]].
  - rewrite DetectLeaks_flat_map.
    change (services.collectGoroutines (selectTwoFile pkg fpos name gpos ch1 ch2))
      with [selectTwo gpos ch1 ch2].
    cbn [flat_map]. unfold services.analyzeGoroutine.
    rewrite selectTwo_context by assumption. rewrite app_nil_r. reflexivity.
  - unfold selectTwoFile. rewrite DetectBugs_single_function by reflexivity.
    rewrite selectTwo_patterns by exact Hne. reflexivity.
  - unfold services.analyzeGoroutine.
    rewrite selectTwo_context by assumption. reflexivity.
  - rewrite blockingFinding_fields.
    cbn [entities.findingType entities.severity entities.message services.cause
         services.selectPattern].
    repeat split; try reflexivity.
    do 2 apply strings_Contains_app_r. reflexivity.
Qed.

(** C2 fails as stated: on the program of the repository's own test the two
    detectors yield two findings each, four in total. *)
Lemma C2_select_leak_test_has_four_findings :
  length (fst (services.DetectLeaks (fun path => path) selectLeakTest)) = 2%nat
  /\ length (fst (services.DetectBugs (fun path => path) selectLeakTest)) = 2%nat
  /\ (length (fst (services.DetectLeaks (fun path => path) selectLeakTest))
      + length (fst (services.DetectBugs (fun path => path) selectLeakTest)))%nat
     <> 2%nat.
Proof. repeat split; vm_compute; try reflexivity; discriminate. Qed.

(** The statement applies to the program of the test, channels [ch1] and
    [ch2]. *)
Lemma C2_spawned_select_four_findings_witness :
  (services.isDoneChannel (Ident "ch1") = false
   /\ services.isDoneChannel (Ident "ch2") = false
   /\ "ch1" <> "ch2")
  /\ exists receiveLeak selectLeak misuse1 misuse2,
      fst (services.DetectLeaks (fun path => path) selectLeakTest)
        = [receiveLeak; selectLeak]
      /\ fst (services.DetectBugs (fun path => path) selectLeakTest)
        = [misuse1; misuse2]
      /\ services.analyzeGoroutine (fun path => path)
           (selectTwo (mkPosition "" 6 2) "ch1" "ch2")
        = [receiveLeak; selectLeak]
      /\ entities.severity receiveLeak = valueobjects.SeverityWarning
      /\ strings_Contains (entities.message receiveLeak) "confidence: 0.42" = true
      /\ entities.severity selectLeak = valueobjects.SeverityError
      /\ strings_Contains (entities.message selectLeak) "select_statement_leak" = true
      /\ strings_Contains (entities.message selectLeak) "confidence: 0.86" = true
      /\ misuse1 = misuse2
      /\ entities.findingType misuse1 = entities.FindingTypeBug
      /\ entities.severity misuse1 = valueobjects.SeverityWarning
      /\ strings_Contains (entities.message misuse1) "channel misuse" = true.
Proof.
  split; [split; [reflexivity | split; [reflexivity | discriminate]]|].
  apply (C2_spawned_select_four_findings (fun path => path) "main"
           (mkPosition "" 3 1) "test" (mkPosition "" 6 2) "ch1" "ch2");
    [reflexivity | reflexivity | discriminate].
Defined.

(** *** Concurrency bug detector: the lock-imbalance rule *)

(** The nodes of the subtree of a node of a tree are nodes of the tree. *)
Lemma preorder_incl n : forall x, In x (preorder n) -> incl (preorder x) (preorder n).
Proof.
  induction n as [n IH] using node_children_ind. intros x Hx.
  rewrite preorder_children in Hx. destruct Hx as [<-|Hx]; [apply incl_refl|].
  apply in_flat_map in Hx. destruct Hx as (c & Hc & Hx).
  rewrite List.Forall_forall in IH. intros y Hy.
  rewrite (preorder_children n). right. apply in_flat_map. exists c.
  split; [exact Hc|]. exact (IH c Hc x Hx y Hy).
Qed.

Lemma analyzeBlockingPatterns_unfold {go : Platform} block :
  services.analyzeBlockingPatterns block
  = services.tallyPatterns
      (Inspect (services.blockingVisit services.analyzeBlockingPatterns) block
         (services.mkBlockingState [] ∅ ∅)).
Proof. destruct block; reflexivity. Qed.

Lemma lookup_appendOp (mo : gmap string (list string)) k op k' :
  services.appendOp mo k op !! k'
  = if decide (k = k') then Some (default [] (mo !! k) ++ [op]) else mo !! k'.
Proof. unfold services.appendOp. apply lookup_insert. Qed.

(** Case analysis on the node a callback matches, whatever the variables
    of the goal are called. *)
Ltac case_node x same :=
  destruct x; try exact same;
  repeat match goal with
         | |- context [match ?t with _ => _ end] => is_var t; destruct t; try exact same
         end.

Lemma analyzeCallForBlocking_split call mo :
  services.analyzeCallForBlocking call mo
  = fold_left (fun s x => services.nestedMutexVisit x s) (preorder call)
      (services.directMutexTally call mo).
Proof.
  unfold services.analyzeCallForBlocking. rewrite Inspect_preorder. reflexivity.
Qed.

Lemma isLockCall_inv m x :
  isLockCall m x = true ->
  exists sel args, x = CallExpr (SelectorExpr (Ident m) sel) args
                   /\ isLockName (NameOf sel) = true.
Proof.
  unfold isLockCall.
  destruct x; try discriminate;
    repeat match goal with
           | |- context [match ?t with _ => _ end] =>
               is_var t; destruct t; try discriminate
           end.
  intros H. apply andb_true_iff in H. destruct H as [Hid Hlock].
  apply String.eqb_eq in Hid. subst. eauto.
Qed.

(** A tally of at least two lock operations and nothing else is flagged. *)
Lemma hasPotentialDeadlock_locks ops :
  Forall (fun op => op = "lock") ops -> (2 <= length ops)%nat ->
  services.hasPotentialDeadlock ops = true.
Proof.
  intros Hall Hlen. unfold services.hasPotentialDeadlock.
  rewrite countOps_tally by discriminate.
  assert (Hl : tallyCount "lock" ops = Z.of_nat (length ops)
               /\ tallyCount "unlock" ops = 0).
  { unfold tallyCount. clear Hlen.
    induction Hall as [|op ops Hop _ IH]; simpl; [split; reflexivity|].
    subst op. simpl. destruct IH as [IH1 IH2]. split; [|exact IH2].
    simpl. lia. }
  destruct Hl as [-> ->]. apply Z.gtb_lt. lia.
Qed.

Lemma channelImbalancePatterns_cause mo :
  Forall (fun p => services.cause p = services.BlockingCauseChannelMisuse)
    (services.channelImbalancePatterns mo).
Proof.
  apply List.Forall_forall. intros p Hp.
  apply channelImbalancePatterns_In in Hp. destruct Hp as (? & ? & _ & _ & ->).
  reflexivity.
Qed.

(** The general statement of C5 applies to the spawn of the test "Channel
    receive leak". *)
Lemma C5_receive_leak_reported_witness :
  (In receiveLeakSpawn (services.collectGoroutines receiveLeakTest)
   /\ services.hasChannelReceive (services.goroutineContextOf receiveLeakSpawn) = true
   /\ services.hasChannelClose (services.goroutineContextOf receiveLeakSpawn) = false
   /\ services.hasContextCancel (services.goroutineContextOf receiveLeakSpawn) = false)
  /\ exists finding,
      In finding (fst (services.DetectLeaks (fun path => path) receiveLeakTest))
      /\ In finding (services.analyzeGoroutine (fun path => path) receiveLeakSpawn)
      /\ entities.findingType finding = entities.FindingTypeSmell
      /\ entities.severity finding = valueobjects.SeverityWarning
      /\ strings_Contains (entities.message finding) "channel_receive_leak" = true
      /\ strings_Contains (entities.message finding) "confidence: 0.42" = true.
Proof.
  split.
  - split; [vm_compute; left; reflexivity|].
    split; [vm_compute; reflexivity|]. split; vm_compute; reflexivity.
  - apply (proj1 (C5_receive_leak_reported (fun path => path))
             receiveLeakTest receiveLeakSpawn);
      [vm_compute; left; reflexivity | vm_compute; reflexivity ..].
Defined.

(** *** The repository's tests *)

(** The embedding yields the numbers of findings the test suites of the
    detectors expect, among them the two findings for one imbalanced channel
    used inside a spawned function ("Channel close after send") and the two
    leak findings for a spawned select ("Select statement leak"). *)
Lemma repository_tests_agree {go : Platform} :
  length (fst (services.DetectBugs (fun path => path) lockWithoutUnlock)) = 1%nat
  /\ length (fst (services.DetectBugs (fun path => path) testProperMutex)) = 0%nat
  /\ length (fst (services.DetectBugs (fun path => path) testComplexDeadlock)) = 1%nat
  /\ length (fst (services.DetectBugs (fun path => path) testCloseAfterSend)) = 2%nat
  /\ length (fst (services.DetectBugs (fun path => path)
                    (fifteenSends "main" (mkPosition "" 3 1) "test" "ch"))) = 1%nat
  /\ length (fst (services.DetectLeaks (fun path => path) selectLeakTest)) = 2%nat
  /\ length (fst (services.DetectLeaks (fun path => path) testSendThenReturn)) = 1%nat
  /\ length (fst (services.DetectLeaks (fun path => path) testMultipleLeaks)) = 2%nat
  /\ length (fst (services.DetectLeaks (fun path => path) testComplexDeadlock)) = 0%nat.
Proof. repeat split; vm_compute; reflexivity. Qed.

(* ================================================================== *)
(** ** Further properties of the passes *)
(* ================================================================== *)

(** *** Go's [int] *)

Lemma intSize_cases {go : Platform} : intSize = 32 \/ intSize = 64.
Proof. unfold intSize. destruct int64; [right|left]; reflexivity. Qed.

Lemma int_modulus {go : Platform} : 2 ^ intSize = 2 * 2 ^ (intSize - 1) /\ 0 < 2 ^ (intSize - 1).
Proof. destruct intSize_cases as [-> | ->]; split; reflexivity. Qed.

Lemma maxInt_large {go : Platform} : 2147483647 <= maxInt.
Proof. unfold maxInt. destruct intSize_cases as [-> | ->]; vm_compute; discriminate. Qed.

(** A value within the range of [int] is left as it is. *)
Lemma int_wrap_small {go : Platform} z : minInt <= z <= maxInt -> int_wrap z = z.
Proof.
  unfold int_wrap, minInt, maxInt. destruct int_modulus as [-> Hpos].
  set (h := 2 ^ (intSize - 1)) in *. intros Hz.
  rewrite Z.mod_small by lia. lia.
Qed.

Lemma int_wrap_range {go : Platform} z : minInt <= int_wrap z <= maxInt.
Proof.
  unfold int_wrap, minInt, maxInt. destruct int_modulus as [-> Hpos].
  set (h := 2 ^ (intSize - 1)) in *.
  pose proof (Z.mod_pos_bound (z + h) (2 * h) ltac:(lia)).
  lia.
Qed.

(** Wrapping commutes with sums: the low bits of a sum depend on the low
    bits of its terms only. *)
Lemma int_wrap_add_l {go : Platform} a b : int_wrap (int_wrap a + b) = int_wrap (a + b).
Proof.
  unfold int_wrap. f_equal.
  set (h := 2 ^ (intSize - 1)). set (m := 2 ^ intSize).
  replace ((a + h) mod m - h + b + h) with ((a + h) mod m + b) by lia.
  rewrite Zplus_mod_idemp_l. f_equal. lia.
Qed.

Lemma int_wrap_add_r {go : Platform} a b : int_wrap (a + int_wrap b) = int_wrap (a + b).
Proof. rewrite Z.add_comm, int_wrap_add_l, Z.add_comm. reflexivity. Qed.

Lemma int_add_wrap_l {go : Platform} a b : int_add (int_wrap a) b = int_wrap (a + b).
Proof. apply int_wrap_add_l. Qed.

Lemma int_add_wrap_r {go : Platform} a b : int_add a (int_wrap b) = int_wrap (a + b).
Proof. apply int_wrap_add_r. Qed.

Lemma int_add_exact {go : Platform} a b : minInt <= a + b <= maxInt -> int_add a b = a + b.
Proof. apply int_wrap_small. Qed.

(** *** Complexity calculator: the cognitive score and its wrap-around *)

Lemma preorder_self n : In n (preorder n).
Proof. rewrite preorder_children. left. reflexivity. Qed.

Lemma child_below n c x :
  In c (children n) -> In x (preorder c) -> In x (flat_map preorder (children n)).
Proof. intros Hc Hx. apply in_flat_map. exists c. split; assumption. Qed.

(** Induction over a tree with the property at hand for every node strictly
    below the node. *)
Lemma node_descendants_ind (P : node -> Prop) :
  (forall n, (forall x, In x (flat_map preorder (children n)) -> P x) -> P n) ->
  forall n, P n.
Proof.
  intros H.
  assert (HQ : forall n x, In x (preorder n) -> P x).
  { induction n as [n IH] using node_children_ind. intros x Hx.
    assert (Hbelow : forall y, In y (flat_map preorder (children n)) -> P y).
    { intros y Hy. apply in_flat_map in Hy. destruct Hy as (c & Hc & Hy).
      rewrite List.Forall_forall in IH. exact (IH c Hc y Hy). }
    rewrite preorder_children in Hx.
    destruct Hx as [<-|Hx]; [apply H, Hbelow|apply Hbelow, Hx]. }
  intros n. apply (HQ n), preorder_self.
Qed.

(** The condition and the body of an else-if branch are below the [if]. *)
Lemma chained_below i cnd b i' cond body e' x :
  In x [cond; body] ->
  In x (flat_map preorder (children (IfStmt i cnd b (Some (IfStmt i' cond body e'))))).
Proof.
  intros Hx. apply (child_below _ (IfStmt i' cond body e')).
  - cbn [children optNode]. apply in_or_app. right. right. right. left. reflexivity.
  - rewrite preorder_children. right.
    apply (child_below _ x); [|apply preorder_self].
    cbn [children]. apply in_or_app. right.
    destruct Hx as [<-|[<-|[]]]; [left|right; left]; reflexivity.
Qed.

Lemma constructs_app l1 l2 : constructs (l1 ++ l2) = constructs l1 + constructs l2.
Proof.
  unfold constructs. rewrite !List.filter_app, !length_app. lia.
Qed.

Lemma constructs_nonneg l : 0 <= constructs l.
Proof. unfold constructs. lia. Qed.

Lemma constructs_preorder n :
  constructs (preorder n)
  = (if isBranchConstruct n || isShortCircuit n then 1 else 0)
    + constructs (flat_map preorder (children n)).
Proof.
  rewrite preorder_children. change (n :: ?l) with ([n] ++ l).
  rewrite constructs_app. f_equal.
  unfold constructs. cbn [List.filter].
  destruct n; try reflexivity.
  match goal with |- context [BinaryExpr _ ?op _] => destruct op; reflexivity end.
Qed.

Lemma unbounded_cognitiveWalk_Inspect n st :
  unbounded.cognitiveWalk n st
  = Inspect (unbounded.cognitiveVisit unbounded.chainedScore false) n st.
Proof. destruct n; reflexivity. Qed.

(** Over unbounded integers, one visit of the callback adds at least 1 at
    a construct, and never lowers the nesting. *)
Lemma cognitiveVisit_lower chained isRoot n c k :
  0 <= k ->
  (forall i cnd b i' cond body e',
      n = IfStmt i cnd b (Some (IfStmt i' cond body e')) -> 0 <= chained cond body k) ->
  c + (if isBranchConstruct n || isShortCircuit n then 1 else 0)
    <= fst (unbounded.cognitiveVisit chained isRoot n (c, k))
  /\ k <= snd (unbounded.cognitiveVisit chained isRoot n (c, k)).
Proof.
  intros Hk Hch. unfold unbounded.cognitiveVisit.
  destruct n; cbn [isBranchConstruct isShortCircuit orb fst snd];
    repeat match goal with
           | |- context [match ?t with _ => _ end] =>
               is_var t; destruct t; cbn [isBranchConstruct isShortCircuit orb fst snd]
           end;
    try (split; lia).
  match goal with
  | |- context [chained ?a ?b k] => pose proof (Hch _ _ _ _ a b _ eq_refl)
  end.
  split; lia.
Qed.

Lemma fold_walk_lower (F : node -> Z * Z -> Z * Z) l :
  (forall x, In x l -> forall c k, 0 <= k ->
     c + constructs (preorder x) <= fst (F x (c, k)) /\ k <= snd (F x (c, k))) ->
  forall c k, 0 <= k ->
    c + constructs (flat_map preorder l) <= fst (fold_left (fun st x => F x st) l (c, k))
    /\ k <= snd (fold_left (fun st x => F x st) l (c, k)).
Proof.
  induction l as [|a l IH]; intros H c k Hk; cbn [fold_left flat_map].
  - unfold constructs. simpl. split; lia.
  - rewrite constructs_app.
    pose proof (H a (or_introl eq_refl) c k Hk) as [Ha Hb].
    destruct (F a (c, k)) as [c1 k1]. cbn [fst snd] in Ha, Hb.
    destruct (IH (fun x Hx => H x (or_intror Hx)) c1 k1 ltac:(lia)) as [Hc Hd].
    split; lia.
Qed.

(** The walk below the root raises the exact score by at least the number
    of constructs it visits. *)
Lemma cognitiveWalk_lower n : forall c k, 0 <= k ->
  c + constructs (preorder n) <= fst (unbounded.cognitiveWalk n (c, k))
  /\ k <= snd (unbounded.cognitiveWalk n (c, k)).
Proof.
  induction n as [n IH] using node_descendants_ind. intros c k Hk.
  rewrite unbounded_cognitiveWalk_Inspect, Inspect_children, constructs_preorder.
  destruct (cognitiveVisit_lower unbounded.chainedScore false n c k Hk) as [H1 H2].
  { intros i cnd b i' cond body e' ->. unfold unbounded.chainedScore.
    pose proof (chained_below i cnd b i' cond body e') as Hin.
    pose proof (IH cond (Hin cond (or_introl eq_refl)) (0 + (1 + k)) k Hk) as [Ha Hb].
    destruct (unbounded.cognitiveWalk cond (0 + (1 + k), k)) as [c1 k1].
    cbn [fst snd] in Ha, Hb.
    pose proof (IH body (Hin body (or_intror (or_introl eq_refl))) c1 k1 ltac:(lia))
      as [Hc _].
    pose proof (constructs_nonneg (preorder cond)).
    pose proof (constructs_nonneg (preorder body)). lia. }
  destruct (unbounded.cognitiveVisit unbounded.chainedScore false n (c, k)) as [c1 k1].
  cbn [fst snd] in H1, H2.
  destruct (fold_walk_lower
              (fun x s => Inspect (unbounded.cognitiveVisit unbounded.chainedScore false) x s)
              (children n)) with (c := c1) (k := k1) as [H3 H4].
  - intros x Hx c' k' Hk'. rewrite <- unbounded_cognitiveWalk_Inspect.
    apply IH; [|exact Hk']. apply (child_below _ x); [exact Hx|apply preorder_self].
  - lia.
  - split; lia.
Qed.

Lemma chainedScore_nonneg cond body k : 0 <= k -> 0 <= unbounded.chainedScore cond body k.
Proof.
  intros Hk. unfold unbounded.chainedScore.
  pose proof (cognitiveWalk_lower cond (0 + (1 + k)) k Hk) as [Ha Hb].
  destruct (unbounded.cognitiveWalk cond (0 + (1 + k), k)) as [c1 k1].
  cbn [fst snd] in Ha, Hb.
  pose proof (cognitiveWalk_lower body c1 k1 ltac:(lia)) as [Hc _].
  pose proof (constructs_nonneg (preorder cond)).
  pose proof (constructs_nonneg (preorder body)). lia.
Qed.

Lemma calculateCognitiveComplexity_lower n k :
  0 <= k -> constructs (preorder n) <= unbounded.calculateCognitiveComplexity n k.
Proof.
  intros Hk. unfold unbounded.calculateCognitiveComplexity. rewrite constructs_preorder.
  destruct (cognitiveVisit_lower unbounded.chainedScore true n 0 k Hk) as [H1 H2].
  { intros. apply chainedScore_nonneg, Hk. }
  destruct (unbounded.cognitiveVisit unbounded.chainedScore true n (0, k)) as [c1 k1].
  cbn [fst snd] in H1, H2.
  destruct (fold_walk_lower unbounded.cognitiveWalk (children n)) with (c := c1) (k := k1)
    as [H3 _].
  - intros x _ c' k' Hk'. apply cognitiveWalk_lower, Hk'.
  - lia.
  - lia.
Qed.

Lemma calculateCyclomaticComplexity_constructs n :
  services.calculateCyclomaticComplexity n = 1 + constructs (preorder n).
Proof.
  unfold services.calculateCyclomaticComplexity, constructs.
  rewrite Inspect_preorder, fold_cyclomaticVisit. lia.
Qed.

(** The callback on [int]s yields the low bits of what it yields on
    unbounded integers: no branch of it looks at the counters. *)
Lemma cognitiveVisit_wrap {go : Platform} chained chained' isRoot n c k :
  (forall i cnd b i' cond body e',
      n = IfStmt i cnd b (Some (IfStmt i' cond body e')) ->
      chained cond body (int_wrap k) = int_wrap (chained' cond body k)) ->
  services.cognitiveVisit chained isRoot n (int_wrap c, int_wrap k)
  = int_wrap2 (unbounded.cognitiveVisit chained' isRoot n (c, k)).
Proof.
  intros Hch. unfold services.cognitiveVisit, unbounded.cognitiveVisit, int_wrap2.
  destruct n; cbn [fst snd];
    repeat match goal with
           | |- context [match ?t with _ => _ end] => is_var t; destruct t; cbn [fst snd]
           end;
    rewrite ?(Hch _ _ _ _ _ _ _ eq_refl);
    repeat first [ rewrite int_add_wrap_r | rewrite int_add_wrap_l
                 | rewrite int_wrap_add_l | rewrite <- Z.add_assoc ];
    reflexivity.
Qed.

Lemma fold_walk_wrap {go : Platform} (F F' : node -> Z * Z -> Z * Z) l :
  (forall x, In x l -> forall st, F x (int_wrap2 st) = int_wrap2 (F' x st)) ->
  forall st,
    fold_left (fun st x => F x st) l (int_wrap2 st)
    = int_wrap2 (fold_left (fun st x => F' x st) l st).
Proof.
  induction l as [|a l IH]; intros Hl st; cbn [fold_left]; [reflexivity|].
  rewrite (Hl a (or_introl eq_refl)).
  apply IH. intros x Hx. apply Hl. right. exact Hx.
Qed.

Lemma int_wrap2_pair {go : Platform} c k : int_wrap2 (c, k) = (int_wrap c, int_wrap k).
Proof. reflexivity. Qed.

Lemma int_wrap_0 {go : Platform} : int_wrap 0 = 0.
Proof.
  apply int_wrap_small. pose proof maxInt_large as Hmax. unfold minInt, maxInt in *.
  set (h := 2 ^ (intSize - 1)) in *. lia.
Qed.

(** The walk on [int]s yields the low bits of the exact walk. *)
Lemma cognitiveWalk_wrap {go : Platform} n : forall st,
  services.cognitiveWalk n (int_wrap2 st) = int_wrap2 (unbounded.cognitiveWalk n st).
Proof.
  induction n as [n IH] using node_descendants_ind. intros [c k].
  rewrite cognitiveWalk_Inspect, unbounded_cognitiveWalk_Inspect, !Inspect_children.
  rewrite int_wrap2_pair.
  rewrite (cognitiveVisit_wrap services.chainedScore unbounded.chainedScore false n c k).
  - apply (fold_walk_wrap
             (fun x s => Inspect (services.cognitiveVisit services.chainedScore false) x s)
             (fun x s => Inspect (unbounded.cognitiveVisit unbounded.chainedScore false) x s)).
    intros x Hx st. rewrite <- cognitiveWalk_Inspect, <- unbounded_cognitiveWalk_Inspect.
    apply IH. apply (child_below _ x); [exact Hx|apply preorder_self].
  - intros i cnd b i' cond body e' ->.
    unfold services.chainedScore, unbounded.chainedScore.
    pose proof (chained_below i cnd b i' cond body e') as Hin.
    rewrite !int_add_wrap_r.
    change (int_wrap (0 + (1 + k)), int_wrap k) with (int_wrap2 (0 + (1 + k), k)).
    rewrite (IH cond (Hin cond (or_introl eq_refl))).
    rewrite (IH body (Hin body (or_intror (or_introl eq_refl)))).
    reflexivity.
Qed.

Lemma chainedScore_wrap {go : Platform} cond body k :
  services.chainedScore cond body (int_wrap k)
  = int_wrap (unbounded.chainedScore cond body k).
Proof.
  unfold services.chainedScore, unbounded.chainedScore.
  rewrite !int_add_wrap_r.
  change (int_wrap (0 + (1 + k)), int_wrap k) with (int_wrap2 (0 + (1 + k), k)).
  rewrite !cognitiveWalk_wrap. reflexivity.
Qed.

(** The score the code computes is the exact score, wrapped. *)
Lemma calculateCognitiveComplexity_wrap {go : Platform} n k :
  services.calculateCognitiveComplexity n (int_wrap k)
  = int_wrap (unbounded.calculateCognitiveComplexity n k).
Proof.
  unfold services.calculateCognitiveComplexity, unbounded.calculateCognitiveComplexity.
  rewrite <- int_wrap_0 at 1.
  rewrite (cognitiveVisit_wrap services.chainedScore unbounded.chainedScore true n 0 k).
  - rewrite (fold_walk_wrap services.cognitiveWalk unbounded.cognitiveWalk);
      [reflexivity|].
    intros x _ st. apply cognitiveWalk_wrap.
  - intros. apply chainedScore_wrap.
Qed.

Lemma calculateCognitiveComplexity_exact {go : Platform} n :
  unbounded.calculateCognitiveComplexity n 0 <= maxInt ->
  services.calculateCognitiveComplexity n 0 = unbounded.calculateCognitiveComplexity n 0.
Proof.
  intros Hfit.
  pose proof (calculateCognitiveComplexity_lower n 0 ltac:(lia)) as Hlow.
  pose proof (constructs_nonneg (preorder n)) as Hn.
  rewrite <- int_wrap_0 at 1. rewrite calculateCognitiveComplexity_wrap.
  apply int_wrap_small. pose proof maxInt_large as Hmax. unfold minInt, maxInt in *.
  set (h := 2 ^ (intSize - 1)) in *. lia.
Qed.

Lemma CalculateComplexity_ok {go : Platform} n :
  unbounded.calculateCognitiveComplexity n 0 <= maxInt ->
  services.CalculateComplexity n
  = (valueobjects.mkComplexityScore
       (services.calculateCyclomaticComplexity n)
       (unbounded.calculateCognitiveComplexity n 0), None)
  /\ 1 <= services.calculateCyclomaticComplexity n
  /\ services.calculateCyclomaticComplexity n - 1
     <= unbounded.calculateCognitiveComplexity n 0.
Proof.
  intros Hfit.
  pose proof (calculateCyclomaticComplexity_constructs n) as Hcy.
  pose proof (calculateCognitiveComplexity_lower n 0 ltac:(lia)) as Hco.
  pose proof (constructs_nonneg (preorder n)) as Hn.
  split; [|split; lia].
  unfold services.CalculateComplexity, valueobjects.NewComplexityScore.
  rewrite (calculateCognitiveComplexity_exact n Hfit).
  destruct (Z.ltb_spec (services.calculateCyclomaticComplexity n) 1); [lia|].
  destruct (Z.ltb_spec (unbounded.calculateCognitiveComplexity n 0) 0); [lia|].
  reflexivity.
Qed.

(** The exact score of [n] consecutive empty [if]s in a function is
    [n (n + 3) / 2]: the nesting is raised by the body of the function and
    by the body of every [if] met, and never lowered. *)
Lemma manyIfs_exact_walk n : forall c k,
  fold_left (fun st x => unbounded.cognitiveWalk x st) (List.repeat (emptyIf "a") n) (c, k)
  = (c + Z.of_nat n * (1 + k) + Z.of_nat n * (Z.of_nat n - 1) / 2, k + Z.of_nat n).
Proof.
  induction n as [|n IH]; intros c k.
  - cbn [List.repeat fold_left]. change (Z.of_nat 0) with 0.
    rewrite !Z.mul_0_l. change (0 / 2) with 0. f_equal; lia.
  - change (List.repeat (emptyIf "a") (S n))
      with (emptyIf "a" :: List.repeat (emptyIf "a") n).
    cbn [fold_left].
    replace (unbounded.cognitiveWalk (emptyIf "a") (c, k)) with (c + (1 + k), k + 1)
      by reflexivity.
    rewrite IH. f_equal; [|lia].
    replace (Z.of_nat (S n) * (Z.of_nat (S n) - 1)) with
      (Z.of_nat n * (Z.of_nat n - 1) + Z.of_nat n * 2) by lia.
    rewrite Z.div_add by lia. lia.
Qed.

Lemma manyIfs_exact n :
  unbounded.calculateCognitiveComplexity (manyIfs n) 0
  = Z.of_nat n * (Z.of_nat n + 3) / 2.
Proof.
  unfold unbounded.calculateCognitiveComplexity, manyIfs, funcDecl.
  cbn [children optNode app fold_left unbounded.cognitiveVisit].
  replace (unbounded.cognitiveWalk (FuncType [] []) (unbounded.cognitiveWalk (Ident "f") (0, 0)))
    with (0, 0) by reflexivity.
  rewrite unbounded_cognitiveWalk_Inspect, Inspect_children.
  cbn [children unbounded.cognitiveVisit].
  assert (Hext : forall l st,
             fold_left (fun s c =>
                          Inspect (unbounded.cognitiveVisit unbounded.chainedScore false) c s)
               l st
             = fold_left (fun st x => unbounded.cognitiveWalk x st) l st).
  { induction l as [|x l IH]; intros st; cbn [fold_left]; [reflexivity|].
    rewrite <- unbounded_cognitiveWalk_Inspect. apply IH. }
  rewrite Hext, manyIfs_exact_walk. cbn [fst].
  replace (Z.of_nat n * (Z.of_nat n + 3)) with
    (Z.of_nat n * (Z.of_nat n - 1) + Z.of_nat n * 2 * 2) by lia.
  rewrite Z.div_add by lia. lia.
Qed.

(** On a 32-bit platform the score of a function of 65,536 consecutive
    empty [if]s wraps around to a negative value, which the constructor of
    the score rejects. *)
Lemma CalculateComplexity_fails_when_wrapped :
  unbounded.calculateCognitiveComplexity (manyIfs (Z.to_nat 65536)) 0 = 2147581952
  /\ @services.calculateCognitiveComplexity ia32 (manyIfs (Z.to_nat 65536)) 0 = -2147385344
  /\ @services.CalculateComplexity ia32 (manyIfs (Z.to_nat 65536))
     = (valueobjects.zeroComplexityScore,
        Some "cognitive complexity must be >= 0, got -2147385344").
Proof.
  remember (Z.to_nat 65536) as m eqn:Em.
  assert (Hm : Z.of_nat m = 65536) by (subst m; reflexivity). clear Em.
  pose proof (manyIfs_exact m) as E. rewrite Hm in E.
  change (65536 * (65536 + 3) / 2) with 2147581952 in E.
  pose proof (constructs_nonneg (preorder (manyIfs m))) as Hn.
  pose proof (calculateCyclomaticComplexity_constructs (manyIfs m)) as Hcy.
  remember (manyIfs m) as n eqn:En. clear En.
  assert (W : @services.calculateCognitiveComplexity ia32 n 0 = -2147385344).
  { pose proof (@calculateCognitiveComplexity_wrap ia32 n 0) as Hw.
    rewrite (@int_wrap_0 ia32) in Hw. rewrite Hw, E. reflexivity. }
  split; [exact E|]. split; [exact W|].
  unfold services.CalculateComplexity. rewrite W.
  unfold valueobjects.NewComplexityScore.
  destruct (Z.ltb_spec (services.calculateCyclomaticComplexity n) 1); [lia|].
  reflexivity.
Qed.

(** X1.  [CalculateComplexity] returns no error unless the cognitive score
    wraps around: when the exact cognitive score of a node fits in an [int],
    the computed cognitive score is the exact one, the cyclomatic score is
    at least 1 and the cognitive score at least the cyclomatic score minus 1
    (both count the same constructs, the cognitive one with a weight of at
    least 1), so the validation of [NewComplexityScore] passes and the
    score holds the two computed values.  (Lemma
    [CalculateComplexity_fails_when_wrapped] shows a score that wraps and
    is rejected.) *)
Theorem CalculateComplexity_valid_unless_wrapped {go : Platform} (n : node) :
  unbounded.calculateCognitiveComplexity n 0 <= maxInt ->
  services.CalculateComplexity n
  = (valueobjects.mkComplexityScore
       (services.calculateCyclomaticComplexity n)
       (services.calculateCognitiveComplexity n 0), None)
  /\ services.calculateCognitiveComplexity n 0
     = unbounded.calculateCognitiveComplexity n 0
  /\ 1 <= services.calculateCyclomaticComplexity n
  /\ services.calculateCyclomaticComplexity n - 1
     <= services.calculateCognitiveComplexity n 0.
Proof.
  intros Hfit.
  destruct (CalculateComplexity_ok n Hfit) as (Hc & H1 & H2).
  rewrite (calculateCognitiveComplexity_exact n Hfit).
  repeat split; assumption.
Qed.

Lemma CalculateComplexity_valid_unless_wrapped_witness :
  unbounded.calculateCognitiveComplexity oneIf 0 <= maxInt
  /\ services.CalculateComplexity oneIf
     = (valueobjects.mkComplexityScore
          (services.calculateCyclomaticComplexity oneIf)
          (services.calculateCognitiveComplexity oneIf 0), None)
  /\ services.calculateCognitiveComplexity oneIf 0
     = unbounded.calculateCognitiveComplexity oneIf 0
  /\ 1 <= services.calculateCyclomaticComplexity oneIf
  /\ services.calculateCyclomaticComplexity oneIf - 1
     <= services.calculateCognitiveComplexity oneIf 0.
Proof.
  split; [vm_compute; discriminate|].
  apply (CalculateComplexity_valid_unless_wrapped oneIf). vm_compute; discriminate.
Defined.

(** *** Concurrency bug detector: the kinds of finding it emits *)

Lemma mutexImbalancePatterns_cause mo :
  Forall (fun p => services.cause p = services.BlockingCauseDeadlock)
    (services.mutexImbalancePatterns mo).
Proof.
  unfold services.mutexImbalancePatterns.
  induction (map_to_list mo) as [|[name ops] l IH]; cbn [flat_map]; [constructor|].
  destruct (services.hasPotentialDeadlock ops); cbn [app]; [constructor|]; auto.
Qed.

Lemma blockingVisit_causes {go : Platform} recur x st :
  (forall body, inlineBody x = Some body -> Forall reportedCause (recur body)) ->
  Forall reportedCause (services.patterns st) ->
  Forall reportedCause (services.patterns (services.blockingVisit recur x st)).
Proof.
  intros Hrec Hst. unfold services.blockingVisit. case_node x Hst.
  - cbn [services.patterns]. apply Forall_app. split; [exact Hst|].
    apply Hrec. reflexivity.
  - match goal with
    | |- context [if ?b then _ else _] => destruct b; [|exact Hst]
    end.
    cbn [services.patterns]. apply Forall_app. split; [exact Hst|].
    constructor; [left; reflexivity|constructor].
Qed.

Lemma fold_blockingVisit_causes {go : Platform} recur l : forall st,
  (forall x body, In x l -> inlineBody x = Some body -> Forall reportedCause (recur body)) ->
  Forall reportedCause (services.patterns st) ->
  Forall reportedCause
    (services.patterns (fold_left (fun s x => services.blockingVisit recur x s) l st)).
Proof.
  induction l as [|x l IH]; intros st Hrec Hst; cbn [fold_left]; [exact Hst|].
  apply IH.
  - intros y body Hy. apply Hrec. right. exact Hy.
  - apply blockingVisit_causes; [|exact Hst].
    intros body. apply Hrec. left. reflexivity.
Qed.

Lemma inlineBody_below x body :
  inlineBody x = Some body -> In body (flat_map preorder (children x)).
Proof.
  destruct x; try discriminate. cbn [inlineBody].
  repeat match goal with
         | |- context [match ?t with _ => _ end] => is_var t; destruct t; try discriminate
         end.
  intros [= ->]. cbn [children flat_map]. rewrite app_nil_r.
  rewrite preorder_children. right. cbn [children flat_map].
  apply in_or_app. left. rewrite preorder_children. right. cbn [children flat_map].
  apply in_or_app. right. apply in_or_app. left. apply preorder_self.
Qed.

Lemma below_trans n x y :
  In x (preorder n) -> In y (flat_map preorder (children x)) ->
  In y (flat_map preorder (children n)).
Proof.
  intros Hx Hy. rewrite preorder_children in Hx. destruct Hx as [<-|Hx]; [exact Hy|].
  apply in_flat_map in Hx. destruct Hx as (c & Hc & Hx).
  apply (child_below n c); [exact Hc|].
  apply (preorder_incl c x Hx). rewrite preorder_children. right. exact Hy.
Qed.

(** No pattern carries the shared-memory cause. *)
Lemma analyzeBlockingPatterns_causes {go : Platform} block :
  Forall reportedCause (services.analyzeBlockingPatterns block).
Proof.
  induction block as [block IH] using node_descendants_ind.
  rewrite analyzeBlockingPatterns_unfold, Inspect_preorder.
  unfold services.tallyPatterns. apply Forall_app. split; [|apply Forall_app; split].
  - apply fold_blockingVisit_causes; [|constructor].
    intros x body Hx Hbody. apply IH.
    apply (below_trans block x); [exact Hx|]. apply inlineBody_below, Hbody.
  - eapply Forall_impl; [|apply channelImbalancePatterns_cause].
    intros p Hp. left. exact Hp.
  - eapply Forall_impl; [|apply mutexImbalancePatterns_cause].
    intros p Hp. right. exact Hp.
Qed.

(** X2.  Every finding of the concurrency bug detector is a Bug finding
    with a non-empty identifier, of one of two kinds: a "channel misuse"
    finding with Warning severity or a "deadlock" finding with Critical
    severity.  The "shared memory synchronization" kind (Error severity) and
    the race-condition findings the detector has code for are never
    emitted. *)
Theorem DetectBugs_finding_kinds {go : Platform}
    (filepath_Clean : string -> string) (root : node)
    (finding : entities.AnalysisFinding) :
  In finding (fst (services.DetectBugs filepath_Clean root)) ->
  entities.findingType finding = entities.FindingTypeBug
  /\ entities.id finding <> ""
  /\ ((entities.severity finding = valueobjects.SeverityWarning
       /\ (exists rest, entities.id finding = "channel_misuse_" +:+ rest)
       /\ strings_Contains (entities.message finding) "channel misuse detected" = true)
      \/ (entities.severity finding = valueobjects.SeverityCritical
          /\ (exists rest, entities.id finding = "deadlock_" +:+ rest)
          /\ strings_Contains (entities.message finding) "deadlock pattern detected"
             = true)).
Proof.
  intros H. rewrite DetectBugs_flat_map in H.
  apply in_flat_map in H. destruct H as (x & Hx & Hf).
  apply List.filter_In in Hx. destruct Hx as [_ Hx].
  apply isFuncDecl_inv in Hx. destruct Hx as (pos & recv & name & ty & body & ->).
  destruct body as [body|]; [|contradiction].
  rewrite analyzeFunctionConcurrency_map in Hf.
  apply in_map_iff in Hf. destruct Hf as (p & <- & Hp).
  pose proof (analyzeBlockingPatterns_causes body) as Hc.
  rewrite List.Forall_forall in Hc. specialize (Hc p Hp).
  rewrite blockingFinding_fields.
  cbn [entities.findingType entities.id entities.message entities.severity].
  split; [reflexivity|].
  destruct Hc as [-> | ->]; cbn [services.BlockingCause_String].
  - split; [simpl; discriminate|]. left.
    split; [reflexivity|].
    split; [exists (NameOf name +:+ "_" +:+ fmt_d (Line pos)); reflexivity|].
    do 2 apply strings_Contains_app_r. reflexivity.
  - split; [simpl; discriminate|]. right.
    split; [reflexivity|].
    split; [exists (NameOf name +:+ "_" +:+ fmt_d (Line pos)); reflexivity|].
    do 2 apply strings_Contains_app_r. reflexivity.
Qed.

Lemma DetectBugs_finding_kinds_witness :
  In lockFinding
     (fst (services.DetectBugs (fun path => path) (lockWithoutUnlockAt namedPosition)))
  /\ entities.findingType lockFinding = entities.FindingTypeBug
  /\ entities.id lockFinding <> ""
  /\ ((entities.severity lockFinding = valueobjects.SeverityWarning
       /\ (exists rest, entities.id lockFinding = "channel_misuse_" +:+ rest)
       /\ strings_Contains (entities.message lockFinding) "channel misuse detected"
          = true)
      \/ (entities.severity lockFinding = valueobjects.SeverityCritical
          /\ (exists rest, entities.id lockFinding = "deadlock_" +:+ rest)
          /\ strings_Contains (entities.message lockFinding) "deadlock pattern detected"
             = true)).
Proof.
  split; [vm_compute; left; reflexivity|].
  apply (DetectBugs_finding_kinds (fun path => path) (lockWithoutUnlockAt namedPosition)
           lockFinding).
  vm_compute; left; reflexivity.
Defined.

(** *** Goroutine leak detector: how the context of a spawn evolves *)

Lemma extends_refl c : extends c c.
Proof. unfold extends. tauto. Qed.

Lemma extends_trans c1 c2 c3 : extends c1 c2 -> extends c2 c3 -> extends c1 c3.
Proof.
  unfold extends. intros (P1 & N1 & H1) (P2 & N2 & H2).
  split; [congruence|]. split; [congruence|]. tauto.
Qed.

(** Case analysis on every test the goal makes. *)
Ltac context_cases :=
  repeat match goal with
         | |- context [if ?b then _ else _] => destruct b
         | |- context [match ?t with _ => _ end] => is_var t; destruct t
         end.

Ltac extends_by_cases c :=
  destruct c; unfold extends; context_cases;
  cbn [services.position services.functionName services.hasChannelReceive
       services.hasChannelClose services.hasSelectStmt services.hasContextCancel
       services.hasTimeout services.hasPrematureReturn services.hasChannelSend
       services.hasDoubleSend services.hasDeferClose
       services.setChannelReceive services.setChannelClose services.setSelectStmt
       services.setContextCancel services.setTimeout services.setPrematureReturn
       services.setChannelSend services.setDoubleSend services.setDeferClose];
  tauto.

Lemma analyzeCallExpression_extends call c :
  extends c (services.analyzeCallExpression call c).
Proof. unfold services.analyzeCallExpression. extends_by_cases c. Qed.

Lemma analyzeSelectStatement_extends {go : Platform} selectStmt c :
  extends c (services.analyzeSelectStatement selectStmt c).
Proof.
  unfold services.analyzeSelectStatement.
  destruct selectStmt; try apply extends_refl.
  match goal with
  | |- context [fold_left ?f ?l ?a] => destruct (fold_left f l a) as [[d cd] t]
  end.
  extends_by_cases c.
Qed.

Lemma receives_extends rhs : forall c,
  extends c (fold_left (fun context r =>
                          match r with
                          | UnaryExpr ARROW _ => services.setChannelReceive context
                          | _ => context
                          end) rhs c).
Proof.
  induction rhs as [|r rhs IH]; intros c; cbn [fold_left]; [apply extends_refl|].
  eapply extends_trans; [|apply IH]. extends_by_cases c.
Qed.

Lemma functionBodyVisit_extends {go : Platform} block x c :
  extends c (services.functionBodyVisit block x c).
Proof.
  unfold services.functionBodyVisit.
  destruct x; try apply extends_refl;
    first [ apply receives_extends
          | apply analyzeCallExpression_extends
          | eapply extends_trans; [|apply analyzeSelectStatement_extends];
            extends_by_cases c
          | unfold services.checkForDoubleSend, services.checkDeferClose,
              services.checkPrematureReturn;
            extends_by_cases c ].
Qed.

Lemma fold_functionBodyVisit_extends {go : Platform} block l : forall c,
  extends c (fold_left (fun s x => services.functionBodyVisit block x s) l c).
Proof.
  induction l as [|x l IH]; intros c; cbn [fold_left]; [apply extends_refl|].
  eapply extends_trans; [apply functionBodyVisit_extends|apply IH].
Qed.

Lemma analyzeFunctionBody_extends {go : Platform} block c :
  extends c (services.analyzeFunctionBody block c).
Proof.
  unfold services.analyzeFunctionBody. rewrite Inspect_preorder.
  apply fold_functionBodyVisit_extends.
Qed.

Lemma args_extends {go : Platform} args : forall c,
  extends c (fold_left (fun context arg =>
                          match arg with
                          | FuncLit _ body => services.analyzeFunctionBody body context
                          | _ => context
                          end) args c).
Proof.
  induction args as [|a args IH]; intros c; cbn [fold_left]; [apply extends_refl|].
  eapply extends_trans; [|apply IH].
  destruct a; try apply extends_refl. apply analyzeFunctionBody_extends.
Qed.

(** The context of a spawn statement keeps the position of the statement. *)
Lemma goroutineContextOf_position {go : Platform} pos call :
  services.position (services.goroutineContextOf (GoStmt pos call)) = pos.
Proof.
  destruct call; try reflexivity.
  match goal with |- context [CallExpr ?f _] => destruct f; try reflexivity end.
  - exact (proj1 (analyzeFunctionBody_extends _ _)).
  - cbn [services.goroutineContextOf].
    etransitivity; [exact (proj1 (args_extends _ _))|].
    match goal with |- context [match ?f with _ => _ end] => destruct f; reflexivity end.
Qed.

Lemma fold_collect l : forall acc,
  fold_left (fun goroutines n =>
               match n with
               | GoStmt _ _ => goroutines ++ [n]
               | _ => goroutines
               end) l acc
  = acc ++ List.filter isGoStmt l.
Proof.
  induction l as [|x l IH]; intros acc; cbn [fold_left List.filter].
  - rewrite app_nil_r. reflexivity.
  - rewrite IH. destruct x; cbn [isGoStmt]; try reflexivity.
    rewrite <- app_assoc. reflexivity.
Qed.

(** [collectGoroutines] collects the spawn statements of the tree, nested
    ones included, in the order of the walk. *)
Lemma collectGoroutines_filter root :
  services.collectGoroutines root = List.filter isGoStmt (preorder root).
Proof.
  unfold services.collectGoroutines. rewrite Inspect_preorder. apply fold_collect.
Qed.

Lemma checkLeakPatterns_findings filepath_Clean c :
  services.checkLeakPatterns filepath_Clean c
  = if negb (services.hasChannelReceive c || services.hasChannelSend c
             || services.hasSelectStmt c)
    then []
    else
      (if services.hasChannelReceive c && negb (services.hasChannelClose c)
          && negb (services.hasContextCancel c)
       then [leakFinding filepath_Clean c "channel_receive_leak"
               "channel receive without close operation (confidence: 0.42)"
               valueobjects.SeverityWarning]
       else [])
      ++ (if services.hasSelectStmt c && negb (services.hasContextCancel c)
             && negb (services.hasTimeout c)
          then [leakFinding filepath_Clean c "select_statement_leak"
                  "select statement without escape hatch (context cancel or timeout) (confidence: 0.86)"
                  valueobjects.SeverityError]
          else [])
      ++ (if services.hasChannelSend c && services.hasPrematureReturn c
             && negb (services.hasDeferClose c)
          then [leakFinding filepath_Clean c "channel_send_leak"
                  "channel send with premature return (confidence: 0.57)"
                  valueobjects.SeverityWarning]
          else []).
Proof.
  unfold services.checkLeakPatterns.
  destruct (negb _); [reflexivity|].
  destruct (services.hasChannelReceive c && negb (services.hasChannelClose c)
            && negb (services.hasContextCancel c));
    destruct (services.hasSelectStmt c && negb (services.hasContextCancel c)
              && negb (services.hasTimeout c));
    destruct (services.hasChannelSend c && services.hasPrematureReturn c
              && negb (services.hasDeferClose c));
    reflexivity.
Qed.

Lemma checkLeakPatterns_length filepath_Clean c :
  (length (services.checkLeakPatterns filepath_Clean c) <= 3)%nat.
Proof.
  rewrite checkLeakPatterns_findings.
  repeat match goal with |- context [if ?b then _ else _] => destruct b end;
    cbn [length app]; lia.
Qed.

(** The three rules of [checkLeakPatterns], read backwards. *)
Lemma checkLeakPatterns_In filepath_Clean c f :
  In f (services.checkLeakPatterns filepath_Clean c) ->
  (f = leakFinding filepath_Clean c "channel_receive_leak"
         "channel receive without close operation (confidence: 0.42)"
         valueobjects.SeverityWarning
   /\ services.hasChannelReceive c = true /\ services.hasChannelClose c = false
   /\ services.hasContextCancel c = false)
  \/ (f = leakFinding filepath_Clean c "select_statement_leak"
            "select statement without escape hatch (context cancel or timeout) (confidence: 0.86)"
            valueobjects.SeverityError
      /\ services.hasSelectStmt c = true /\ services.hasContextCancel c = false
      /\ services.hasTimeout c = false)
  \/ (f = leakFinding filepath_Clean c "channel_send_leak"
            "channel send with premature return (confidence: 0.57)"
            valueobjects.SeverityWarning
      /\ services.hasChannelSend c = true /\ services.hasPrematureReturn c = true
      /\ services.hasDeferClose c = false).
Proof.
  rewrite checkLeakPatterns_findings. destruct (negb _); [contradiction|].
  intros H. apply in_app_or in H. destruct H as [H|H]; [|apply in_app_or in H; destruct H as [H|H]].
  - left. destruct (_ && _) eqn:E in H; [|contradiction]. destruct H as [<-|[]].
    apply andb_true_iff in E. destruct E as [E E3].
    apply andb_true_iff in E. destruct E as [E1 E2].
    apply negb_true_iff in E2, E3. auto.
  - right. left. destruct (_ && _) eqn:E in H; [|contradiction]. destruct H as [<-|[]].
    apply andb_true_iff in E. destruct E as [E E3].
    apply andb_true_iff in E. destruct E as [E1 E2].
    apply negb_true_iff in E2, E3. auto.
  - right. right. destruct (_ && _) eqn:E in H; [|contradiction]. destruct H as [<-|[]].
    apply andb_true_iff in E. destruct E as [E E3].
    apply andb_true_iff in E. destruct E as [E1 E2].
    apply negb_true_iff in E3. auto.
Qed.

Lemma leakFinding_id filepath_Clean c kind detail severity :
  kind <> "" -> entities.id (leakFinding filepath_Clean c kind detail severity) <> "".
Proof. destruct kind; [contradiction|]. intros _. simpl. discriminate. Qed.

(** X3.  Every finding of the goroutine leak detector stems from one spawn
    statement of the tree, which yields at most three findings; it is a
    Smell finding with a non-empty identifier, located at the spawn
    statement, and of one of three kinds: receive leak (Warning), select
    leak (Error) or send leak (Warning). *)
Theorem DetectLeaks_finding_kinds {go : Platform}
    (filepath_Clean : string -> string) (root : node)
    (finding : entities.AnalysisFinding) :
  In finding (fst (services.DetectLeaks filepath_Clean root)) ->
  exists pos call,
    In (GoStmt pos call) (preorder root)
    /\ In finding (services.analyzeGoroutine filepath_Clean (GoStmt pos call))
    /\ (length (services.analyzeGoroutine filepath_Clean (GoStmt pos call)) <= 3)%nat
    /\ entities.findingType finding = entities.FindingTypeSmell
    /\ entities.id finding <> ""
    /\ entities.location finding = services.locationOf filepath_Clean pos
    /\ ((entities.severity finding = valueobjects.SeverityWarning
         /\ strings_Contains (entities.message finding) "channel_receive_leak detected"
            = true)
        \/ (entities.severity finding = valueobjects.SeverityError
            /\ strings_Contains (entities.message finding) "select_statement_leak detected"
               = true)
        \/ (entities.severity finding = valueobjects.SeverityWarning
            /\ strings_Contains (entities.message finding) "channel_send_leak detected"
               = true)).
Proof.
  intros H. rewrite DetectLeaks_flat_map, collectGoroutines_filter in H.
  apply in_flat_map in H. destruct H as (g & Hg & Hf).
  apply List.filter_In in Hg. destruct Hg as [Hg Hgo].
  destruct g; try discriminate Hgo.
  match goal with
  | H : In (GoStmt ?p ?c) _ |- _ => exists p, c; pose proof (goroutineContextOf_position p c) as Hpos
  end.
  split; [exact Hg|]. split; [exact Hf|].
  split; [apply checkLeakPatterns_length|].
  unfold services.analyzeGoroutine in Hf. apply checkLeakPatterns_In in Hf.
  destruct Hf as [(-> & _)|[(-> & _)|(-> & _)]];
    (split; [reflexivity|]); (split; [apply leakFinding_id; discriminate|]);
    (split; [cbn [entities.location leakFinding]; rewrite Hpos; reflexivity|]).
  - left. split; [reflexivity|].
    cbn [entities.message leakFinding]. do 2 apply strings_Contains_app_r. reflexivity.
  - right. left. split; [reflexivity|].
    cbn [entities.message leakFinding]. do 2 apply strings_Contains_app_r. reflexivity.
  - right. right. split; [reflexivity|].
    cbn [entities.message leakFinding]. do 2 apply strings_Contains_app_r. reflexivity.
Qed.

Lemma DetectLeaks_finding_kinds_witness :
  In receiveLeakFinding (fst (services.DetectLeaks (fun path => path) receiveLeakTest))
  /\ exists pos call,
      In (GoStmt pos call) (preorder receiveLeakTest)
      /\ In receiveLeakFinding (services.analyzeGoroutine (fun path => path) (GoStmt pos call))
      /\ (length (services.analyzeGoroutine (fun path => path) (GoStmt pos call)) <= 3)%nat
      /\ entities.findingType receiveLeakFinding = entities.FindingTypeSmell
      /\ entities.id receiveLeakFinding <> ""
      /\ entities.location receiveLeakFinding = services.locationOf (fun path => path) pos
      /\ ((entities.severity receiveLeakFinding = valueobjects.SeverityWarning
           /\ strings_Contains (entities.message receiveLeakFinding)
                "channel_receive_leak detected" = true)
          \/ (entities.severity receiveLeakFinding = valueobjects.SeverityError
              /\ strings_Contains (entities.message receiveLeakFinding)
                   "select_statement_leak detected" = true)
          \/ (entities.severity receiveLeakFinding = valueobjects.SeverityWarning
              /\ strings_Contains (entities.message receiveLeakFinding)
                   "channel_send_leak detected" = true)).
Proof.
  split; [vm_compute; left; reflexivity|].
  apply (DetectLeaks_finding_kinds (fun path => path) receiveLeakTest receiveLeakFinding).
  vm_compute; left; reflexivity.
Defined.

(** *** Goroutine leak detector: what triggers and what silences a finding *)

Lemma existsb_false {A} (p : A -> bool) l x :
  existsb p l = false -> In x l -> p x = false.
Proof.
  intros H Hx. destruct (p x) eqn:E; [|reflexivity].
  rewrite <- H. symmetry. apply existsb_exists. exists x. split; assumption.
Qed.

Ltac quiet_by_cases c :=
  destruct c; unfold quiet in *; context_cases;
  cbn [services.hasChannelReceive services.hasSelectStmt services.hasChannelSend
       services.setChannelReceive services.setChannelClose services.setSelectStmt
       services.setContextCancel services.setTimeout services.setPrematureReturn
       services.setChannelSend services.setDoubleSend services.setDeferClose] in *;
  tauto.

Lemma receives_quiet rhs :
  Forall (fun r => isLeakTrigger r = false) rhs ->
  forall c, quiet c ->
    quiet (fold_left (fun context r =>
                        match r with
                        | UnaryExpr ARROW _ => services.setChannelReceive context
                        | _ => context
                        end) rhs c).
Proof.
  induction 1 as [|r rhs Hr _ IH]; intros c Hq; cbn [fold_left]; [exact Hq|].
  apply IH. destruct r; try exact Hq.
  cbn [isLeakTrigger] in Hr.
  match goal with |- context [match ?t with _ => _ end] => destruct t end;
    try exact Hq; discriminate Hr.
Qed.

Lemma functionBodyVisit_quiet {go : Platform} block x c :
  isLeakTrigger x = false ->
  (forall lhs tok rhs, x = AssignStmt lhs tok rhs ->
     Forall (fun r => isLeakTrigger r = false) rhs) ->
  quiet c -> quiet (services.functionBodyVisit block x c).
Proof.
  intros Ht Hrhs Hq. unfold services.functionBodyVisit.
  destruct x; try exact Hq; try discriminate Ht;
    first [ apply receives_quiet; [eapply Hrhs; reflexivity|exact Hq]
          | cbn [isLeakTrigger] in Ht;
            match goal with |- context [match ?t with _ => _ end] => destruct t end;
            try exact Hq; discriminate Ht
          | unfold services.analyzeCallExpression, services.checkDeferClose,
              services.checkPrematureReturn;
            quiet_by_cases c ].
Qed.

Lemma fold_functionBodyVisit_quiet {go : Platform} block l : forall c,
  (forall x, In x l ->
     isLeakTrigger x = false
     /\ forall lhs tok rhs, x = AssignStmt lhs tok rhs ->
          Forall (fun r => isLeakTrigger r = false) rhs) ->
  quiet c -> quiet (fold_left (fun s x => services.functionBodyVisit block x s) l c).
Proof.
  induction l as [|x l IH]; intros c H Hq; cbn [fold_left]; [exact Hq|].
  apply IH; [intros y Hy; apply H; right; exact Hy|].
  destruct (H x (or_introl eq_refl)) as [H1 H2].
  apply functionBodyVisit_quiet; assumption.
Qed.

Lemma analyzeFunctionBody_quiet {go : Platform} body c :
  existsb isLeakTrigger (preorder body) = false ->
  quiet c -> quiet (services.analyzeFunctionBody body c).
Proof.
  intros H Hq. unfold services.analyzeFunctionBody. rewrite Inspect_preorder.
  apply fold_functionBodyVisit_quiet; [|exact Hq].
  intros x Hx. split; [exact (existsb_false _ _ _ H Hx)|].
  intros lhs tok rhs ->. apply List.Forall_forall. intros r Hr.
  apply (existsb_false _ _ _ H).
  apply (preorder_incl body _ Hx). rewrite preorder_children. right.
  apply (child_below _ r); [|apply preorder_self].
  cbn [children]. apply in_or_app. right. exact Hr.
Qed.

Lemma args_quiet {go : Platform} args : forall c,
  (forall body,
     In body (flat_map (fun arg => match arg with FuncLit _ body => [body] | _ => [] end)
                args) ->
     existsb isLeakTrigger (preorder body) = false) ->
  quiet c ->
  quiet (fold_left (fun context arg =>
                      match arg with
                      | FuncLit _ body => services.analyzeFunctionBody body context
                      | _ => context
                      end) args c).
Proof.
  induction args as [|a args IH]; intros c H Hq; cbn [fold_left]; [exact Hq|].
  cbn [flat_map] in H. apply IH.
  - intros body Hb. apply H. apply in_or_app. right. exact Hb.
  - destruct a; try exact Hq. apply analyzeFunctionBody_quiet; [|exact Hq].
    apply H. apply in_or_app. left. left. reflexivity.
Qed.

Lemma goroutineContextOf_quiet {go : Platform} goStmt :
  (forall body, In body (analysedBodies goStmt) ->
     existsb isLeakTrigger (preorder body) = false) ->
  quiet (services.goroutineContextOf goStmt).
Proof.
  intros H.
  assert (Hq0 : forall name pos,
             quiet (services.mkContext false false false false false false false false
                      false name pos)) by (intros; repeat split).
  destruct goStmt; try apply Hq0.
  match goal with |- context [GoStmt _ ?c] => destruct c; try apply Hq0 end.
  match goal with |- context [CallExpr ?f _] => destruct f; try apply Hq0 end.
  - cbn [services.goroutineContextOf]. apply analyzeFunctionBody_quiet; [|apply Hq0].
    apply H. left. reflexivity.
  - cbn [services.goroutineContextOf]. apply args_quiet; [exact H|].
    match goal with |- context [match ?f with _ => _ end] => destruct f; apply Hq0 end.
Qed.

Lemma checkLeakPatterns_quiet filepath_Clean c :
  quiet c -> services.checkLeakPatterns filepath_Clean c = [].
Proof.
  intros (H1 & H2 & H3). rewrite checkLeakPatterns_findings, H1, H2, H3. reflexivity.
Qed.

Lemma flat_map_nil {A B} (f : A -> list B) l :
  (forall x, In x l -> f x = []) -> flat_map f l = [].
Proof.
  induction l as [|x l IH]; intros H; cbn [flat_map]; [reflexivity|].
  rewrite (H x (or_introl eq_refl)), IH; [reflexivity|].
  intros y Hy. apply H. right. exact Hy.
Qed.

(** X4.  The leak detector reports nothing unless a function body it
    analyses holds a send statement, a receive expression or a select
    statement.  The bodies it analyses are those of spawned function
    literals (and of function literals passed to a call whose result is
    spawned); so a tree whose spawn statements start named functions, as in
    [go worker(ch)], yields no finding whatever the functions do. *)
Theorem DetectLeaks_needs_channel_operation {go : Platform}
    (filepath_Clean : string -> string) (root : node) :
  (forall goStmt body,
      In goStmt (preorder root) -> In body (analysedBodies goStmt) ->
      existsb isLeakTrigger (preorder body) = false) ->
  fst (services.DetectLeaks filepath_Clean root) = [].
Proof.
  intros H. rewrite DetectLeaks_flat_map, collectGoroutines_filter.
  apply flat_map_nil. intros g Hg. apply List.filter_In in Hg. destruct Hg as [Hg _].
  unfold services.analyzeGoroutine. apply checkLeakPatterns_quiet, goroutineContextOf_quiet.
  intros body. apply H. exact Hg.
Qed.

Lemma DetectLeaks_needs_channel_operation_witness :
  (forall goStmt body,
      In goStmt (preorder namedSpawnTest) -> In body (analysedBodies goStmt) ->
      existsb isLeakTrigger (preorder body) = false)
  /\ fst (services.DetectLeaks (fun path => path) namedSpawnTest) = [].
Proof.
  assert (H : forall goStmt body,
             In goStmt (preorder namedSpawnTest) -> In body (analysedBodies goStmt) ->
             existsb isLeakTrigger (preorder body) = false).
  { intros goStmt body Hg. vm_compute in Hg.
    repeat (destruct Hg as [<-|Hg]; [intros []|]). destruct Hg. }
  split; [exact H|].
  apply (DetectLeaks_needs_channel_operation (fun path => path) namedSpawnTest H).
Defined.

Lemma selectClauseStep_keeps_default {go : Platform} st clause :
  fst (fst st) = true -> fst (fst (services.selectClauseStep st clause)) = true.
Proof.
  destruct st as [[d cd] t]. cbn [fst]. intros ->.
  unfold services.selectClauseStep. context_cases; reflexivity.
Qed.

Lemma fold_selectClauseStep_default {go : Platform} clauses : forall st,
  fst (fst st) = true \/ (exists body, In (CommClause None body) clauses) ->
  fst (fst (fold_left services.selectClauseStep clauses st)) = true.
Proof.
  induction clauses as [|cl clauses IH]; intros st [H|[body Hb]]; cbn [fold_left].
  - exact H.
  - contradiction.
  - apply IH. left. apply selectClauseStep_keeps_default, H.
  - destruct Hb as [->|Hb].
    + apply IH. left. destruct st as [[d cd] t]. reflexivity.
    + apply IH. right. exists body. exact Hb.
Qed.

(** A select statement with a default clause counts as cancellable. *)
Lemma analyzeSelectStatement_default {go : Platform} clauses body c :
  In (CommClause None body) clauses ->
  services.hasContextCancel
    (services.analyzeSelectStatement (SelectStmt (BlockStmt clauses)) c) = true.
Proof.
  intros Hb. unfold services.analyzeSelectStatement. cbn [ListOf].
  pose proof (fold_selectClauseStep_default clauses (false, false, false)
                (or_intror (ex_intro _ body Hb))) as Hd.
  destruct (fold_left services.selectClauseStep clauses (false, false, false))
    as [[d cd] t].
  cbn [fst] in Hd. subst d. destruct c, t; reflexivity.
Qed.

(** A flag set at one node of the body is set at the end of the walk. *)
Lemma analyzeFunctionBody_sets {go : Platform} (flag : services.goroutineContext -> bool) body x c0 :
  (forall c c', extends c c' -> flag c = true -> flag c' = true) ->
  In x (preorder body) ->
  (forall c, flag (services.functionBodyVisit body x c) = true) ->
  flag (services.analyzeFunctionBody body c0) = true.
Proof.
  intros Hmono Hx Hset. unfold services.analyzeFunctionBody. rewrite Inspect_preorder.
  apply in_split in Hx. destruct Hx as (l1 & l2 & ->).
  rewrite fold_left_app. cbn [fold_left].
  eapply Hmono; [apply fold_functionBodyVisit_extends|apply Hset].
Qed.

(** X5.  A select statement with a default clause anywhere in the body of a
    spawned function literal marks the whole spawn as cancellable: the
    receive-leak rule and the select-leak rule are silenced for it, so any
    finding the spawn still yields is a send-leak finding. *)
Theorem select_default_silences_spawn {go : Platform}
    (filepath_Clean : string -> string) (pos : Position) (ty body : node)
    (args clauses dbody : list node) (finding : entities.AnalysisFinding) :
  In (SelectStmt (BlockStmt clauses)) (preorder body) ->
  In (CommClause None dbody) clauses ->
  In finding (services.analyzeGoroutine filepath_Clean
                (GoStmt pos (CallExpr (FuncLit ty body) args))) ->
  services.hasContextCancel
    (services.goroutineContextOf (GoStmt pos (CallExpr (FuncLit ty body) args))) = true
  /\ entities.severity finding = valueobjects.SeverityWarning
  /\ strings_Contains (entities.message finding) "channel_send_leak detected" = true.
Proof.
  intros Hsel Hdef Hf.
  assert (Hcc : services.hasContextCancel
                  (services.goroutineContextOf
                     (GoStmt pos (CallExpr (FuncLit ty body) args))) = true).
  { cbn [services.goroutineContextOf].
    apply (analyzeFunctionBody_sets services.hasContextCancel body
             (SelectStmt (BlockStmt clauses))); [|exact Hsel|].
    - intros c c' Hext. apply Hext.
    - intros c. cbn [services.functionBodyVisit].
      apply (analyzeSelectStatement_default clauses dbody), Hdef. }
  split; [exact Hcc|].
  unfold services.analyzeGoroutine in Hf. apply checkLeakPatterns_In in Hf.
  destruct Hf as [(_ & _ & _ & E)|[(_ & _ & E & _)|(-> & _)]]; try congruence.
  split; [reflexivity|].
  cbn [entities.message leakFinding]. do 2 apply strings_Contains_app_r. reflexivity.
Qed.

Lemma select_default_silences_spawn_witness :
  (In (SelectStmt (BlockStmt [CommClause None []])) (preorder sendDefaultReturn)
   /\ In (CommClause None []) [CommClause None []]
   /\ In (sendLeakOf (GoStmt (mkPosition "main.go" 5 2)
                        (CallExpr (FuncLit (FuncType [] []) sendDefaultReturn) [])))
        (services.analyzeGoroutine (fun path => path)
           (GoStmt (mkPosition "main.go" 5 2)
              (CallExpr (FuncLit (FuncType [] []) sendDefaultReturn) []))))
  /\ services.hasContextCancel
       (services.goroutineContextOf
          (GoStmt (mkPosition "main.go" 5 2)
             (CallExpr (FuncLit (FuncType [] []) sendDefaultReturn) []))) = true
  /\ entities.severity
       (sendLeakOf (GoStmt (mkPosition "main.go" 5 2)
                      (CallExpr (FuncLit (FuncType [] []) sendDefaultReturn) [])))
     = valueobjects.SeverityWarning
  /\ strings_Contains
       (entities.message
          (sendLeakOf (GoStmt (mkPosition "main.go" 5 2)
                         (CallExpr (FuncLit (FuncType [] []) sendDefaultReturn) []))))
       "channel_send_leak detected" = true.
Proof.
  split; [split; [vm_compute; tauto|split; [left; reflexivity|vm_compute; tauto]]|].
  apply (select_default_silences_spawn (fun path => path) (mkPosition "main.go" 5 2)
           (FuncType [] []) sendDefaultReturn [] [CommClause None []] []);
    [vm_compute; tauto|left; reflexivity|vm_compute; tauto].
Defined.

(** X6.  A call [close(...)] anywhere in the body of a spawned function
    literal, on whatever channel, silences the receive-leak rule for the
    whole spawn: any finding the spawn still yields is a select-leak or a
    send-leak finding. *)
Theorem close_call_silences_receive_leak {go : Platform}
    (filepath_Clean : string -> string) (pos : Position) (ty body : node)
    (args cargs : list node) (finding : entities.AnalysisFinding) :
  In (CallExpr (Ident "close") cargs) (preorder body) ->
  In finding (services.analyzeGoroutine filepath_Clean
                (GoStmt pos (CallExpr (FuncLit ty body) args))) ->
  services.hasChannelClose
    (services.goroutineContextOf (GoStmt pos (CallExpr (FuncLit ty body) args))) = true
  /\ ((entities.severity finding = valueobjects.SeverityError
       /\ strings_Contains (entities.message finding) "select_statement_leak detected"
          = true)
      \/ (entities.severity finding = valueobjects.SeverityWarning
          /\ strings_Contains (entities.message finding) "channel_send_leak detected"
             = true)).
Proof.
  intros Hclose Hf.
  assert (Hcl : services.hasChannelClose
                  (services.goroutineContextOf
                     (GoStmt pos (CallExpr (FuncLit ty body) args))) = true).
  { cbn [services.goroutineContextOf].
    apply (analyzeFunctionBody_sets services.hasChannelClose body
             (CallExpr (Ident "close") cargs)); [|exact Hclose|].
    - intros c c' Hext. apply Hext.
    - intros c. destruct c; reflexivity. }
  split; [exact Hcl|].
  unfold services.analyzeGoroutine in Hf. apply checkLeakPatterns_In in Hf.
  destruct Hf as [(_ & _ & E & _)|[(-> & _)|(-> & _)]]; try congruence.
  - left. split; [reflexivity|].
    cbn [entities.message leakFinding]. do 2 apply strings_Contains_app_r. reflexivity.
  - right. split; [reflexivity|].
    cbn [entities.message leakFinding]. do 2 apply strings_Contains_app_r. reflexivity.
Qed.

Lemma close_call_silences_receive_leak_witness :
  (In (CallExpr (Ident "close") [Ident "out"]) (preorder sendCloseReturn)
   /\ In (sendLeakOf (GoStmt (mkPosition "main.go" 5 2)
                        (CallExpr (FuncLit (FuncType [] []) sendCloseReturn) [])))
        (services.analyzeGoroutine (fun path => path)
           (GoStmt (mkPosition "main.go" 5 2)
              (CallExpr (FuncLit (FuncType [] []) sendCloseReturn) []))))
  /\ services.hasChannelClose
       (services.goroutineContextOf
          (GoStmt (mkPosition "main.go" 5 2)
             (CallExpr (FuncLit (FuncType [] []) sendCloseReturn) []))) = true
  /\ ((entities.severity
         (sendLeakOf (GoStmt (mkPosition "main.go" 5 2)
                        (CallExpr (FuncLit (FuncType [] []) sendCloseReturn) [])))
       = valueobjects.SeverityError
       /\ strings_Contains
            (entities.message
               (sendLeakOf (GoStmt (mkPosition "main.go" 5 2)
                              (CallExpr (FuncLit (FuncType [] []) sendCloseReturn) []))))
            "select_statement_leak detected" = true)
      \/ (entities.severity
            (sendLeakOf (GoStmt (mkPosition "main.go" 5 2)
                           (CallExpr (FuncLit (FuncType [] []) sendCloseReturn) [])))
          = valueobjects.SeverityWarning
          /\ strings_Contains
               (entities.message
                  (sendLeakOf (GoStmt (mkPosition "main.go" 5 2)
                                 (CallExpr (FuncLit (FuncType [] []) sendCloseReturn) []))))
               "channel_send_leak detected" = true)).
Proof.
  split; [split; vm_compute; tauto|].
  apply (close_call_silences_receive_leak (fun path => path) (mkPosition "main.go" 5 2)
           (FuncType [] []) sendCloseReturn [] [Ident "out"]);
    vm_compute; tauto.
Defined.

(** *** The select rules of the two detectors *)

Lemma fold_blockingClauseStep {go : Platform} clauses : forall d t cd n,
  let st := fold_left services.blockingClauseStep clauses (d, t, cd, n) in
  snd st = n + Z.of_nat (length (List.filter isCommunication clauses))
  /\ (fst (fst (fst st)) = true
      <-> d = true \/ exists body, In (CommClause None body) clauses)
  /\ (forallb bindsOrSends clauses = true ->
      fst st = (d, t, cd)).
Proof.
  induction clauses as [|cl clauses IH]; intros d t cd n; cbn [fold_left].
  - cbn. split; [lia|]. split; [|reflexivity].
    split; [auto|]. intros [H|[body []]]. exact H.
  - assert (Hstep : exists d' t' cd',
               services.blockingClauseStep (d, t, cd, n) cl
               = (d', t', cd', n + (if isCommunication cl then 1 else 0))
               /\ (d' = true <-> d = true \/ exists body, cl = CommClause None body)
               /\ (bindsOrSends cl = true -> (d', t', cd') = (d, t, cd))).
    { unfold services.blockingClauseStep.
      destruct cl;
        try (exists d, t, cd; split; [f_equal; cbn; lia|];
             split; [split; [auto|intros [H|[body Hb]]; [exact H|discriminate Hb]]
                    |reflexivity]).
      match goal with |- context [CommClause ?c ?b] => destruct c as [comm|] end.
      - assert (Hd : forall d', d' = d ->
                       (d' = true <-> d = true \/ exists body,
                           CommClause (Some comm) Body = CommClause None body)).
        { intros d' ->. split; [auto|]. intros [H|[body Hb]]; [exact H|discriminate Hb]. }
        destruct comm;
          try (exists d, t, cd; split; [reflexivity|]; split; [apply Hd|]; reflexivity).
        match goal with |- context [ExprStmt ?x] => destruct x end;
          try (exists d, t, cd; split; [reflexivity|]; split; [apply Hd; reflexivity|];
               discriminate).
        match goal with |- context [UnaryExpr ?op _] => destruct op end;
          try (exists d, t, cd; split; [reflexivity|]; split; [apply Hd; reflexivity|];
               discriminate).
        eexists d, _, _. split; [reflexivity|]. split; [apply Hd; reflexivity|].
        discriminate.
      - exists true, t, cd. split; [f_equal; cbn; lia|].
        split; [|discriminate]. split; [|reflexivity].
        intros _. right. eexists. reflexivity. }
    destruct Hstep as (d' & t' & cd' & -> & Hd & Hb).
    destruct (IH d' t' cd' (n + (if isCommunication cl then 1 else 0)))
      as (H1 & H2 & H3).
    split; [|split].
    + rewrite H1. cbn [List.filter]. destruct (isCommunication cl); cbn [length]; lia.
    + rewrite H2, Hd. split.
      * intros [[H|[body ->]]|[body Hin]]; [left; exact H|right..].
        -- exists body. left. reflexivity.
        -- exists body. right. exact Hin.
      * intros [H|[body [->|Hin]]]; [left; left; exact H|left; right|right].
        -- exists body. reflexivity.
        -- exists body. exact Hin.
    + cbn [forallb]. intros Hall. apply andb_true_iff in Hall. destruct Hall as [Ha Hl].
      rewrite (H3 Hl). apply Hb, Ha.
Qed.

(** X7.  The select rule of the bug detector fires only on a select
    statement with at least two communication clauses and no default
    clause. *)
Theorem isPotentiallyBlockingSelect_needs_two_clauses {go : Platform} (clauses : list node) :
  services.isPotentiallyBlockingSelect (SelectStmt (BlockStmt clauses)) = true ->
  (2 <= length (List.filter isCommunication clauses))%nat
  /\ forall body, ~ In (CommClause None body) clauses.
Proof.
  unfold services.isPotentiallyBlockingSelect. cbn [ListOf].
  pose proof (fold_blockingClauseStep clauses false false false 0) as (H1 & H2 & _).
  destruct (fold_left services.blockingClauseStep clauses (false, false, false, 0))
    as [[[d t] cd] n].
  cbn [fst snd] in H1, H2. intros H.
  apply andb_true_iff in H. destruct H as [H _].
  apply andb_true_iff in H. destruct H as [H _].
  apply andb_true_iff in H. destruct H as [Hn Hd].
  apply Z.geb_le in Hn. apply negb_true_iff in Hd. subst d.
  split; [lia|].
  intros body Hin. assert (false = true) as E; [|discriminate E].
  apply H2. right. exists body. exact Hin.
Qed.

Lemma isPotentiallyBlockingSelect_needs_two_clauses_witness :
  services.isPotentiallyBlockingSelect
    (SelectStmt (BlockStmt [receiveClause "ch1"; receiveClause "ch2"])) = true
  /\ (2 <= length (List.filter isCommunication [receiveClause "ch1"; receiveClause "ch2"]))%nat
  /\ forall body, ~ In (CommClause None body) [receiveClause "ch1"; receiveClause "ch2"].
Proof.
  split; [reflexivity|].
  apply (isPotentiallyBlockingSelect_needs_two_clauses
           [receiveClause "ch1"; receiveClause "ch2"]).
  reflexivity.
Defined.

Lemma bindsOrSends_communication clauses :
  forallb bindsOrSends clauses = true -> List.filter isCommunication clauses = clauses.
Proof.
  induction clauses as [|cl clauses IH]; cbn [forallb List.filter]; [reflexivity|].
  intros H. apply andb_true_iff in H. destruct H as [Ha Hl].
  rewrite (IH Hl). destruct cl; try discriminate Ha.
  match goal with |- context [CommClause ?c _] => destruct c; [reflexivity|discriminate Ha] end.
Qed.

Lemma blockingVisit_keeps {go : Platform} recur x st p :
  In p (services.patterns st) ->
  In p (services.patterns (services.blockingVisit recur x st)).
Proof.
  intros H. unfold services.blockingVisit. case_node x H.
  - cbn [services.patterns]. apply in_or_app. left. exact H.
  - match goal with |- context [if ?b then _ else _] => destruct b; [|exact H] end.
    cbn [services.patterns]. apply in_or_app. left. exact H.
Qed.

Lemma fold_blockingVisit_keeps {go : Platform} recur l p : forall st,
  In p (services.patterns st) ->
  In p (services.patterns (fold_left (fun s x => services.blockingVisit recur x s) l st)).
Proof.
  induction l as [|x l IH]; intros st H; cbn [fold_left]; [exact H|].
  apply IH, blockingVisit_keeps, H.
Qed.

(** A select statement the rule fires on is reported wherever it stands in
    the body. *)
Lemma blocking_select_reported {go : Platform} body sel :
  In (SelectStmt sel) (preorder body) ->
  services.isPotentiallyBlockingSelect (SelectStmt sel) = true ->
  In services.selectPattern (services.analyzeBlockingPatterns body).
Proof.
  intros Hin Hsel. rewrite analyzeBlockingPatterns_unfold, Inspect_preorder.
  apply in_split in Hin. destruct Hin as (l1 & l2 & ->).
  rewrite fold_left_app. cbn [fold_left].
  unfold services.tallyPatterns. apply in_or_app. left.
  apply fold_blockingVisit_keeps. cbn [services.blockingVisit]. rewrite Hsel.
  cbn [services.patterns]. apply in_or_app. right. left. reflexivity.
Qed.

(** X8.  The select rule of the bug detector looks for a timeout or a
    cancel signal in clauses of the form [case <-x:] only.  A select
    statement with two or more clauses that send, or that bind or assign the
    received value ([case t := <-time.After(d):], [case v := <-ctx.Done():]),
    is always reported as blocking "without default or timeout case",
    wherever it stands in the analysed body. *)
Theorem bound_escape_clauses_are_reported {go : Platform} (body : node) (clauses : list node) :
  forallb bindsOrSends clauses = true ->
  (2 <= length clauses)%nat ->
  In (SelectStmt (BlockStmt clauses)) (preorder body) ->
  services.isPotentiallyBlockingSelect (SelectStmt (BlockStmt clauses)) = true
  /\ In services.selectPattern (services.analyzeBlockingPatterns body).
Proof.
  intros Hall Hlen Hin.
  assert (Hsel : services.isPotentiallyBlockingSelect (SelectStmt (BlockStmt clauses))
                 = true).
  { unfold services.isPotentiallyBlockingSelect. cbn [ListOf].
    pose proof (fold_blockingClauseStep clauses false false false 0) as (H1 & _ & H3).
    destruct (fold_left services.blockingClauseStep clauses (false, false, false, 0))
      as [[[d t] cd] n].
    cbn [fst snd] in H1, H3. specialize (H3 Hall). injection H3 as -> -> ->.
    rewrite (bindsOrSends_communication clauses Hall) in H1.
    cbn [negb andb]. rewrite !andb_true_r. apply Z.geb_le. lia. }
  split; [exact Hsel|]. exact (blocking_select_reported body _ Hin Hsel).
Qed.

Lemma bound_escape_clauses_are_reported_witness :
  (forallb bindsOrSends boundEscapes = true
   /\ (2 <= length boundEscapes)%nat
   /\ In (SelectStmt (BlockStmt boundEscapes))
        (preorder (BlockStmt [SelectStmt (BlockStmt boundEscapes)])))
  /\ services.isPotentiallyBlockingSelect (SelectStmt (BlockStmt boundEscapes)) = true
  /\ In services.selectPattern
       (services.analyzeBlockingPatterns (BlockStmt [SelectStmt (BlockStmt boundEscapes)])).
Proof.
  split; [split; [reflexivity|split; [vm_compute; lia|vm_compute; tauto]]|].
  apply (bound_escape_clauses_are_reported
           (BlockStmt [SelectStmt (BlockStmt boundEscapes)]) boundEscapes);
    [reflexivity|vm_compute; lia|vm_compute; tauto].
Defined.

Lemma selectDone_context {go : Platform} pos c :
  c <> "ctx" -> c <> "context" ->
  services.goroutineContextOf (selectDone pos c)
  = services.mkContext true false true false false false false false false
      "anonymous_goroutine" pos.
Proof.
  intros H1 H2. apply String.eqb_neq in H1, H2.
  unfold selectDone, spawn, doneClause. cbn. rewrite H1, H2. reflexivity.
Qed.

(** X9.  In the leak detector a clause [case <-c.Done():] counts as a
    cancel signal only when [c] is spelled [ctx] or [context].  The test
    that tolerates other names, [isContextDoneCall], is applied to the
    operand of the receive, which is the call [c.Done()], and it accepts
    selector expressions only; the flag is set by the visit of the call
    expression, which compares the receiver with the two names.  So
    [go func() { select { case <-c.Done(): } }()] with any other [c] yields
    a receive-leak and a select-leak finding, and none with [ctx]. *)
Theorem done_clause_needs_exact_name {go : Platform}
    (filepath_Clean : string -> string) (pos : Position) (c : string) :
  c <> "ctx" -> c <> "context" ->
  services.gld_isContextDoneCall (CallExpr (SelectorExpr (Ident c) (Ident "Done")) [])
  = false
  /\ services.cbd_isContextDoneCall (CallExpr (SelectorExpr (Ident c) (Ident "Done")) [])
     = services.gld_isContextDoneCall (SelectorExpr (Ident c) (Ident "Done"))
  /\ services.analyzeGoroutine filepath_Clean (selectDone pos c)
     = [leakFinding filepath_Clean (services.goroutineContextOf (selectDone pos c))
          "channel_receive_leak"
          "channel receive without close operation (confidence: 0.42)"
          valueobjects.SeverityWarning;
        leakFinding filepath_Clean (services.goroutineContextOf (selectDone pos c))
          "select_statement_leak"
          "select statement without escape hatch (context cancel or timeout) (confidence: 0.86)"
          valueobjects.SeverityError]
  /\ services.analyzeGoroutine filepath_Clean (selectDone pos "ctx") = []
  /\ services.analyzeGoroutine filepath_Clean (selectDone pos "context") = [].
Proof.
  intros H1 H2. split; [reflexivity|]. split; [reflexivity|].
  split; [|split; reflexivity].
  unfold services.analyzeGoroutine. rewrite checkLeakPatterns_findings.
  rewrite (selectDone_context pos c H1 H2). reflexivity.
Qed.

Lemma done_clause_needs_exact_name_witness :
  ("myCtx" <> "ctx" /\ "myCtx" <> "context")
  /\ services.gld_isContextDoneCall
       (CallExpr (SelectorExpr (Ident "myCtx") (Ident "Done")) []) = false
  /\ services.cbd_isContextDoneCall
       (CallExpr (SelectorExpr (Ident "myCtx") (Ident "Done")) [])
     = services.gld_isContextDoneCall (SelectorExpr (Ident "myCtx") (Ident "Done"))
  /\ services.analyzeGoroutine (fun path => path)
       (selectDone (mkPosition "main.go" 5 2) "myCtx")
     = [leakFinding (fun path => path)
          (services.goroutineContextOf (selectDone (mkPosition "main.go" 5 2) "myCtx"))
          "channel_receive_leak"
          "channel receive without close operation (confidence: 0.42)"
          valueobjects.SeverityWarning;
        leakFinding (fun path => path)
          (services.goroutineContextOf (selectDone (mkPosition "main.go" 5 2) "myCtx"))
          "select_statement_leak"
          "select statement without escape hatch (context cancel or timeout) (confidence: 0.86)"
          valueobjects.SeverityError]
  /\ services.analyzeGoroutine (fun path => path)
       (selectDone (mkPosition "main.go" 5 2) "ctx") = []
  /\ services.analyzeGoroutine (fun path => path)
       (selectDone (mkPosition "main.go" 5 2) "context") = [].
Proof.
  split; [split; discriminate|].
  apply (done_clause_needs_exact_name (fun path => path) (mkPosition "main.go" 5 2)
           "myCtx"); discriminate.
Defined.

(** *** Concurrency bug detector: what the channel tally counts *)

Lemma blockingVisit_channelOps {go : Platform} recur x st c :
  default [] (services.channelOps (services.blockingVisit recur x st) !! c)
  = default [] (services.channelOps st !! c) ++ channelTag c x
  /\ (services.channelOps (services.blockingVisit recur x st) !! c = None
      <-> services.channelOps st !! c = None /\ channelTag c x = []).
Proof.
  assert (Hsame : default [] (services.channelOps st !! c)
                  = default [] (services.channelOps st !! c) ++ []
                  /\ (services.channelOps st !! c = None
                      <-> services.channelOps st !! c = None /\ @nil string = []))
    by (rewrite app_nil_r; tauto).
  assert (Happend : forall name tag,
             default [] (services.appendOp (services.channelOps st) name tag !! c)
             = default [] (services.channelOps st !! c)
               ++ (if String.eqb name c then [tag] else [])
             /\ (services.appendOp (services.channelOps st) name tag !! c = None
                 <-> services.channelOps st !! c = None
                     /\ (if String.eqb name c then [tag] else []) = [])).
  { intros name tag. rewrite lookup_appendOp.
    destruct (decide (name = c)) as [->|Hne].
    - rewrite String.eqb_refl. split; [reflexivity|].
      split; [discriminate|]. intros [_ E]. discriminate E.
    - rewrite (proj2 (String.eqb_neq _ _) Hne), app_nil_r. tauto. }
  unfold services.blockingVisit. case_node x Hsame; try apply Happend.
  match goal with |- context [if ?b then _ else _] => destruct b; exact Hsame end.
Qed.

Lemma fold_blockingVisit_channelOps {go : Platform} recur c l : forall st,
  let st' := fold_left (fun s x => services.blockingVisit recur x s) l st in
  default [] (services.channelOps st' !! c)
  = default [] (services.channelOps st !! c) ++ channelTags c l
  /\ (services.channelOps st' !! c = None
      <-> services.channelOps st !! c = None /\ channelTags c l = []).
Proof.
  induction l as [|x l IH]; intros st; cbn [fold_left channelTags flat_map].
  - rewrite app_nil_r. tauto.
  - destruct (IH (services.blockingVisit recur x st)) as [H1 H2].
    destruct (blockingVisit_channelOps recur x st c) as [H3 H4].
    fold (channelTags c l). split.
    + rewrite H1, H3, app_assoc. reflexivity.
    + rewrite H2, H4. split.
      * intros [[Ha Hb] Hc]. split; [exact Ha|]. rewrite Hb, Hc. reflexivity.
      * intros [Ha Hb]. apply app_eq_nil in Hb. tauto.
Qed.

Lemma blockingWalk_channelOps {go : Platform} block c :
  services.channelOps (blockingWalk block) !! c
  = match channelTags c (preorder block) with
    | [] => None
    | _ => Some (channelTags c (preorder block))
    end.
Proof.
  unfold blockingWalk. rewrite Inspect_preorder.
  destruct (fold_blockingVisit_channelOps services.analyzeBlockingPatterns c
              (preorder block) (services.mkBlockingState [] ∅ ∅)) as [H1 H2].
  cbn [services.channelOps] in H1, H2. rewrite lookup_empty in H1, H2.
  cbn [default app] in H1.
  destruct (channelTags c (preorder block)) as [|t tally] eqn:E.
  - apply H2. split; reflexivity.
  - match goal with
    | |- ?m !! c = _ => destruct (m !! c) as [ops|] eqn:Eo
    end.
    + cbn in H1. rewrite H1. reflexivity.
    + destruct (proj1 H2 eq_refl) as [_ X]. discriminate X.
Qed.

Lemma tallyCount_app tag l1 l2 :
  tallyCount tag (l1 ++ l2) = tallyCount tag l1 + tallyCount tag l2.
Proof. unfold tallyCount. rewrite List.filter_app, length_app. lia. Qed.

Lemma tallyCount_channelTag c x :
  tallyCount "send" (channelTag c x) = (if isSendOn c x then 1 else 0)
  /\ tallyCount "receive" (channelTag c x) = (if isReceiveOn c x then 1 else 0).
Proof.
  destruct x; try (split; reflexivity);
    cbn [channelTag isSendOn isReceiveOn];
    repeat match goal with
           | |- context [match ?t with _ => _ end] =>
               is_var t; destruct t; try (split; reflexivity)
           end;
    match goal with |- context [String.eqb ?a c] => destruct (String.eqb a c) end;
    split; reflexivity.
Qed.

Lemma tallyCount_channelTags c l :
  tallyCount "send" (channelTags c l) = Z.of_nat (length (List.filter (isSendOn c) l))
  /\ tallyCount "receive" (channelTags c l)
     = Z.of_nat (length (List.filter (isReceiveOn c) l)).
Proof.
  induction l as [|x l [IH1 IH2]]; [split; reflexivity|].
  cbn [channelTags flat_map List.filter]. fold (channelTags c l).
  rewrite !tallyCount_app, IH1, IH2.
  destruct (tallyCount_channelTag c x) as [-> ->].
  destruct (isSendOn c x), (isReceiveOn c x); cbn [length]; split; lia.
Qed.

(** X10.  The tally of a channel [c] in [analyzeBlockingPatterns] lists, in
    the order of the walk, one "send" for each send statement on the
    identifier [c] and one "receive" for each receive expression on it,
    anywhere below the analysed block, bodies of function literals
    included.  So the channel rule compares occurrences in the program text:
    with [s] sends and [r] receives on [c], a pattern for [c] is reported
    whenever [s + r >= 2] and [s > 2r] or [r > 2s]. *)
Theorem channel_tally_counts_occurrences {go : Platform} (block : node) (c : string) :
  let tally := channelTags c (preorder block) in
  let s := Z.of_nat (length (List.filter (isSendOn c) (preorder block))) in
  let r := Z.of_nat (length (List.filter (isReceiveOn c) (preorder block))) in
  services.channelOps (blockingWalk block) !! c
  = match tally with [] => None | _ => Some tally end
  /\ tallyCount "send" tally = s
  /\ tallyCount "receive" tally = r
  /\ (2 <= s + r -> s > 2 * r \/ r > 2 * s ->
      In (services.channelPattern c tally) (services.analyzeBlockingPatterns block)).
Proof.
  intros tally s r. subst tally s r.
  destruct (tallyCount_channelTags c (preorder block)) as [Hs Hr].
  split; [apply blockingWalk_channelOps|]. split; [exact Hs|]. split; [exact Hr|].
  intros Htotal Hskew. rewrite analyzeBlockingPatterns_unfold.
  fold (blockingWalk block). unfold services.tallyPatterns.
  apply in_or_app. right. apply in_or_app. left.
  apply channelImbalancePatterns_In. exists c, (channelTags c (preorder block)).
  split; [|split; [|reflexivity]].
  - rewrite blockingWalk_channelOps.
    destruct (channelTags c (preorder block)) as [|t tl] eqn:E; [|reflexivity].
    pose proof (eq_refl : tallyCount "send" [] = 0).
    pose proof (eq_refl : tallyCount "receive" [] = 0). lia.
  - unfold channelImbalance. rewrite Hs, Hr. split; [exact Htotal|]. lia.
Qed.

(** *** Smell detector: the nesting measure *)

Lemma inspect_unfold n cur mx :
  smells.inspect n cur mx
  = let mx := Z.max mx cur in
    match n with
    | IfStmt _ _ body els =>
        let mx := smells.inspect body (cur + 1) mx in
        match els with
        | Some (IfStmt _ _ _ _ as elseIf) => smells.inspect elseIf cur mx
        | Some (BlockStmt _ as block) => smells.inspect block (cur + 1) mx
        | _ => mx
        end
    | ForStmt _ _ _ body | RangeStmt _ _ _ body | SwitchStmt _ _ body
    | TypeSwitchStmt _ _ body | SelectStmt body => smells.inspect body (cur + 1) mx
    | BlockStmt l => fold_left (fun mx stmt => smells.inspect stmt cur mx) l mx
    | _ => mx
    end.
Proof.
  assert (E : (if cur >? mx then cur else mx) = Z.max mx cur).
  { destruct (Z.gtb_spec cur mx); lia. }
  destruct n; cbn [smells.inspect]; rewrite ?E; reflexivity.
Qed.

Lemma constructs_child l c :
  In c l -> constructs (preorder c) <= constructs (flat_map preorder l).
Proof.
  induction l as [|x l IH]; intros H; [contradiction|].
  cbn [flat_map]. rewrite constructs_app.
  pose proof (constructs_nonneg (preorder x)).
  pose proof (constructs_nonneg (flat_map preorder l)).
  destruct H as [->|H]; [lia|]. specialize (IH H). lia.
Qed.

Lemma inspect_fold_bound l cur :
  (forall c, In c l -> forall cur mx,
     Z.max mx cur <= smells.inspect c cur mx
     /\ smells.inspect c cur mx <= Z.max mx (cur + constructs (preorder c))) ->
  forall mx,
    mx <= fold_left (fun mx stmt => smells.inspect stmt cur mx) l mx
    /\ fold_left (fun mx stmt => smells.inspect stmt cur mx) l mx
       <= Z.max mx (cur + constructs (flat_map preorder l)).
Proof.
  induction l as [|x l IH]; intros H mx; cbn [fold_left flat_map].
  - unfold constructs. cbn. lia.
  - rewrite constructs_app.
    pose proof (constructs_nonneg (preorder x)).
    pose proof (constructs_nonneg (flat_map preorder l)).
    destruct (H x (or_introl eq_refl) cur mx) as [Hx1 Hx2].
    destruct (IH (fun c Hc => H c (or_intror Hc)) (smells.inspect x cur mx))
      as [Hl1 Hl2].
    lia.
Qed.

Ltac in_children :=
  cbn [children optNode];
  repeat first [ left; reflexivity | apply in_or_app; right | right ].

(** The nesting level the walk reaches is bounded by the number of
    constructs on the way. *)
Lemma inspect_bound n : forall cur mx,
  Z.max mx cur <= smells.inspect n cur mx
  /\ smells.inspect n cur mx <= Z.max mx (cur + constructs (preorder n)).
Proof.
  induction n as [n IH] using node_children_ind. intros cur mx.
  rewrite List.Forall_forall in IH.
  assert (Hc : forall c, In c (children n) ->
                 constructs (preorder c) <= constructs (flat_map preorder (children n)))
    by (intros c; apply constructs_child).
  pose proof (constructs_nonneg (flat_map preorder (children n))) as Hnn.
  rewrite inspect_unfold, constructs_preorder. cbv zeta.
  destruct n; cbn [isBranchConstruct isShortCircuit orb];
    try (split; lia);
    try (match goal with |- context [match ?op with ARROW => _ | _ => _ end] =>
           destruct op; split; lia end);
    lazymatch goal with
    | |- context [fold_left _ ?l _] =>
        destruct (inspect_fold_bound l cur IH (Z.max mx cur)) as [Hf1 Hf2];
        cbn [children] in *; lia
    | |- context [match ?e with Some _ => _ | None => _ end] =>
        match goal with
        | |- context [smells.inspect ?b (cur + 1) (Z.max mx cur)] =>
            match goal with
            | |- context [children ?n] =>
                assert (Hb : In b (children n)) by in_children;
                destruct (IH b Hb (cur + 1) (Z.max mx cur)) as [Hb1 Hb2];
                pose proof (Hc b Hb) as Hcb;
                pose proof (constructs_nonneg (preorder b)) as Hnb
            end
        end
    | |- context [smells.inspect ?b (cur + 1) (Z.max mx cur)] =>
        match goal with
        | |- context [children ?n] =>
            assert (Hb : In b (children n)) by in_children;
            destruct (IH b Hb (cur + 1) (Z.max mx cur)) as [Hb1 Hb2];
            pose proof (Hc b Hb) as Hcb; lia
        end
    end.
  (* the if statement, its body bounded *)
  match goal with
  | |- context [match ?e with Some _ => _ | None => _ end] => destruct e as [x|]; [|lia]
  end.
  match goal with
  | Hb : In ?b (children ?n) |- _ =>
      assert (Hx : In x (children n)) by in_children;
      assert (Hsum : constructs (preorder b) + constructs (preorder x)
                     <= constructs (flat_map preorder (children n)));
      [ cbn [children optNode]; rewrite flat_map_app, constructs_app;
        cbn [flat_map]; rewrite !constructs_app;
        repeat match goal with
               | |- context [constructs ?l] =>
                   lazymatch goal with
                   | _ : 0 <= constructs l |- _ => fail
                   | _ => pose proof (constructs_nonneg l)
                   end
               end;
        lia
      | destruct (IH x Hx cur (smells.inspect b (cur + 1) (Z.max mx cur))) as [Hx1 Hx2];
        destruct (IH x Hx (cur + 1) (smells.inspect b (cur + 1) (Z.max mx cur)))
          as [Hx3 Hx4];
        pose proof (constructs_nonneg (preorder x)) as Hnx ]
  end.
  destruct x; cbv match; lia.
Qed.

(** X11.  The nesting level [calculateMaxNesting] reports is never negative
    and never above the number of branch constructs of the block, which is
    the cyclomatic complexity of the block minus 1; so the deep-nesting rule
    of the smell detector (level above 4) can only fire on a function body
    of cyclomatic complexity 6 or more. *)
Theorem calculateMaxNesting_bounded_by_cyclomatic (block : node) :
  0 <= smells.calculateMaxNesting block
  /\ smells.calculateMaxNesting block
     <= services.calculateCyclomaticComplexity block - 1
  /\ ((smells.calculateMaxNesting block >? 4) = true ->
      6 <= services.calculateCyclomaticComplexity block).
Proof.
  unfold smells.calculateMaxNesting.
  destruct (inspect_bound block 0 0) as [H1 H2].
  rewrite calculateCyclomaticComplexity_constructs.
  pose proof (constructs_nonneg (preorder block)).
  split; [lia|]. split; [lia|]. intros H4. apply Z.gtb_lt in H4. lia.
Qed.

Lemma clauses_not_inspected clauses cur : forall mx,
  forallb isClause clauses = true -> cur <= mx ->
  fold_left (fun mx stmt => smells.inspect stmt cur mx) clauses mx = mx.
Proof.
  induction clauses as [|cl clauses IH]; intros mx Hall Hle; cbn [fold_left];
    [reflexivity|].
  cbn [forallb] in Hall. apply andb_true_iff in Hall. destruct Hall as [Hcl Hall].
  assert (E : smells.inspect cl cur mx = mx).
  { rewrite inspect_unfold. destruct cl; try discriminate Hcl; cbv zeta; lia. }
  rewrite E. apply IH; assumption.
Qed.

(** X12.  The nesting measure does not look inside the clauses of a switch,
    type switch or select statement: such a statement counts for one level
    whatever its clauses hold.  Five nested [if] statements give level 5; the
    same statements inside a [case] give level 1. *)
Theorem calculateMaxNesting_ignores_clause_bodies
    (init tag : option node) (assign : node) (clauses : list node) :
  forallb isClause clauses = true ->
  smells.calculateMaxNesting (BlockStmt [SwitchStmt init tag (BlockStmt clauses)]) = 1
  /\ smells.calculateMaxNesting
       (BlockStmt [TypeSwitchStmt init assign (BlockStmt clauses)]) = 1
  /\ smells.calculateMaxNesting (BlockStmt [SelectStmt (BlockStmt clauses)]) = 1.
Proof.
  intros Hall. unfold smells.calculateMaxNesting.
  repeat split;
    rewrite inspect_unfold; cbv zeta; cbn [fold_left];
    rewrite inspect_unfold; cbv zeta;
    rewrite inspect_unfold; cbv zeta;
    (rewrite clauses_not_inspected; [reflexivity|exact Hall|lia]).
Qed.

Lemma calculateMaxNesting_ignores_clause_bodies_witness :
  forallb isClause [CaseClause [Ident "x"] [fiveIfs]] = true
  /\ smells.calculateMaxNesting
       (BlockStmt [SwitchStmt None (Some (Ident "v"))
                     (BlockStmt [CaseClause [Ident "x"] [fiveIfs]])]) = 1
  /\ smells.calculateMaxNesting
       (BlockStmt [TypeSwitchStmt None (Ident "v")
                     (BlockStmt [CaseClause [Ident "x"] [fiveIfs]])]) = 1
  /\ smells.calculateMaxNesting
       (BlockStmt [SelectStmt (BlockStmt [CaseClause [Ident "x"] [fiveIfs]])]) = 1.
Proof.
  split; [reflexivity|].
  apply (calculateMaxNesting_ignores_clause_bodies None (Some (Ident "v")) (Ident "v")
           [CaseClause [Ident "x"] [fiveIfs]]).
  reflexivity.
Defined.

Lemma fiveIfs_nesting : smells.calculateMaxNesting (BlockStmt [fiveIfs]) = 5.
Proof. reflexivity. Qed.

(** *** The aggregate, the configuration loader and the table helper *)

Lemma existsb_id_In (l : list entities.AnalysisFinding) i :
  existsb (fun existing => String.eqb (entities.id existing) i) l = true
  <-> In i (List.map entities.id l).
Proof.
  rewrite existsb_exists, in_map_iff. split.
  - intros (x & Hx & E). apply String.eqb_eq in E. exists x. split; assumption.
  - intros (x & E & Hx). exists x. split; [exact Hx|]. apply String.eqb_eq, E.
Qed.

(** X13.  [AddFinding] keeps the identifiers of the findings of a result
    pairwise distinct: a finding whose identifier is already present is
    refused with an error and the result is left as it was; any other
    finding is appended. *)
Theorem AddFinding_keeps_ids_distinct
    (ar : aggregates.AnalysisResult) (finding : entities.AnalysisFinding) :
  NoDup (List.map entities.id (aggregates.findings ar)) ->
  NoDup (List.map entities.id (aggregates.findings (fst (aggregates.AddFinding ar finding))))
  /\ (snd (aggregates.AddFinding ar finding) <> None
      <-> In (entities.id finding) (List.map entities.id (aggregates.findings ar)))
  /\ (snd (aggregates.AddFinding ar finding) <> None ->
      fst (aggregates.AddFinding ar finding) = ar)
  /\ (snd (aggregates.AddFinding ar finding) = None ->
      aggregates.findings (fst (aggregates.AddFinding ar finding))
      = aggregates.findings ar ++ [finding]).
Proof.
  intros Hnd. unfold aggregates.AddFinding.
  destruct (existsb _ (aggregates.findings ar)) eqn:E; cbn [fst snd aggregates.findings].
  - apply existsb_id_In in E. split; [exact Hnd|]. split; [|split].
    + split; [intros _; exact E|discriminate].
    + reflexivity.
    + discriminate.
  - assert (Hnot : ~ In (entities.id finding)
                     (List.map entities.id (aggregates.findings ar))).
    { intros Hin. apply existsb_id_In in Hin. congruence. }
    split; [|split; [|split]].
    + rewrite List.map_app. cbn [List.map].
      apply List.NoDup_app; [exact Hnd| |].
      * apply List.NoDup_cons; [intros []|apply List.NoDup_nil].
      * intros x Hx [<-|[]]. exact (Hnot Hx).
    + split; [intros H; contradiction H; reflexivity|intros H; contradiction].
    + intros H. contradiction H. reflexivity.
    + reflexivity.
Qed.

Lemma AddFinding_keeps_ids_distinct_witness :
  NoDup (List.map entities.id (aggregates.findings lockResult))
  /\ NoDup (List.map entities.id
             (aggregates.findings (fst (aggregates.AddFinding lockResult lockFinding))))
  /\ (snd (aggregates.AddFinding lockResult lockFinding) <> None
      <-> In (entities.id lockFinding)
            (List.map entities.id (aggregates.findings lockResult)))
  /\ (snd (aggregates.AddFinding lockResult lockFinding) <> None ->
      fst (aggregates.AddFinding lockResult lockFinding) = lockResult)
  /\ (snd (aggregates.AddFinding lockResult lockFinding) = None ->
      aggregates.findings (fst (aggregates.AddFinding lockResult lockFinding))
      = aggregates.findings lockResult ++ [lockFinding]).
Proof.
  assert (H : NoDup (List.map entities.id (aggregates.findings lockResult))).
  { cbn [aggregates.findings lockResult List.map].
    apply List.NoDup_cons; [intros []|apply List.NoDup_nil]. }
  split; [exact H|]. apply (AddFinding_keeps_ids_distinct lockResult lockFinding H).
Defined.

(** X14.  [AddAnalyzedFile] keeps the analysed paths pairwise distinct and
    the file count equal to their number; adding a path a second time
    changes nothing. *)
Theorem AddAnalyzedFile_keeps_files_distinct
    (ar : aggregates.AnalysisResult) (filePath : string) :
  NoDup (aggregates.analyzedFiles ar) ->
  aggregates.totalFiles ar = Z.of_nat (length (aggregates.analyzedFiles ar)) ->
  NoDup (aggregates.analyzedFiles (aggregates.AddAnalyzedFile ar filePath))
  /\ aggregates.totalFiles (aggregates.AddAnalyzedFile ar filePath)
     = Z.of_nat (length (aggregates.analyzedFiles (aggregates.AddAnalyzedFile ar filePath)))
  /\ In filePath (aggregates.analyzedFiles (aggregates.AddAnalyzedFile ar filePath))
  /\ aggregates.AddAnalyzedFile (aggregates.AddAnalyzedFile ar filePath) filePath
     = aggregates.AddAnalyzedFile ar filePath
  /\ aggregates.findings (aggregates.AddAnalyzedFile ar filePath) = aggregates.findings ar.
Proof.
  intros Hnd Htotal.
  assert (Hex : forall l, existsb (fun existing => String.eqb existing filePath) l = true
                          <-> In filePath l).
  { intros l. rewrite existsb_exists. split.
    - intros (x & Hx & E). apply String.eqb_eq in E. subst x. exact Hx.
    - intros Hin. exists filePath. split; [exact Hin|apply String.eqb_refl]. }
  destruct (existsb (fun existing => String.eqb existing filePath)
              (aggregates.analyzedFiles ar)) eqn:E.
  - assert (Heq : aggregates.AddAnalyzedFile ar filePath = ar).
    { unfold aggregates.AddAnalyzedFile. rewrite E. reflexivity. }
    rewrite !Heq. split; [exact Hnd|]. split; [exact Htotal|].
    split; [apply Hex, E|]. split; reflexivity.
  - assert (Heq : aggregates.AddAnalyzedFile ar filePath
                  = aggregates.mkAnalysisResult (aggregates.id ar)
                      (aggregates.analyzedFiles ar ++ [filePath])
                      (aggregates.findings ar) (aggregates.configuration ar)
                      (Z.of_nat (length (aggregates.analyzedFiles ar ++ [filePath])))
                      (aggregates.totalFunctions ar) (aggregates.totalComplexity ar)).
    { unfold aggregates.AddAnalyzedFile. rewrite E. reflexivity. }
    rewrite !Heq.
    cbn [aggregates.analyzedFiles aggregates.totalFiles aggregates.findings].
    assert (Hnot : ~ In filePath (aggregates.analyzedFiles ar)).
    { intros Hin. apply Hex in Hin. congruence. }
    split; [|split; [reflexivity|split; [|split; [|reflexivity]]]].
    + apply List.NoDup_app; [exact Hnd| |].
      * apply List.NoDup_cons; [intros []|apply List.NoDup_nil].
      * intros x Hx [<-|[]]. exact (Hnot Hx).
    + apply in_or_app. right. left. reflexivity.
    + unfold aggregates.AddAnalyzedFile. cbn [aggregates.analyzedFiles].
      assert (E' : existsb (fun existing => String.eqb existing filePath)
                     (aggregates.analyzedFiles ar ++ [filePath]) = true).
      { apply Hex. apply in_or_app. right. left. reflexivity. }
      rewrite E'. reflexivity.
Qed.

Lemma AddAnalyzedFile_keeps_files_distinct_witness :
  (NoDup (aggregates.analyzedFiles lockResult)
   /\ aggregates.totalFiles lockResult
      = Z.of_nat (length (aggregates.analyzedFiles lockResult)))
  /\ NoDup (aggregates.analyzedFiles (aggregates.AddAnalyzedFile lockResult "util.go"))
  /\ aggregates.totalFiles (aggregates.AddAnalyzedFile lockResult "util.go")
     = Z.of_nat (length (aggregates.analyzedFiles
                           (aggregates.AddAnalyzedFile lockResult "util.go")))
  /\ In "util.go" (aggregates.analyzedFiles (aggregates.AddAnalyzedFile lockResult "util.go"))
  /\ aggregates.AddAnalyzedFile (aggregates.AddAnalyzedFile lockResult "util.go") "util.go"
     = aggregates.AddAnalyzedFile lockResult "util.go"
  /\ aggregates.findings (aggregates.AddAnalyzedFile lockResult "util.go")
     = aggregates.findings lockResult.
Proof.
  assert (H : NoDup (aggregates.analyzedFiles lockResult)).
  { cbn [aggregates.analyzedFiles lockResult].
    apply List.NoDup_cons; [intros []|apply List.NoDup_nil]. }
  split; [split; [exact H|reflexivity]|].
  apply (AddAnalyzedFile_keeps_files_distinct lockResult "util.go" H). reflexivity.
Defined.

Lemma fold_FindingsByType l : forall grouped t,
  fold_left (fun grouped finding =>
               fun t =>
                 if FindingType_int t =? FindingType_int (entities.findingType finding)
                 then grouped t ++ [finding]
                 else grouped t) l grouped t
  = grouped t ++ ofType t l.
Proof.
  induction l as [|f l IH]; intros grouped t; cbn [fold_left ofType List.filter].
  - rewrite app_nil_r. reflexivity.
  - rewrite IH. fold (ofType t l).
    destruct (FindingType_int t =? FindingType_int (entities.findingType f));
      [rewrite <- app_assoc|]; reflexivity.
Qed.

Lemma FindingsByType_ofType ar t :
  aggregates.FindingsByType ar t = ofType t (aggregates.findings ar).
Proof. unfold aggregates.FindingsByType. rewrite fold_FindingsByType. reflexivity. Qed.

Lemma fold_HighSeverity l : forall acc,
  fold_left (fun highSeverity finding =>
               if IsHighSeverity finding then highSeverity ++ [finding]
               else highSeverity) l acc
  = acc ++ List.filter IsHighSeverity l.
Proof.
  induction l as [|f l IH]; intros acc; cbn [fold_left List.filter].
  - rewrite app_nil_r. reflexivity.
  - rewrite IH. destruct (IsHighSeverity f); [rewrite <- app_assoc|]; reflexivity.
Qed.

Lemma length_by_type l :
  Z.of_nat (length l)
  = Z.of_nat (length (ofType entities.FindingTypeComplexity l))
    + Z.of_nat (length (ofType entities.FindingTypeSmell l))
    + Z.of_nat (length (ofType entities.FindingTypeSecurity l))
    + Z.of_nat (length (ofType entities.FindingTypePerformance l))
    + Z.of_nat (length (List.filter isBugFinding l)).
Proof.
  induction l as [|f l IH]; [reflexivity|].
  unfold ofType, isBugFinding in *. cbn [List.filter].
  destruct (entities.findingType f);
    cbn [FindingType_int Z.eqb Pos.eqb length] in IH |- *; lia.
Qed.

(** X15.  The summary of a result counts every finding in [TotalFindings]
    but has per-type counts for four of the five finding types only: the
    findings of type Bug, the type of every finding of the concurrency bug
    detector, appear in none of them.  The high-severity count is the number
    of findings of severity Error or Critical. *)
Theorem Summary_counts (ar : aggregates.AnalysisResult) :
  aggregates.TotalFindings (aggregates.Summary ar)
  = aggregates.ComplexityFindings (aggregates.Summary ar)
    + aggregates.SmellFindings (aggregates.Summary ar)
    + aggregates.SecurityFindings (aggregates.Summary ar)
    + aggregates.PerformanceFindings (aggregates.Summary ar)
    + Z.of_nat (length (List.filter isBugFinding (aggregates.findings ar)))
  /\ aggregates.HighSeverityFindings ar
     = List.filter (fun f =>
                      match entities.severity f with
                      | valueobjects.SeverityError | valueobjects.SeverityCritical => true
                      | _ => false
                      end) (aggregates.findings ar)
  /\ 0 <= aggregates.HighSeverityCount (aggregates.Summary ar)
     <= aggregates.TotalFindings (aggregates.Summary ar).
Proof.
  assert (Hhigh : aggregates.HighSeverityFindings ar
                  = List.filter IsHighSeverity (aggregates.findings ar)).
  { unfold aggregates.HighSeverityFindings. rewrite fold_HighSeverity. reflexivity. }
  split; [|split].
  - unfold aggregates.Summary.
    cbn [aggregates.TotalFindings aggregates.ComplexityFindings aggregates.SmellFindings
         aggregates.SecurityFindings aggregates.PerformanceFindings].
    rewrite !FindingsByType_ofType. apply length_by_type.
  - rewrite Hhigh. apply List.filter_ext. intros f. unfold IsHighSeverity.
    destruct (entities.severity f); reflexivity.
  - unfold aggregates.Summary.
    cbn [aggregates.TotalFindings aggregates.HighSeverityCount]. rewrite Hhigh.
    pose proof (List.filter_length_le IsHighSeverity (aggregates.findings ar)). lia.
Qed.

(** X16.  Whatever the environment holds, the configuration
    [loadAnalysisConfig] returns satisfies the invariants of the
    configuration: a threshold from the environment is applied only when it
    is positive, so the unchecked with-X operations are reached with valid
    arguments only.  A cognitive threshold of 0, which the constructor
    accepts, cannot be set this way; smell detection can only be switched
    off. *)
Theorem loadAnalysisConfig_valid
    (os_Getenv : string -> string) (strconv_Atoi : string -> Z * error)
    (strconv_ParseBool : string -> bool * error) :
  configurationInvariant
    (config.loadAnalysisConfig os_Getenv strconv_Atoi strconv_ParseBool)
  /\ 1 <= valueobjects.MaxCognitiveComplexity
            (config.loadAnalysisConfig os_Getenv strconv_Atoi strconv_ParseBool)
  /\ valueobjects.severityThreshold
       (config.loadAnalysisConfig os_Getenv strconv_Atoi strconv_ParseBool)
     = valueobjects.SeverityWarning
  /\ valueobjects.enableSmellDetection
       (config.loadAnalysisConfig os_Getenv strconv_Atoi strconv_ParseBool)
     = config.getEnvBool os_Getenv strconv_ParseBool "GOAST_ENABLE_SMELL_DETECTION" true
  /\ valueobjects.MaxCyclomaticComplexity
       (config.loadAnalysisConfig os_Getenv strconv_Atoi strconv_ParseBool)
     = (if config.getEnvInt os_Getenv strconv_Atoi "GOAST_MAX_CYCLOMATIC" 0 >? 0
        then config.getEnvInt os_Getenv strconv_Atoi "GOAST_MAX_CYCLOMATIC" 0
        else 15).
Proof.
  unfold config.loadAnalysisConfig. cbv zeta.
  destruct (Z.gtb_spec (config.getEnvInt os_Getenv strconv_Atoi "GOAST_MAX_CYCLOMATIC" 0) 0);
    destruct (Z.gtb_spec (config.getEnvInt os_Getenv strconv_Atoi "GOAST_MAX_COGNITIVE" 0) 0);
    destruct (Z.gtb_spec
                (config.getEnvInt os_Getenv strconv_Atoi "GOAST_MAX_FUNCTION_LENGTH" 0) 0);
    destruct (config.getEnvBool os_Getenv strconv_ParseBool
                "GOAST_ENABLE_SMELL_DETECTION" true);
    unfold configurationInvariant; cbn; repeat split; lia.
Qed.

Lemma slice_to_length n : forall s,
  (n <= String.length s)%nat -> String.length (cli.slice_to n s) = n.
Proof.
  induction n as [|n IH]; intros s Hn; [reflexivity|].
  destruct s as [|c s]; [cbn in Hn; lia|].
  cbn [cli.slice_to String.length]. rewrite IH; [reflexivity|]. cbn in Hn. lia.
Qed.

Lemma slice_to_prefix n : forall s, String.prefix (cli.slice_to n s) s = true.
Proof.
  induction n as [|n IH]; intros s; destruct s as [|c s]; try reflexivity.
  cbn [cli.slice_to String.prefix].
  destruct (Ascii.ascii_dec c c) as [_|Hne]; [apply IH|contradiction Hne; reflexivity].
Qed.

Lemma string_length_append a b :
  String.length (a +:+ b) = (String.length a + String.length b)%nat.
Proof. induction a as [|c a IH]; simpl; [reflexivity|]. f_equal. exact IH. Qed.

(** X17.  For a width of at least 3, as at its call site (20), [truncate]
    does not panic and its result fits the width: a string that fits is
    returned as it is; a longer one is cut to its first [maxLen-3] bytes
    followed by three dots, [maxLen] bytes in all. *)
Theorem truncate_fits (s : string) (maxLen : Z) :
  3 <= maxLen ->
  exists r,
    cli.truncate s maxLen = Some r
    /\ Z.of_nat (String.length r) <= maxLen
    /\ (Z.of_nat (String.length s) <= maxLen -> r = s)
    /\ (maxLen < Z.of_nat (String.length s) ->
        r = cli.slice_to (Z.to_nat (maxLen - 3)) s +:+ "..."
        /\ Z.of_nat (String.length r) = maxLen
        /\ String.prefix (cli.slice_to (Z.to_nat (maxLen - 3)) s) s = true).
Proof.
  intros Hmax. unfold cli.truncate.
  destruct (Z.leb_spec (Z.of_nat (String.length s)) maxLen) as [Hfit|Hlong].
  - exists s. split; [reflexivity|]. split; [exact Hfit|]. split; [reflexivity|]. lia.
  - destruct (Z.ltb_spec (maxLen - 3) 0) as [Hneg|_]; [lia|].
    exists (cli.slice_to (Z.to_nat (maxLen - 3)) s +:+ "...").
    assert (Hlen : String.length (cli.slice_to (Z.to_nat (maxLen - 3)) s +:+ "...")
                   = (Z.to_nat (maxLen - 3) + 3)%nat).
    { rewrite string_length_append, slice_to_length; [reflexivity|lia]. }
    split; [reflexivity|]. split; [lia|]. split; [lia|].
    intros _. split; [reflexivity|]. split; [lia|apply slice_to_prefix].
Qed.

Lemma truncate_fits_witness :
  3 <= 20
  /\ exists r,
      cli.truncate "internal/domain/services/detector.go" 20 = Some r
      /\ Z.of_nat (String.length r) <= 20
      /\ (Z.of_nat (String.length "internal/domain/services/detector.go") <= 20 ->
          r = "internal/domain/services/detector.go")
      /\ (20 < Z.of_nat (String.length "internal/domain/services/detector.go") ->
          r = cli.slice_to (Z.to_nat (20 - 3)) "internal/domain/services/detector.go"
              +:+ "..."
          /\ Z.of_nat (String.length r) = 20
          /\ String.prefix
               (cli.slice_to (Z.to_nat (20 - 3)) "internal/domain/services/detector.go")
               "internal/domain/services/detector.go" = true).
Proof.
  split; [lia|].
  apply (truncate_fits "internal/domain/services/detector.go" 20). lia.
Defined.

(** *** The use case *)

Ltac tuple4_eq :=
  apply pair_equal_spec; split;
    [apply pair_equal_spec; split; [apply pair_equal_spec; split|]|];
    try reflexivity; try lia.

Lemma int_add_nonneg {go : Platform} a b : 0 <= a + b <= maxInt -> int_add a b = a + b.
Proof.
  intros Hab. apply int_add_exact. pose proof maxInt_large as Hmax.
  unfold minInt, maxInt in *. set (h := 2 ^ (intSize - 1)) in *. lia.
Qed.

Lemma sums_bounds decls :
  0 <= Z.of_nat (length (List.filter isFuncDecl decls)) <= sumCyclomatic decls
  /\ sumCyclomatic decls - Z.of_nat (length (List.filter isFuncDecl decls))
     <= sumCognitive decls.
Proof.
  induction decls as [|d decls [IH1 IH2]]; [cbn; lia|].
  cbn [List.filter sumCyclomatic sumCognitive fold_right].
  fold (sumCyclomatic decls). fold (sumCognitive decls).
  pose proof (calculateCyclomaticComplexity_constructs d) as Hcy.
  pose proof (calculateCognitiveComplexity_lower d 0 ltac:(lia)) as Hco.
  pose proof (constructs_nonneg (preorder d)) as Hn.
  destruct (isFuncDecl d); cbn [length]; lia.
Qed.

(** One turn of the loop over the declarations, the calculator being the
    AST calculator, when no counter wraps around. *)
Lemma functionStep_AST {go : Platform} filepath_Clean filePath findings fc tc tg decl :
  0 <= fc -> 0 <= tc -> 0 <= tg ->
  fc + 1 <= maxInt ->
  tc + services.calculateCyclomaticComplexity decl <= maxInt ->
  tg + unbounded.calculateCognitiveComplexity decl 0 <= maxInt ->
  exists new,
    usecases.functionStep filepath_Clean services.CalculateComplexity filePath
      (findings, fc, tc, tg) decl
    = (findings ++ new,
       fc + (if isFuncDecl decl then 1 else 0),
       tc + (if isFuncDecl decl then services.calculateCyclomaticComplexity decl else 0),
       tg + (if isFuncDecl decl then unbounded.calculateCognitiveComplexity decl 0 else 0))
    /\ Forall2 (reportsComplexity filepath_Clean filePath)
         (if isHighFunction decl then [decl] else []) new.
Proof.
  intros Hfc Htc Htg Bfc Btc Btg. unfold isHighFunction.
  pose proof (calculateCyclomaticComplexity_constructs decl) as Hcy.
  pose proof (calculateCognitiveComplexity_lower decl 0 ltac:(lia)) as Hco.
  pose proof (constructs_nonneg (preorder decl)) as Hn.
  assert (Hfit : unbounded.calculateCognitiveComplexity decl 0 <= maxInt) by lia.
  destruct (CalculateComplexity_ok decl Hfit) as (Hc & _ & _).
  pose proof (calculateCognitiveComplexity_exact decl Hfit) as Hexact.
  destruct decl; cbn [isFuncDecl andb];
    try (exists []; split; [cbn [usecases.functionStep]; rewrite app_nil_r;
                           repeat f_equal; lia|constructor]).
  cbn [usecases.functionStep]. rewrite Hc. cbn [fst].
  cbn [valueobjects.Cyclomatic valueobjects.Cognitive valueobjects.cyclomatic
       valueobjects.cognitive].
  rewrite !int_add_nonneg by lia.
  destruct (valueobjects.IsHighComplexity _) eqn:Ehigh.
  - eexists [_]. split; [reflexivity|].
    constructor; [|constructor].
    unfold reportsComplexity. do 5 eexists. split; [reflexivity|].
    rewrite Hc, Hexact. cbn [fst]. repeat split; reflexivity.
  - exists []. split; [rewrite app_nil_r; reflexivity|constructor].
Qed.

Lemma fold_functionStep_AST {go : Platform} filepath_Clean filePath decls :
  forall findings fc tc tg,
  0 <= fc -> 0 <= tc -> 0 <= tg ->
  fc + Z.of_nat (length (List.filter isFuncDecl decls)) <= maxInt ->
  tc + sumCyclomatic decls <= maxInt ->
  tg + sumCognitive decls <= maxInt ->
  exists new,
    fold_left (usecases.functionStep filepath_Clean services.CalculateComplexity filePath)
      decls (findings, fc, tc, tg)
    = (findings ++ new,
       fc + Z.of_nat (length (List.filter isFuncDecl decls)),
       tc + sumCyclomatic decls,
       tg + sumCognitive decls)
    /\ Forall2 (reportsComplexity filepath_Clean filePath)
         (List.filter isHighFunction decls) new.
Proof.
  induction decls as [|d decls IH]; intros findings fc tc tg Hfc Htc Htg Bfc Btc Btg;
    cbn [fold_left].
  - exists []. split; [|constructor].
    rewrite app_nil_r. cbn [List.filter length sumCyclomatic sumCognitive fold_right].
    tuple4_eq.
  - destruct (sums_bounds decls) as [Hs1 Hs2].
    pose proof (calculateCyclomaticComplexity_constructs d) as Hcy.
    pose proof (calculateCognitiveComplexity_lower d 0 ltac:(lia)) as Hco.
    pose proof (constructs_nonneg (preorder d)) as Hn.
    cbn [List.filter sumCyclomatic sumCognitive fold_right] in Bfc, Btc, Btg.
    fold (sumCyclomatic decls) in Btc. fold (sumCognitive decls) in Btg.
    destruct (isFuncDecl d) eqn:Efun.
    + cbn [length] in Bfc.
      destruct (functionStep_AST filepath_Clean filePath findings fc tc tg d)
        as (new1 & -> & H1); try lia.
      rewrite Efun.
      destruct (IH (findings ++ new1) (fc + 1)
                  (tc + services.calculateCyclomaticComplexity d)
                  (tg + unbounded.calculateCognitiveComplexity d 0))
        as (new2 & -> & H2); try lia.
      exists (new1 ++ new2). split.
      * rewrite <- app_assoc. cbn [List.filter sumCyclomatic sumCognitive fold_right].
        fold (sumCyclomatic decls). fold (sumCognitive decls).
        rewrite Efun. cbn [length]. tuple4_eq.
      * cbn [List.filter]. destruct (isHighFunction d).
        -- change (d :: List.filter isHighFunction decls)
             with ([d] ++ List.filter isHighFunction decls).
           apply Forall2_app; assumption.
        -- inversion H1. subst. exact H2.
    + assert (Estep : usecases.functionStep filepath_Clean services.CalculateComplexity
                        filePath (findings, fc, tc, tg) d = (findings, fc, tc, tg)).
      { destruct d; try reflexivity. discriminate Efun. }
      rewrite Estep.
      destruct (IH findings fc tc tg) as (new2 & -> & H2); try lia.
      exists new2. split.
      * cbn [List.filter sumCyclomatic sumCognitive fold_right].
        fold (sumCyclomatic decls). fold (sumCognitive decls).
        rewrite Efun. reflexivity.
      * cbn [List.filter]. unfold isHighFunction at 1. rewrite Efun. cbn [andb].
        exact H2.
Qed.

(** X18.  With the AST calculator, and when the exact sums of the scores of
    the functions of the file fit in an [int], [analyzeFile] scores every
    function declaration of the file: the branch that skips a function the
    calculator fails on is not taken.  The function count is the number of
    top-level function declarations, the totals are the sums of their
    scores (so the cyclomatic total is at least the count), and the
    findings are one Complexity finding for each highly complex function,
    in order, with severity Error when the cyclomatic score exceeds 20 or
    the cognitive score exceeds 30 and Warning otherwise, followed by the
    findings of the smell detector when they are asked for. *)
Theorem analyzeFile_with_AST_calculator {go : Platform}
    (filepath_Clean : string -> string)
    (DetectSmells :
       node -> valueobjects.AnalysisConfiguration -> list entities.AnalysisFinding * error)
    (ParseFile : string -> node * error)
    (filePath : string) (config : valueobjects.AnalysisConfiguration)
    (includeSmells : bool) (astFile : node) :
  ParseFile filePath = (astFile, None) ->
  (includeSmells = true -> snd (DetectSmells astFile config) = None) ->
  sumCyclomatic (DeclsOf astFile) <= maxInt ->
  sumCognitive (DeclsOf astFile) <= maxInt ->
  exists r complexityFindings,
    usecases.analyzeFile filepath_Clean services.CalculateComplexity DetectSmells ParseFile
      filePath config includeSmells = (Some r, None)
    /\ usecases.FunctionCount r
       = Z.of_nat (length (List.filter isFuncDecl (DeclsOf astFile)))
    /\ usecases.TotalCyclomatic r = sumCyclomatic (DeclsOf astFile)
    /\ usecases.TotalCognitive r = sumCognitive (DeclsOf astFile)
    /\ usecases.FunctionCount r <= usecases.TotalCyclomatic r
    /\ usecases.TotalCyclomatic r - usecases.FunctionCount r <= usecases.TotalCognitive r
    /\ usecases.Findings r
       = complexityFindings
         ++ (if includeSmells then fst (DetectSmells astFile config) else [])
    /\ Forall2 (reportsComplexity filepath_Clean filePath)
         (List.filter isHighFunction (DeclsOf astFile)) complexityFindings.
Proof.
  intros Hparse Hsmells Hcy Hco. unfold usecases.analyzeFile. rewrite Hparse.
  destruct (sums_bounds (DeclsOf astFile)) as [Hb1 Hb2].
  destruct (fold_functionStep_AST filepath_Clean filePath (DeclsOf astFile) [] 0 0 0)
    as (new & -> & Hnew); try lia.
  cbn [app]. rewrite !Z.add_0_l.
  destruct includeSmells.
  - specialize (Hsmells eq_refl).
    destruct (DetectSmells astFile config) as [smellFindings err].
    cbn [snd] in Hsmells. subst err.
    eexists _, new. split; [reflexivity|].
    cbn [usecases.FunctionCount usecases.TotalCyclomatic usecases.TotalCognitive
         usecases.Findings fst].
    repeat split; try reflexivity; try assumption; lia.
  - eexists _, new. split; [reflexivity|].
    cbn [usecases.FunctionCount usecases.TotalCyclomatic usecases.TotalCognitive
         usecases.Findings].
    rewrite app_nil_r. repeat split; try reflexivity; try assumption; lia.
Qed.

Lemma analyzeFile_with_AST_calculator_witness :
  (parseOneIf "a.go" = (oneIfFile, None)
   /\ (true = true -> snd (noSmells oneIfFile valueobjects.DefaultAnalysisConfiguration)
                      = None)
   /\ sumCyclomatic (DeclsOf oneIfFile) <= maxInt
   /\ sumCognitive (DeclsOf oneIfFile) <= maxInt)
  /\ exists r complexityFindings,
      usecases.analyzeFile (fun path => path) services.CalculateComplexity noSmells
        parseOneIf "a.go" valueobjects.DefaultAnalysisConfiguration true = (Some r, None)
      /\ usecases.FunctionCount r
         = Z.of_nat (length (List.filter isFuncDecl (DeclsOf oneIfFile)))
      /\ usecases.TotalCyclomatic r = sumCyclomatic (DeclsOf oneIfFile)
      /\ usecases.TotalCognitive r = sumCognitive (DeclsOf oneIfFile)
      /\ usecases.FunctionCount r <= usecases.TotalCyclomatic r
      /\ usecases.TotalCyclomatic r - usecases.FunctionCount r <= usecases.TotalCognitive r
      /\ usecases.Findings r
         = complexityFindings
           ++ (if true then fst (noSmells oneIfFile valueobjects.DefaultAnalysisConfiguration)
               else [])
      /\ Forall2 (reportsComplexity (fun path => path) "a.go")
           (List.filter isHighFunction (DeclsOf oneIfFile)) complexityFindings.
Proof.
  split; [repeat split; try reflexivity; vm_compute; discriminate|].
  apply (analyzeFile_with_AST_calculator (fun path => path) noSmells parseOneIf "a.go"
           valueobjects.DefaultAnalysisConfiguration true oneIfFile);
    try reflexivity; vm_compute; discriminate.
Defined.

Lemma AddFinding_fields ar finding :
  (NoDup (List.map entities.id (aggregates.findings ar)) ->
   NoDup (List.map entities.id (aggregates.findings (fst (aggregates.AddFinding ar finding)))))
  /\ aggregates.analyzedFiles (fst (aggregates.AddFinding ar finding))
     = aggregates.analyzedFiles ar
  /\ aggregates.totalFiles (fst (aggregates.AddFinding ar finding))
     = aggregates.totalFiles ar
  /\ aggregates.totalComplexity (fst (aggregates.AddFinding ar finding))
     = aggregates.totalComplexity ar.
Proof.
  unfold aggregates.AddFinding.
  destruct (existsb _ (aggregates.findings ar)) eqn:E;
    cbn [fst aggregates.findings aggregates.analyzedFiles aggregates.totalFiles
         aggregates.totalComplexity];
    [tauto|].
  split; [|tauto]. intros Hnd. rewrite List.map_app. cbn [List.map].
  apply List.NoDup_app; [exact Hnd| |].
  - apply List.NoDup_cons; [intros []|apply List.NoDup_nil].
  - intros x Hx [<-|[]]. apply existsb_id_In in Hx. congruence.
Qed.

Lemma fold_AddFinding_fields fs : forall ar,
  let ar' := fold_left (fun analysisResult finding =>
                          fst (aggregates.AddFinding analysisResult finding)) fs ar in
  (NoDup (List.map entities.id (aggregates.findings ar)) ->
   NoDup (List.map entities.id (aggregates.findings ar')))
  /\ aggregates.analyzedFiles ar' = aggregates.analyzedFiles ar
  /\ aggregates.totalFiles ar' = aggregates.totalFiles ar
  /\ aggregates.totalComplexity ar' = aggregates.totalComplexity ar.
Proof.
  induction fs as [|f fs IH]; intros ar; cbn [fold_left]; [tauto|].
  destruct (IH (fst (aggregates.AddFinding ar f))) as (H1 & H2 & H3 & H4).
  destruct (AddFinding_fields ar f) as (G1 & G2 & G3 & G4).
  cbv zeta. rewrite H2, H3, H4, G2, G3, G4. tauto.
Qed.

Lemma AddAnalyzedFile_fields ar filePath :
  NoDup (aggregates.analyzedFiles ar) ->
  aggregates.totalFiles ar = Z.of_nat (length (aggregates.analyzedFiles ar)) ->
  NoDup (aggregates.analyzedFiles (aggregates.AddAnalyzedFile ar filePath))
  /\ aggregates.totalFiles (aggregates.AddAnalyzedFile ar filePath)
     = Z.of_nat (length (aggregates.analyzedFiles (aggregates.AddAnalyzedFile ar filePath)))
  /\ (forall p, In p (aggregates.analyzedFiles (aggregates.AddAnalyzedFile ar filePath))
                <-> In p (aggregates.analyzedFiles ar) \/ p = filePath)
  /\ aggregates.findings (aggregates.AddAnalyzedFile ar filePath) = aggregates.findings ar
  /\ aggregates.totalComplexity (aggregates.AddAnalyzedFile ar filePath)
     = aggregates.totalComplexity ar.
Proof.
  intros Hnd Htotal.
  assert (Hex : existsb (fun existing => String.eqb existing filePath)
                  (aggregates.analyzedFiles ar) = true
                <-> In filePath (aggregates.analyzedFiles ar)).
  { rewrite existsb_exists. split.
    - intros (x & Hx & E). apply String.eqb_eq in E. subst x. exact Hx.
    - intros Hin. exists filePath. split; [exact Hin|apply String.eqb_refl]. }
  unfold aggregates.AddAnalyzedFile.
  destruct (existsb _ (aggregates.analyzedFiles ar)) eqn:E.
  - split; [exact Hnd|]. split; [exact Htotal|]. split; [|split; reflexivity].
    intros p. split; [auto|]. intros [Hp| ->]; [exact Hp|apply Hex; reflexivity].
  - cbn [aggregates.analyzedFiles aggregates.totalFiles aggregates.findings
         aggregates.totalComplexity].
    split; [|split; [reflexivity|split; [|split; reflexivity]]].
    + apply List.NoDup_app; [exact Hnd| |].
      * apply List.NoDup_cons; [intros []|apply List.NoDup_nil].
      * intros x Hx [<-|[]]. apply Hex in Hx. congruence.
    + intros p. rewrite in_app_iff. cbn [In]. split.
      * intros [Hp|[<-|[]]]; [left; exact Hp|right; reflexivity].
      * intros [Hp| ->]; [left; exact Hp|right; left; reflexivity].
Qed.

(** One turn of the loop over the paths, whatever the calculator. *)
Lemma fileStep_invariant {go : Platform} filepath_Clean CalculateComplexity DetectSmells
    ParseFile request processed st p :
  loopInvariant processed st ->
  match usecases.fileStep filepath_Clean CalculateComplexity DetectSmells
          ParseFile request (inl st) p with
  | inl st' => loopInvariant (processed ++ [p]) st'
  | inr response => usecases.Success response = false
  end.
Proof.
  destruct st as [[[ar tf] tc] tg]. intros (I1 & I2 & I3 & I4 & I5).
  cbn [usecases.fileStep].
  destruct (usecases.analyzeFile _ _ _ _ p _ _) as [[fr|] [err|]] eqn:E;
    try reflexivity.
  destruct (fold_AddFinding_fields (usecases.Findings fr) ar) as (F1 & F2 & F3 & F4).
  cbv zeta in F1, F2, F3, F4.
  destruct (AddAnalyzedFile_fields
              (fold_left (fun analysisResult finding =>
                            fst (aggregates.AddFinding analysisResult finding))
                 (usecases.Findings fr) ar) p)
    as (A1 & A2 & A3 & A4 & A5).
  { rewrite F2. exact I2. }
  { rewrite F3, F2. exact I3. }
  unfold loopInvariant. rewrite A4, A5, F4.
  split; [exact (F1 I1)|]. split; [exact A1|]. split; [exact A2|].
  split; [|exact I5].
  intros q. rewrite A3, F2, I4, in_app_iff. cbn [In]. split.
  - intros [Hq| ->]; [left; exact Hq|right; left; reflexivity].
  - intros [Hq|[<-|[]]]; [left; exact Hq|right; reflexivity].
Qed.

Lemma fold_fileStep_inr {go : Platform} filepath_Clean CalculateComplexity DetectSmells
    ParseFile request paths response :
  fold_left (usecases.fileStep filepath_Clean CalculateComplexity DetectSmells ParseFile
               request) paths (inr response)
  = inr response.
Proof. induction paths as [|p paths IH]; [reflexivity|exact IH]. Qed.

Lemma fold_fileStep_invariant {go : Platform} filepath_Clean CalculateComplexity
    DetectSmells ParseFile request paths :
  forall processed st,
    loopInvariant processed st ->
    match fold_left (usecases.fileStep filepath_Clean CalculateComplexity
                       DetectSmells ParseFile request) paths (inl st) with
    | inl st' => loopInvariant (processed ++ paths) st'
    | inr response => usecases.Success response = false
    end.
Proof.
  induction paths as [|p paths IH]; intros processed st Hinv; cbn [fold_left].
  - rewrite app_nil_r. exact Hinv.
  - pose proof (fileStep_invariant filepath_Clean CalculateComplexity DetectSmells
                  ParseFile request processed st p Hinv) as Hstep.
    destruct (usecases.fileStep _ _ _ _ request (inl st) p) as [st'|response].
    + specialize (IH (processed ++ [p]) st' Hstep).
      rewrite <- app_assoc in IH. exact IH.
    + rewrite fold_fileStep_inr. exact Hstep.
Qed.

(** X19.  When [Execute] reports success, whatever the complexity
    calculator, its result is consistent: no two findings share an
    identifier (a finding whose identifier is already present is dropped
    without notice, the error of [AddFinding] being ignored), the analysed
    files are the requested paths without repetition and the file count is
    their number.  The averaged score it stores is the zero score or a valid
    one, cyclomatic at least 1 and cognitive at least 0: the zero score when
    no function was counted, and also when the averages fail the validation
    of [NewComplexityScore], whose error is ignored. *)
Theorem Execute_result_is_consistent {go : Platform}
    (filepath_Clean : string -> string)
    (CalculateComplexity : node -> valueobjects.ComplexityScore * error)
    (DetectSmells :
       node -> valueobjects.AnalysisConfiguration -> list entities.AnalysisFinding * error)
    (ParseFile : string -> node * error) (GenerateID elapsed : string)
    (request : usecases.AnalyzeCodeRequest) :
  usecases.Success
    (usecases.Execute filepath_Clean CalculateComplexity DetectSmells ParseFile
       GenerateID elapsed request) = true ->
  let ar :=
    usecases.AnalysisResult
      (usecases.Execute filepath_Clean CalculateComplexity DetectSmells ParseFile
         GenerateID elapsed request) in
  usecases.Error
    (usecases.Execute filepath_Clean CalculateComplexity DetectSmells ParseFile
       GenerateID elapsed request) = None
  /\ GenerateID <> ""
  /\ NoDup (List.map entities.id (aggregates.findings ar))
  /\ NoDup (aggregates.analyzedFiles ar)
  /\ aggregates.totalFiles ar = Z.of_nat (length (aggregates.analyzedFiles ar))
  /\ (forall p, In p (aggregates.analyzedFiles ar) <-> In p (usecases.FilePaths request))
  /\ (aggregates.totalFunctions ar <= 0 ->
      aggregates.totalComplexity ar = valueobjects.zeroComplexityScore)
  /\ (aggregates.totalComplexity ar = valueobjects.zeroComplexityScore
      \/ (1 <= valueobjects.Cyclomatic (aggregates.totalComplexity ar)
          /\ 0 <= valueobjects.Cognitive (aggregates.totalComplexity ar))).
Proof.
  unfold usecases.Execute. cbv zeta. unfold aggregates.NewAnalysisResult.
  destruct (String.eqb GenerateID "") eqn:Eid; [discriminate|].
  apply String.eqb_neq in Eid.
  pose proof (fold_fileStep_invariant filepath_Clean CalculateComplexity DetectSmells
                ParseFile request (usecases.FilePaths request) []
                (aggregates.mkAnalysisResult GenerateID [] []
                   (usecases.Configuration request) 0 0 valueobjects.zeroComplexityScore,
                 0, 0, 0)) as Hloop.
  destruct (fold_left _ (usecases.FilePaths request) _) as [[[[ar tf] tc] tg]|response].
  - intros _. cbn [usecases.AnalysisResult usecases.Error].
    destruct Hloop as (I1 & I2 & I3 & I4 & I5).
    { unfold loopInvariant. cbn [aggregates.findings aggregates.analyzedFiles
                                 aggregates.totalFiles aggregates.totalComplexity
                                 List.map length].
      repeat split; try lia; try apply List.NoDup_nil; tauto. }
    cbn [app] in I4.
    split; [reflexivity|]. split; [exact Eid|].
    destruct (Z.gtb_spec tf 0) as [Hpos|Hzero];
      cbn [aggregates.SetTotalFunctions aggregates.SetTotalComplexity aggregates.findings
           aggregates.analyzedFiles aggregates.totalFiles aggregates.totalFunctions
           aggregates.totalComplexity];
      (split; [exact I1|]); (split; [exact I2|]); (split; [exact I3|]);
      (split; [exact I4|]).
    + split; [lia|].
      unfold valueobjects.NewComplexityScore.
      destruct (Z.ltb_spec (Z.quot tc tf) 1); [left; reflexivity|].
      destruct (Z.ltb_spec (Z.quot tg tf) 0); [left; reflexivity|].
      right.
      cbn [fst valueobjects.Cyclomatic valueobjects.Cognitive valueobjects.cyclomatic
           valueobjects.cognitive].
      split; assumption.
    + split; [intros _; exact I5|left; exact I5].
  - intros Hs. rewrite Hloop in Hs; [discriminate Hs|].
    unfold loopInvariant. cbn [aggregates.findings aggregates.analyzedFiles
                               aggregates.totalFiles aggregates.totalComplexity
                               List.map length].
    repeat split; try lia; try apply List.NoDup_nil; tauto.
Qed.

Lemma Execute_result_is_consistent_witness :
  usecases.Success oneIfResponse = true
  /\ usecases.Error oneIfResponse = None
  /\ "run-1" <> ""
  /\ NoDup (List.map entities.id
             (aggregates.findings (usecases.AnalysisResult oneIfResponse)))
  /\ NoDup (aggregates.analyzedFiles (usecases.AnalysisResult oneIfResponse))
  /\ aggregates.totalFiles (usecases.AnalysisResult oneIfResponse)
     = Z.of_nat (length (aggregates.analyzedFiles (usecases.AnalysisResult oneIfResponse)))
  /\ (forall p, In p (aggregates.analyzedFiles (usecases.AnalysisResult oneIfResponse))
                <-> In p (usecases.FilePaths oneIfRequest))
  /\ (aggregates.totalFunctions (usecases.AnalysisResult oneIfResponse) <= 0 ->
      aggregates.totalComplexity (usecases.AnalysisResult oneIfResponse)
      = valueobjects.zeroComplexityScore)
  /\ (aggregates.totalComplexity (usecases.AnalysisResult oneIfResponse)
      = valueobjects.zeroComplexityScore
      \/ (1 <= valueobjects.Cyclomatic
                 (aggregates.totalComplexity (usecases.AnalysisResult oneIfResponse))
          /\ 0 <= valueobjects.Cognitive
                    (aggregates.totalComplexity (usecases.AnalysisResult oneIfResponse)))).
Proof.
  split; [vm_compute; reflexivity|].
  apply (Execute_result_is_consistent (fun path => path) services.CalculateComplexity
           noSmells parseOneIf "run-1" "1ms" oneIfRequest).
  vm_compute; reflexivity.
Defined.

(** *** The timeout clause of the two detectors *)

Lemma selectAfter_context {go : Platform} pos x ch :
  x <> "time" -> services.isDoneChannel (Ident ch) = false ->
  services.goroutineContextOf (spawn pos [selectAfter x ch])
  = services.mkContext true false true false false false false false false
      "anonymous_goroutine" pos.
Proof.
  intros Hx Hch. apply String.eqb_neq in Hx.
  unfold selectAfter, afterClause, receiveClause, spawn.
  cbn -[services.isDoneChannel]. rewrite Hx, Hch.
  destruct (String.eqb x "ctx" || String.eqb x "context"); reflexivity.
Qed.

(** X20.  The two detectors disagree on what a timeout clause is.  The bug
    detector takes a receive from any call of a method named [After] (or
    whose name contains "Timeout") for one; the leak detector asks for
    [time.After].  So a spawned [select { case <-x.After(d): case <-ch: }]
    with [x] other than [time] is no blocking select for the bug detector
    and a select leak (with a receive leak) for the leak detector; with
    [time] neither reports it. *)
Theorem timeout_clause_detectors_disagree {go : Platform}
    (filepath_Clean : string -> string) (pos : Position) (x ch : string) :
  x <> "time" ->
  services.isDoneChannel (Ident ch) = false ->
  services.isPotentiallyBlockingSelect (selectAfter x ch) = false
  /\ services.analyzeGoroutine filepath_Clean (spawn pos [selectAfter x ch])
     = [leakFinding filepath_Clean
          (services.goroutineContextOf (spawn pos [selectAfter x ch]))
          "channel_receive_leak"
          "channel receive without close operation (confidence: 0.42)"
          valueobjects.SeverityWarning;
        leakFinding filepath_Clean
          (services.goroutineContextOf (spawn pos [selectAfter x ch]))
          "select_statement_leak"
          "select statement without escape hatch (context cancel or timeout) (confidence: 0.86)"
          valueobjects.SeverityError]
  /\ services.isPotentiallyBlockingSelect (selectAfter "time" ch) = false
  /\ services.analyzeGoroutine filepath_Clean (spawn pos [selectAfter "time" ch]) = [].
Proof.
  intros Hx Hch. split; [|split; [|split]].
  - reflexivity.
  - unfold services.analyzeGoroutine. rewrite checkLeakPatterns_findings.
    rewrite (selectAfter_context pos x ch Hx Hch). reflexivity.
  - reflexivity.
  - unfold services.analyzeGoroutine. rewrite checkLeakPatterns_findings.
    assert (E : services.goroutineContextOf (spawn pos [selectAfter "time" ch])
                = services.mkContext true false true true true false false false false
                    "anonymous_goroutine" pos).
    { unfold selectAfter, afterClause, receiveClause, spawn.
      cbn -[services.isDoneChannel]. rewrite Hch. reflexivity. }
    rewrite E. reflexivity.
Qed.

Lemma timeout_clause_detectors_disagree_witness :
  ("timer" <> "time" /\ services.isDoneChannel (Ident "ch") = false)
  /\ services.isPotentiallyBlockingSelect (selectAfter "timer" "ch") = false
  /\ services.analyzeGoroutine (fun path => path)
       (spawn (mkPosition "main.go" 5 2) [selectAfter "timer" "ch"])
     = [leakFinding (fun path => path)
          (services.goroutineContextOf
             (spawn (mkPosition "main.go" 5 2) [selectAfter "timer" "ch"]))
          "channel_receive_leak"
          "channel receive without close operation (confidence: 0.42)"
          valueobjects.SeverityWarning;
        leakFinding (fun path => path)
          (services.goroutineContextOf
             (spawn (mkPosition "main.go" 5 2) [selectAfter "timer" "ch"]))
          "select_statement_leak"
          "select statement without escape hatch (context cancel or timeout) (confidence: 0.86)"
          valueobjects.SeverityError]
  /\ services.isPotentiallyBlockingSelect (selectAfter "time" "ch") = false
  /\ services.analyzeGoroutine (fun path => path)
       (spawn (mkPosition "main.go" 5 2) [selectAfter "time" "ch"]) = [].
Proof.
  split; [split; [discriminate|reflexivity]|].
  apply (timeout_clause_detectors_disagree (fun path => path) (mkPosition "main.go" 5 2)
           "timer" "ch"); [discriminate|reflexivity].
Defined.

(* ================================================================== *)
(** ** The imbalance rules in the presence of spawned function literals *)
(* ================================================================== *)

(** *** The patterns the walk collects *)

Lemma blockingVisit_patterns_inv {go : Platform} recur x st p :
  In p (services.patterns (services.blockingVisit recur x st)) ->
  In p (services.patterns st)
  \/ p = services.selectPattern
  \/ exists body, inlineBody x = Some body /\ In p (recur body).
Proof.
  assert (Hsame : In p (services.patterns st) ->
                  In p (services.patterns st)
                  \/ p = services.selectPattern
                  \/ exists body, inlineBody x = Some body /\ In p (recur body))
    by (intros Hp; left; exact Hp).
  unfold services.blockingVisit.
  destruct x; try exact Hsame;
    repeat match goal with
           | |- context [match ?t with _ => _ end] => is_var t; destruct t; try exact Hsame
           end.
  - cbn [services.patterns]. intros Hp. apply in_app_or in Hp.
    destruct Hp as [Hp|Hp]; [left; exact Hp|].
    right. right. eexists. split; [reflexivity|exact Hp].
  - match goal with |- context [if ?b then _ else _] => destruct b; [|exact Hsame] end.
    cbn [services.patterns]. intros Hp. apply in_app_or in Hp.
    destruct Hp as [Hp|[<-|[]]]; [left; exact Hp|right; left; reflexivity].
Qed.

Lemma fold_blockingVisit_patterns_inv {go : Platform} recur l p : forall st,
  In p (services.patterns (fold_left (fun s x => services.blockingVisit recur x s) l st)) ->
  In p (services.patterns st)
  \/ p = services.selectPattern
  \/ exists x body, In x l /\ inlineBody x = Some body /\ In p (recur body).
Proof.
  induction l as [|x l IH]; intros st Hp; cbn [fold_left] in Hp; [left; exact Hp|].
  apply IH in Hp. destruct Hp as [Hp|[Hp|(y & body & Hy & Hb & Hp)]].
  - apply blockingVisit_patterns_inv in Hp.
    destruct Hp as [Hp|[Hp|(body & Hb & Hp)]];
      [left; exact Hp|right; left; exact Hp|].
    right. right. exists x, body. split; [left; reflexivity|]. split; assumption.
  - right. left. exact Hp.
  - right. right. exists y, body. split; [right; exact Hy|]. split; assumption.
Qed.

Lemma blockingVisit_spawn {go : Platform} recur x st body p :
  inlineBody x = Some body -> In p (recur body) ->
  In p (services.patterns (services.blockingVisit recur x st)).
Proof.
  destruct x; try discriminate. cbn [inlineBody].
  repeat match goal with
         | |- context [match ?t with _ => _ end] => is_var t; destruct t; try discriminate
         end.
  intros [= ->] Hp. cbn [services.blockingVisit services.patterns].
  apply in_or_app. right. exact Hp.
Qed.

(** The patterns of a spawned function literal are patterns of the block
    that holds the spawn. *)
Lemma spawned_patterns_reported {go : Platform} block x body p :
  In x (preorder block) -> inlineBody x = Some body ->
  In p (services.analyzeBlockingPatterns body) ->
  In p (services.analyzeBlockingPatterns block).
Proof.
  intros Hx Hbody Hp. rewrite (analyzeBlockingPatterns_unfold block), Inspect_preorder.
  apply in_split in Hx. destruct Hx as (l1 & l2 & ->).
  rewrite fold_left_app. cbn [fold_left].
  unfold services.tallyPatterns. apply in_or_app. left.
  apply fold_blockingVisit_keeps. apply (blockingVisit_spawn _ _ _ body); assumption.
Qed.

Lemma talliedBlock_spawn body x block block' :
  In x (preorder body) -> inlineBody x = Some block ->
  talliedBlock block block' -> talliedBlock body block'.
Proof.
  intros Hx Hb [->|(y & Hy & Hb')]; right.
  - exists x. split; assumption.
  - exists y. split; [|exact Hb'].
    apply (preorder_incl body block); [|exact Hy].
    apply (preorder_incl body x Hx).
    rewrite preorder_children. right. apply inlineBody_below, Hb.
Qed.

(** *** The channel-imbalance rule *)

Lemma imbalanced_channelTags c block :
  channelImbalance (channelTags c (preorder block)) <-> imbalanced c block.
Proof.
  unfold channelImbalance, imbalanced, sendsOn, receivesOn.
  destruct (tallyCount_channelTags c (preorder block)) as [-> ->]. cbv zeta.
  reflexivity.
Qed.

(** The channel patterns of the block itself. *)
Lemma own_channel_patterns {go : Platform} block p :
  In p (services.channelImbalancePatterns (services.channelOps (blockingWalk block)))
  <-> exists c, imbalanced c block
                /\ p = services.channelPattern c (channelTags c (preorder block)).
Proof.
  rewrite channelImbalancePatterns_In. split.
  - intros (c & ops & Hops & Himb & ->). rewrite blockingWalk_channelOps in Hops.
    exists c. destruct (channelTags c (preorder block)) as [|t tl] eqn:E;
      [discriminate Hops|].
    injection Hops as <-. split; [|reflexivity].
    apply imbalanced_channelTags. rewrite E. exact Himb.
  - intros (c & Himb & ->). apply imbalanced_channelTags in Himb.
    exists c, (channelTags c (preorder block)). split; [|split; [exact Himb|reflexivity]].
    rewrite blockingWalk_channelOps.
    destruct (channelTags c (preorder block)) as [|t tl] eqn:E; [|reflexivity].
    destruct Himb as [Htotal _]. cbv zeta in Htotal.
    pose proof (eq_refl : tallyCount "send" [] = 0) as E1.
    pose proof (eq_refl : tallyCount "receive" [] = 0) as E2. lia.
Qed.

(** An imbalanced channel of a tallied block is reported. *)
Lemma imbalanced_channel_reported {go : Platform} body block c :
  talliedBlock body block -> imbalanced c block ->
  In (services.channelPattern c (channelTags c (preorder block)))
     (services.analyzeBlockingPatterns body).
Proof.
  assert (Hown : forall b, imbalanced c b ->
                   In (services.channelPattern c (channelTags c (preorder b)))
                      (services.analyzeBlockingPatterns b)).
  { intros b Himb. rewrite analyzeBlockingPatterns_unfold. fold (blockingWalk b).
    unfold services.tallyPatterns. apply in_or_app. right. apply in_or_app. left.
    apply own_channel_patterns. exists c. split; [exact Himb|reflexivity]. }
  intros [->|(x & Hx & Hb)] Himb; [apply Hown, Himb|].
  apply (spawned_patterns_reported body x block); [exact Hx|exact Hb|].
  apply Hown, Himb.
Qed.

(** Every pattern is the pattern of a blocking select, a deadlock pattern
    or the pattern of an imbalanced channel of a tallied block. *)
Lemma analyzeBlockingPatterns_inv {go : Platform} body : forall p,
  In p (services.analyzeBlockingPatterns body) ->
  p = services.selectPattern
  \/ services.cause p = services.BlockingCauseDeadlock
  \/ exists c block,
       talliedBlock body block /\ imbalanced c block
       /\ p = services.channelPattern c (channelTags c (preorder block)).
Proof.
  induction body as [body IH] using node_descendants_ind. intros p Hp.
  rewrite analyzeBlockingPatterns_unfold in Hp. unfold services.tallyPatterns in Hp.
  apply in_app_or in Hp. destruct Hp as [Hp|Hp]; [|apply in_app_or in Hp; destruct Hp as [Hp|Hp]].
  - rewrite Inspect_preorder in Hp. apply fold_blockingVisit_patterns_inv in Hp.
    destruct Hp as [[]|[Hp|(x & b & Hx & Hb & Hp)]]; [left; exact Hp|].
    apply IH in Hp.
    + destruct Hp as [Hp|[Hp|(c & block & Ht & Himb & Hp)]];
        [left; exact Hp|right; left; exact Hp|].
      right. right. exists c, block. split; [|split; assumption].
      apply (talliedBlock_spawn body x b); assumption.
    + apply (below_trans body x); [exact Hx|]. apply inlineBody_below, Hb.
  - fold (blockingWalk body) in Hp. apply own_channel_patterns in Hp.
    destruct Hp as (c & Himb & ->). right. right. exists c, body.
    split; [left; reflexivity|]. split; [exact Himb|reflexivity].
  - right. left.
    pose proof (mutexImbalancePatterns_cause
                  (services.mutexOps
                     (Inspect (services.blockingVisit services.analyzeBlockingPatterns) body
                        (services.mkBlockingState [] ∅ ∅)))) as Hall.
    rewrite List.Forall_forall in Hall. apply Hall, Hp.
Qed.

Lemma prefix_append a s t :
  String.prefix s t = true -> String.prefix (a +:+ s) (a +:+ t) = true.
Proof.
  intros Hst. induction a as [|c a IH]; [exact Hst|]. simpl.
  destruct (ascii_dec c c); [exact IH|contradiction].
Qed.

Lemma prefix_refl s : String.prefix s s = true.
Proof.
  induction s as [|c s IH]; [reflexivity|]. simpl.
  destruct (ascii_dec c c); [exact IH|contradiction].
Qed.

Lemma strings_Contains_prefix s sub :
  String.prefix sub s = true -> strings_Contains s sub = true.
Proof. intros Hp. destruct s; cbn [strings_Contains]; rewrite Hp; reflexivity. Qed.

(** The finding of a channel pattern names the channel and lists its
    tally. *)
Lemma channel_finding_fields filepath_Clean pos name c ops :
  let finding :=
    services.blockingFinding filepath_Clean pos name (services.channelPattern c ops) in
  entities.findingType finding = entities.FindingTypeBug
  /\ entities.severity finding = valueobjects.SeverityWarning
  /\ strings_Contains (entities.message finding) "channel misuse" = true
  /\ strings_Contains (entities.message finding)
       ("channel '" +:+ c +:+ "' operations may cause blocking: " +:+ fmt_v ops) = true.
Proof.
  cbv zeta. rewrite blockingFinding_fields.
  cbn [entities.findingType entities.severity entities.message services.cause
       services.channelPattern services.description].
  split; [reflexivity|]. split; [reflexivity|]. split.
  - do 2 apply strings_Contains_app_r. reflexivity.
  - do 3 apply strings_Contains_app_r.
    apply strings_Contains_prefix, prefix_refl.
Qed.

(** C6, as the code has it.  The rule tallies the send statements and the
    receive expressions on an identifier below the function body and, once
    more, below the body of every function literal spawned inline in it.  A
    channel identifier is flagged exactly when, for one of these blocks, the
    operations on it below the block number at least 2 and one direction
    exceeds twice the other; there is a finding for each such block.  The
    finding is a Bug finding of Warning severity that reads "channel
    misuse", names the channel and lists the tally.  Every other finding of
    the function is the finding of a blocking select or a deadlock finding.
    For a body without inline spawn the only tallied block is the body.  A
    function with fifteen sends and one receive on one channel, and nothing
    else, gets exactly one finding, of that kind. *)
Theorem C6_channel_imbalance_rule {go : Platform} (filepath_Clean : string -> string)
    (pos : Position) (recv : list node) (name ty body : node) :
  let findings :=
    services.analyzeFunctionConcurrency filepath_Clean
      (FuncDecl pos recv name ty (Some body)) in
  let flag c block :=
    services.blockingFinding filepath_Clean pos name
      (services.channelPattern c (channelTags c (preorder block))) in
  (forall c block,
      talliedBlock body block -> imbalanced c block -> In (flag c block) findings)
  /\ (forall finding,
         In finding findings ->
         finding = services.blockingFinding filepath_Clean pos name services.selectPattern
         \/ entities.severity finding = valueobjects.SeverityCritical
         \/ exists c block,
              talliedBlock body block /\ imbalanced c block /\ finding = flag c block)
  /\ (forall c block,
         entities.findingType (flag c block) = entities.FindingTypeBug
         /\ entities.severity (flag c block) = valueobjects.SeverityWarning
         /\ strings_Contains (entities.message (flag c block)) "channel misuse" = true
         /\ strings_Contains (entities.message (flag c block))
              ("channel '" +:+ c +:+ "' operations may cause blocking: "
               +:+ fmt_v (channelTags c (preorder block))) = true
         /\ tallyCount "send" (channelTags c (preorder block)) = sendsOn c block
         /\ tallyCount "receive" (channelTags c (preorder block)) = receivesOn c block)
  /\ (noInlineSpawn body = true ->
      forall block, talliedBlock body block <-> block = body)
  /\ (forall pkg fpos fname ch,
         exists finding,
           fst (services.DetectBugs filepath_Clean (fifteenSends pkg fpos fname ch))
           = [finding]
           /\ entities.findingType finding = entities.FindingTypeBug
           /\ entities.severity finding = valueobjects.SeverityWarning
           /\ strings_Contains (entities.message finding) "channel misuse" = true
           /\ strings_Contains (entities.message finding)
                ("channel '" +:+ ch +:+ "'") = true).
Proof.
  cbv zeta. rewrite analyzeFunctionConcurrency_map.
  split; [|split; [|split; [|split]]].
  - intros c block Ht Himb. apply in_map.
    apply (imbalanced_channel_reported body block c); assumption.
  - intros finding Hin. apply in_map_iff in Hin. destruct Hin as (p & <- & Hp).
    apply analyzeBlockingPatterns_inv in Hp.
    destruct Hp as [->|[Hp|(c & block & Ht & Himb & ->)]].
    + left. reflexivity.
    + right. left. rewrite blockingFinding_fields. cbn [entities.severity].
      rewrite Hp. reflexivity.
    + right. right. exists c, block. split; [exact Ht|]. split; [exact Himb|reflexivity].
  - intros c block.
    destruct (channel_finding_fields filepath_Clean pos name c
                (channelTags c (preorder block))) as (H1 & H2 & H3 & H4).
    destruct (tallyCount_channelTags c (preorder block)) as [H5 H6].
    repeat split; assumption.
  - intros Hspawn block. unfold noInlineSpawn in Hspawn. rewrite forallb_forall in Hspawn.
    split; [|intros ->; left; reflexivity].
    intros [->|(x & Hx & Hb)]; [reflexivity|].
    specialize (Hspawn x Hx). rewrite Hb in Hspawn. discriminate Hspawn.
  - intros pkg fpos fname ch. eexists. split; [apply fifteenSends_findings|].
    destruct (channel_finding_fields filepath_Clean fpos (Ident fname) ch
                ["send"; "send"; "send"; "send"; "send"; "send"; "send"; "send"; "send";
                 "send"; "send"; "send"; "send"; "send"; "send"; "receive"])
      as (H1 & H2 & H3 & H4).
    split; [exact H1|]. split; [exact H2|]. split; [exact H3|].
    rewrite blockingFinding_fields.
    cbn [entities.message services.cause services.channelPattern services.description].
    do 3 apply strings_Contains_app_r.
    apply strings_Contains_prefix. do 2 apply prefix_append. reflexivity.
Qed.

(** C6 fails as stated: in
    [func test() { go func() { ch <- 1; ch <- 2; ch <- 3 }(); <-ch; <-ch }]
    the function holds three sends and two receives on [ch], which is no
    imbalance, and [ch] is flagged all the same, for the three sends of the
    spawned function literal. *)
Lemma C6_spawned_sends_flag_balanced_channel :
  sendsOn "ch" spawnedSendsBody = 3
  /\ receivesOn "ch" spawnedSendsBody = 2
  /\ ~ imbalanced "ch" spawnedSendsBody
  /\ ~ channelImbalance (channelTags "ch" (preorder spawnedSendsBody))
  /\ exists finding,
       fst (services.DetectBugs (fun path => path) spawnedSends) = [finding]
       /\ entities.findingType finding = entities.FindingTypeBug
       /\ entities.severity finding = valueobjects.SeverityWarning
       /\ entities.message finding
          = "Potential blocking bug in test: channel misuse detected - channel 'ch' operations may cause blocking: [send send send]".
Proof.
  split; [reflexivity|]. split; [reflexivity|].
  split; [unfold imbalanced; change (sendsOn "ch" spawnedSendsBody) with 3;
          change (receivesOn "ch" spawnedSendsBody) with 2; lia|].
  split; [unfold channelImbalance;
          change (tallyCount "send" (channelTags "ch" (preorder spawnedSendsBody))) with 3;
          change (tallyCount "receive" (channelTags "ch" (preorder spawnedSendsBody)))
            with 2; cbv zeta; lia|].
  eexists. split; [vm_compute; reflexivity|]. repeat split; reflexivity.
Qed.

(** *** The lock-imbalance rule *)

Lemma appendOp_other m (mo : gmap string (list string)) k op :
  k <> m -> services.appendOp mo k op !! m = mo !! m.
Proof.
  intros Hne. rewrite lookup_appendOp. destruct (decide (k = m)); [contradiction|reflexivity].
Qed.

Lemma appendOp_lock_of m mo :
  locksOnlyOf m mo ->
  locksOnlyOf m (services.appendOp mo m "lock")
  /\ lockCount m (services.appendOp mo m "lock") = S (lockCount m mo).
Proof.
  intros HJ. split.
  - intros ops. rewrite lookup_appendOp. destruct (decide (m = m)); [|contradiction].
    intros [= <-]. apply Forall_app. split.
    + destruct (mo !! m) as [ops|] eqn:E; simpl; [apply (HJ _ E)|constructor].
    + constructor; [reflexivity|constructor].
  - unfold lockCount. rewrite lookup_appendOp.
    destruct (decide (m = m)); [|contradiction]. simpl.
    rewrite length_app. simpl. lia.
Qed.

(** The update both tallying places of [analyzeCallForBlocking] make for a
    selector [id.sel] that is no unlock operation on [m]. *)
Lemma tally_update m mo id sel :
  isUnlockSelector m (SelectorExpr (Ident id) sel) = false ->
  locksOnlyOf m mo ->
  let mo' :=
    if String.eqb (NameOf sel) "Lock" || String.eqb (NameOf sel) "RLock"
    then services.appendOp mo id "lock"
    else if String.eqb (NameOf sel) "Unlock" || String.eqb (NameOf sel) "RUnlock"
         then services.appendOp mo id "unlock"
         else mo in
  locksOnlyOf m mo' /\ (lockCount m mo <= lockCount m mo')%nat
  /\ (id = m -> isLockName (NameOf sel) = true -> lockCount m mo' = S (lockCount m mo)).
Proof.
  intros Hun HJ.
  change (String.eqb (NameOf sel) "Lock" || String.eqb (NameOf sel) "RLock")
    with (isLockName (NameOf sel)).
  change (String.eqb (NameOf sel) "Unlock" || String.eqb (NameOf sel) "RUnlock")
    with (isUnlockName (NameOf sel)).
  cbn [isUnlockSelector] in Hun. cbv zeta.
  destruct (String.eqb_spec id m) as [->|Hne].
  - cbn [andb] in Hun. rewrite Hun.
    destruct (isLockName (NameOf sel)).
    + destruct (appendOp_lock_of m mo HJ) as [H1 H2]. rewrite H2.
      split; [exact H1|]. split; [lia|reflexivity].
    + split; [exact HJ|]. split; [lia|discriminate].
  - set (mo' := if isLockName (NameOf sel) then _ else _).
    assert (E : mo' !! m = mo !! m).
    { subst mo'. destruct (isLockName (NameOf sel)); [apply appendOp_other, Hne|].
      destruct (isUnlockName (NameOf sel)); [apply appendOp_other, Hne|reflexivity]. }
    unfold locksOnlyOf, lockCount. rewrite E.
    split; [exact HJ|]. split; [lia|]. intros Hm. contradiction.
Qed.

(** The same update for a selector that is no lock or unlock operation on
    [m] leaves the tally of [m] as it is. *)
Lemma tally_update_quiet m (mo : gmap string (list string)) id sel :
  isLockSelector m (SelectorExpr (Ident id) sel) = false ->
  isUnlockSelector m (SelectorExpr (Ident id) sel) = false ->
  (if String.eqb (NameOf sel) "Lock" || String.eqb (NameOf sel) "RLock"
   then services.appendOp mo id "lock"
   else if String.eqb (NameOf sel) "Unlock" || String.eqb (NameOf sel) "RUnlock"
        then services.appendOp mo id "unlock"
        else mo) !! m = mo !! m.
Proof.
  change (String.eqb (NameOf sel) "Lock" || String.eqb (NameOf sel) "RLock")
    with (isLockName (NameOf sel)).
  change (String.eqb (NameOf sel) "Unlock" || String.eqb (NameOf sel) "RUnlock")
    with (isUnlockName (NameOf sel)).
  cbn [isLockSelector isUnlockSelector]. intros Hlock Hun.
  destruct (String.eqb_spec id m) as [->|Hne].
  - cbn [andb] in Hlock, Hun. rewrite Hlock, Hun. reflexivity.
  - destruct (isLockName (NameOf sel)); [apply appendOp_other, Hne|].
    destruct (isUnlockName (NameOf sel)); [apply appendOp_other, Hne|reflexivity].
Qed.

Lemma nestedMutexVisit_of m x mo :
  isUnlockSelector m x = false -> locksOnlyOf m mo ->
  locksOnlyOf m (services.nestedMutexVisit x mo)
  /\ (lockCount m mo <= lockCount m (services.nestedMutexVisit x mo))%nat.
Proof.
  intros Hun HJ.
  assert (Hsame : locksOnlyOf m mo /\ (lockCount m mo <= lockCount m mo)%nat)
    by (split; [exact HJ|lia]).
  unfold services.nestedMutexVisit. case_node x Hsame.
  match goal with
  | |- context [mo !! ?id] => destruct (mo !! id) eqn:E; [|exact Hsame]
  end.
  match goal with
  | |- context [services.appendOp mo ?id "lock"] =>
      match goal with
      | |- context [NameOf ?sel] =>
          destruct (tally_update m mo id sel Hun HJ) as (H1 & H2 & _);
          split; assumption
      end
  end.
Qed.

Lemma nestedMutexVisit_quiet m x (mo : gmap string (list string)) :
  isLockSelector m x = false -> isUnlockSelector m x = false ->
  services.nestedMutexVisit x mo !! m = mo !! m.
Proof.
  intros Hlock Hun.
  assert (Hsame : mo !! m = mo !! m) by reflexivity.
  unfold services.nestedMutexVisit. case_node x Hsame.
  match goal with
  | |- context [mo !! ?id] => destruct (mo !! id) eqn:E; [|exact Hsame]
  end.
  apply tally_update_quiet; assumption.
Qed.

Lemma fold_nestedMutexVisit_of m l : forall mo,
  (forall x, In x l -> isUnlockSelector m x = false) -> locksOnlyOf m mo ->
  locksOnlyOf m (fold_left (fun s x => services.nestedMutexVisit x s) l mo)
  /\ (lockCount m mo
      <= lockCount m (fold_left (fun s x => services.nestedMutexVisit x s) l mo))%nat.
Proof.
  induction l as [|x l IH]; intros mo Hun HJ; simpl; [split; [exact HJ|lia]|].
  destruct (nestedMutexVisit_of m x mo (Hun x (or_introl eq_refl)) HJ) as [H1 H2].
  destruct (IH (services.nestedMutexVisit x mo)) as [H3 H4]; [|exact H1|].
  { intros y Hy. apply Hun. right. exact Hy. }
  split; [exact H3|lia].
Qed.

Lemma fold_nestedMutexVisit_quiet m l : forall mo : gmap string (list string),
  (forall x, In x l -> isLockSelector m x = false /\ isUnlockSelector m x = false) ->
  fold_left (fun s x => services.nestedMutexVisit x s) l mo !! m = mo !! m.
Proof.
  induction l as [|x l IH]; intros mo Hq; simpl; [reflexivity|].
  rewrite IH by (intros y Hy; apply Hq; right; exact Hy).
  destruct (Hq x (or_introl eq_refl)) as [Hlock Hun].
  apply nestedMutexVisit_quiet; assumption.
Qed.

Lemma callee_in_preorder x sel args :
  In (SelectorExpr x sel) (preorder (CallExpr (SelectorExpr x sel) args)).
Proof. simpl. right. left. reflexivity. Qed.

Lemma directMutexTally_of m call mo :
  (forall x, In x (preorder call) -> isUnlockSelector m x = false) -> locksOnlyOf m mo ->
  locksOnlyOf m (services.directMutexTally call mo)
  /\ (lockCount m mo <= lockCount m (services.directMutexTally call mo))%nat.
Proof.
  intros Hun HJ.
  assert (Hsame : locksOnlyOf m mo /\ (lockCount m mo <= lockCount m mo)%nat)
    by (split; [exact HJ|lia]).
  unfold services.directMutexTally. case_node call Hsame.
  match goal with
  | |- context [services.appendOp mo ?id "lock"] =>
      match goal with
      | |- context [NameOf ?sel] =>
          destruct (tally_update m mo id sel) as (H1 & H2 & _);
          [apply Hun, callee_in_preorder | exact HJ | split; assumption]
      end
  end.
Qed.

Lemma directMutexTally_quiet m call (mo : gmap string (list string)) :
  (forall x, In x (preorder call) ->
     isLockSelector m x = false /\ isUnlockSelector m x = false) ->
  services.directMutexTally call mo !! m = mo !! m.
Proof.
  intros Hq.
  assert (Hsame : mo !! m = mo !! m) by reflexivity.
  unfold services.directMutexTally. case_node call Hsame.
  match goal with
  | |- context [services.appendOp mo ?id "lock"] =>
      match goal with
      | |- context [NameOf ?sel] =>
          destruct (Hq (SelectorExpr (Ident id) sel)) as [Hlock Hun];
          [apply callee_in_preorder | apply tally_update_quiet; assumption]
      end
  end.
Qed.

Lemma analyzeCallForBlocking_of m call mo :
  (forall x, In x (preorder call) -> isUnlockSelector m x = false) -> locksOnlyOf m mo ->
  locksOnlyOf m (services.analyzeCallForBlocking call mo)
  /\ (lockCount m mo <= lockCount m (services.analyzeCallForBlocking call mo))%nat.
Proof.
  intros Hun HJ. rewrite analyzeCallForBlocking_split.
  destruct (directMutexTally_of m call mo Hun HJ) as [H1 H2].
  destruct (fold_nestedMutexVisit_of m (preorder call) _ Hun H1) as [H3 H4].
  split; [exact H3|lia].
Qed.

Lemma analyzeCallForBlocking_quiet m call (mo : gmap string (list string)) :
  (forall x, In x (preorder call) ->
     isLockSelector m x = false /\ isUnlockSelector m x = false) ->
  services.analyzeCallForBlocking call mo !! m = mo !! m.
Proof.
  intros Hq. rewrite analyzeCallForBlocking_split.
  rewrite fold_nestedMutexVisit_quiet by exact Hq.
  apply directMutexTally_quiet, Hq.
Qed.

(** A call [m.Lock()] is tallied twice: by the first statement and, the
    tally of [m] existing from then on, by the nested walk when it meets the
    selector of the call. *)
Lemma analyzeCallForBlocking_lock_of m sel args mo :
  isLockName (NameOf sel) = true ->
  (forall x, In x (preorder (CallExpr (SelectorExpr (Ident m) sel) args)) ->
     isUnlockSelector m x = false) ->
  locksOnlyOf m mo ->
  (2 <= lockCount m (services.analyzeCallForBlocking
                       (CallExpr (SelectorExpr (Ident m) sel) args) mo))%nat.
Proof.
  intros Hlock Hun HJ. rewrite analyzeCallForBlocking_split.
  pose proof (Hun _ (callee_in_preorder (Ident m) sel args)) as Hs.
  destruct (tally_update m mo m sel Hs HJ) as (H1 & _ & H3).
  specialize (H3 eq_refl Hlock).
  cbn [services.directMutexTally preorder fold_left app].
  set (mo1 := if String.eqb (NameOf sel) "Lock" || String.eqb (NameOf sel) "RLock"
              then services.appendOp mo m "lock"
              else if String.eqb (NameOf sel) "Unlock" || String.eqb (NameOf sel) "RUnlock"
                   then services.appendOp mo m "unlock" else mo) in *.
  cbn [services.nestedMutexVisit].
  assert (Hsome : exists ops, mo1 !! m = Some ops).
  { unfold lockCount in H3. destruct (mo1 !! m) as [ops|]; [eauto|discriminate]. }
  destruct Hsome as [ops Hops]. rewrite Hops.
  destruct (tally_update m mo1 m sel Hs H1) as (H4 & _ & H6).
  specialize (H6 eq_refl Hlock).
  match goal with
  | |- (2 <= lockCount m (fold_left _ ?l ?mo2))%nat =>
      destruct (fold_nestedMutexVisit_of m l mo2) as [_ H7]
  end.
  - intros y Hy. apply Hun. simpl. right. right. right. exact Hy.
  - exact H4.
  - lia.
Qed.

(** One visit of the walk of a block where [m] is never unlocked. *)
Lemma blockingVisit_unlocked {go : Platform} m recur x st :
  (forall y, In y (preorder x) -> isUnlockSelector m y = false) ->
  (forall body, inlineBody x = Some body -> Forall (notAbout m) (recur body)) ->
  Forall (notAbout m) (services.patterns st) ->
  locksOnlyOf m (services.mutexOps st) ->
  Forall (notAbout m) (services.patterns (services.blockingVisit recur x st))
  /\ locksOnlyOf m (services.mutexOps (services.blockingVisit recur x st))
  /\ (lockCount m (services.mutexOps st)
      <= lockCount m (services.mutexOps (services.blockingVisit recur x st)))%nat.
Proof.
  intros Hun Hrec HP HJ.
  assert (Hsame : Forall (notAbout m) (services.patterns st)
                  /\ locksOnlyOf m (services.mutexOps st)
                  /\ (lockCount m (services.mutexOps st)
                      <= lockCount m (services.mutexOps st))%nat)
    by (split; [exact HP|split; [exact HJ|lia]]).
  unfold services.blockingVisit. case_node x Hsame;
    try (cbn [services.patterns services.mutexOps]; exact Hsame);
    lazymatch goal with
    | |- context [services.analyzeCallForBlocking ?call _] =>
        destruct (analyzeCallForBlocking_of m call (services.mutexOps st) Hun HJ)
          as [H1 H2];
        cbn [services.patterns services.mutexOps];
        split; [exact HP|split; [exact H1|exact H2]]
    | |- context [services.isPotentiallyBlockingSelect ?s] =>
        destruct (services.isPotentiallyBlockingSelect s); [|exact Hsame];
        cbn [services.patterns services.mutexOps];
        split; [|split; [exact HJ|lia]];
        apply Forall_app; split; [exact HP|];
        constructor; [left; reflexivity|constructor]
    | |- _ =>
        cbn [services.patterns services.mutexOps];
        split; [|split; [exact HJ|lia]];
        apply Forall_app; split; [exact HP|];
        apply Hrec; reflexivity
    end.
Qed.

Lemma blockingVisit_locked {go : Platform} m recur x st :
  isLockCall m x = true ->
  (forall y, In y (preorder x) -> isUnlockSelector m y = false) ->
  locksOnlyOf m (services.mutexOps st) ->
  (2 <= lockCount m (services.mutexOps (services.blockingVisit recur x st)))%nat.
Proof.
  intros Hcall Hun HJ.
  apply isLockCall_inv in Hcall. destruct Hcall as (sel & args & -> & Hlock).
  cbn [services.blockingVisit services.mutexOps].
  apply analyzeCallForBlocking_lock_of; assumption.
Qed.

Lemma fold_blockingVisit_unlocked {go : Platform} m recur l : forall st,
  (forall x, In x l -> forall y, In y (preorder x) -> isUnlockSelector m y = false) ->
  (forall x body, In x l -> inlineBody x = Some body -> Forall (notAbout m) (recur body)) ->
  Forall (notAbout m) (services.patterns st) ->
  locksOnlyOf m (services.mutexOps st) ->
  let st' := fold_left (fun s x => services.blockingVisit recur x s) l st in
  Forall (notAbout m) (services.patterns st')
  /\ locksOnlyOf m (services.mutexOps st')
  /\ (lockCount m (services.mutexOps st) <= lockCount m (services.mutexOps st'))%nat
  /\ (existsb (isLockCall m) l = true -> (2 <= lockCount m (services.mutexOps st'))%nat).
Proof.
  induction l as [|x l IH]; intros st Hun Hrec HP HJ; simpl.
  - split; [exact HP|]. split; [exact HJ|]. split; [lia|discriminate].
  - destruct (blockingVisit_unlocked m recur x st) as (H1 & H2 & H3);
      [apply Hun; left; reflexivity
      |intros body; apply Hrec; left; reflexivity|exact HP|exact HJ|].
    destruct (IH (services.blockingVisit recur x st)) as (H4 & H5 & H6 & H7);
      [intros y Hy; apply Hun; right; exact Hy
      |intros y body Hy; apply Hrec; right; exact Hy|exact H1|exact H2|].
    split; [exact H4|]. split; [exact H5|]. split; [lia|].
    intros Hex. apply orb_true_iff in Hex. destruct Hex as [Hx|Hl].
    + pose proof (blockingVisit_locked m recur x st Hx
                    (Hun x (or_introl eq_refl)) HJ). lia.
    + apply H7, Hl.
Qed.

(** One visit of the walk at a node below which [m] is neither locked nor
    unlocked leaves the tally of [m] as it is. *)
Lemma blockingVisit_untouched {go : Platform} m recur x st :
  (forall y, In y (preorder x) ->
     isLockSelector m y = false /\ isUnlockSelector m y = false) ->
  services.mutexOps (services.blockingVisit recur x st) !! m = services.mutexOps st !! m.
Proof.
  intros Hq.
  assert (Hsame : services.mutexOps st !! m = services.mutexOps st !! m) by reflexivity.
  unfold services.blockingVisit. case_node x Hsame;
    try (cbn [services.mutexOps]; exact Hsame).
  - cbn [services.mutexOps]. apply analyzeCallForBlocking_quiet, Hq.
  - match goal with |- context [if ?b then _ else _] => destruct b; exact Hsame end.
Qed.

Lemma fold_blockingVisit_untouched {go : Platform} m recur l : forall st,
  (forall x, In x l -> forall y, In y (preorder x) ->
     isLockSelector m y = false /\ isUnlockSelector m y = false) ->
  services.mutexOps (fold_left (fun s x => services.blockingVisit recur x s) l st) !! m
  = services.mutexOps st !! m.
Proof.
  induction l as [|x l IH]; intros st Hq; simpl; [reflexivity|].
  rewrite IH by (intros y Hy; apply Hq; right; exact Hy).
  apply blockingVisit_untouched, Hq. left. reflexivity.
Qed.

Lemma mutexImbalancePatterns_In (mo : gmap string (list string)) p :
  In p (services.mutexImbalancePatterns mo) ->
  exists name ops, mo !! name = Some ops /\ services.hasPotentialDeadlock ops = true
                   /\ p = services.mutexPattern name ops.
Proof.
  unfold services.mutexImbalancePatterns. rewrite in_flat_map.
  intros [[name ops] [Hin Hp]].
  apply list_elem_of_In, elem_of_map_to_list in Hin.
  destruct (services.hasPotentialDeadlock ops) eqn:E; [|contradiction].
  destruct Hp as [<-|[]]. exists name, ops. repeat split; assumption.
Qed.

(** A block that neither locks nor unlocks [m] yields no deadlock pattern
    for [m]. *)
Lemma untouched_block_notAbout {go : Platform} m block :
  (forall y, In y (preorder block) ->
     isLockSelector m y = false /\ isUnlockSelector m y = false) ->
  Forall (notAbout m) (services.analyzeBlockingPatterns block).
Proof.
  induction block as [block IH] using node_descendants_ind. intros Hq.
  rewrite analyzeBlockingPatterns_unfold, Inspect_preorder.
  assert (Hnodes : forall x, In x (preorder block) -> forall y, In y (preorder x) ->
                     isLockSelector m y = false /\ isUnlockSelector m y = false).
  { intros x Hx y Hy. apply Hq. exact (preorder_incl block x Hx y Hy). }
  destruct (fold_blockingVisit_unlocked m services.analyzeBlockingPatterns (preorder block)
              (services.mkBlockingState [] ∅ ∅)) as (HP & _ & _ & _).
  { intros x Hx y Hy. apply (Hnodes x Hx y Hy). }
  { intros x body Hx Hbody.
    assert (Hbelow : In body (flat_map preorder (children block))).
    { apply (below_trans block x); [exact Hx|]. apply inlineBody_below, Hbody. }
    apply IH; [exact Hbelow|].
    intros y Hy. apply Hq. rewrite preorder_children. right.
    apply in_flat_map in Hbelow. destruct Hbelow as (c & Hc & Hb).
    apply in_flat_map. exists c. split; [exact Hc|].
    exact (preorder_incl c body Hb y Hy). }
  { constructor. }
  { intros ops. cbn [services.mutexOps]. rewrite lookup_empty. discriminate. }
  pose proof (fold_blockingVisit_untouched m services.analyzeBlockingPatterns
                (preorder block) (services.mkBlockingState [] ∅ ∅) Hnodes) as Hnone.
  change (services.mutexOps (services.mkBlockingState [] ∅ ∅))
    with (∅ : gmap string (list string)) in Hnone.
  rewrite lookup_empty in Hnone.
  unfold services.tallyPatterns. apply Forall_app. split; [exact HP|].
  apply Forall_app. split.
  - eapply Forall_impl; [|apply channelImbalancePatterns_cause].
    intros p Hp. left. exact Hp.
  - apply List.Forall_forall. intros p Hp. apply mutexImbalancePatterns_In in Hp.
    destruct Hp as (k & ops & Hk & _ & ->). right. exists k, ops.
    split; [|reflexivity]. intros ->. rewrite Hnone in Hk. discriminate Hk.
Qed.

(** The deadlock pattern of an imbalanced identifier stands once among the
    patterns of the lock tally; the others are those of other identifiers. *)
Lemma mutexImbalancePatterns_split m (mo : gmap string (list string)) ops :
  mo !! m = Some ops -> services.hasPotentialDeadlock ops = true ->
  exists before after,
    services.mutexImbalancePatterns mo = before ++ [services.mutexPattern m ops] ++ after
    /\ Forall (notAbout m) (before ++ after).
Proof.
  intros Hm Hdead.
  assert (Hin : In (m, ops) (map_to_list mo))
    by (apply list_elem_of_In, elem_of_map_to_list; exact Hm).
  pose proof (NoDup_fst_map_to_list mo) as Hnd.
  unfold services.mutexImbalancePatterns.
  apply in_split in Hin. destruct Hin as (l1 & l2 & E). rewrite E in Hnd |- *.
  set (f := fun '(mutexName, ops0) =>
              if services.hasPotentialDeadlock ops0
              then [services.mutexPattern mutexName ops0] else []).
  exists (flat_map f l1), (flat_map f l2). split.
  - rewrite flat_map_app. cbn [flat_map]. unfold f at 2. rewrite Hdead. reflexivity.
  - rewrite fmap_app, fmap_cons in Hnd. cbn [fst] in Hnd.
    apply list.NoDup_app in Hnd. destruct Hnd as (_ & Hd1 & Hd2).
    apply list.NoDup_cons in Hd2. destruct Hd2 as [Hd2 _].
    rewrite <- flat_map_app. apply List.Forall_forall. intros p Hp.
    apply in_flat_map in Hp. destruct Hp as ([k o] & Hk & Hp). unfold f in Hp.
    destruct (services.hasPotentialDeadlock o); [|contradiction].
    destruct Hp as [<-|[]]. right. exists k, o. split; [|reflexivity].
    intros ->. apply in_app_or in Hk. destruct Hk as [Hk|Hk].
    + apply (Hd1 m).
      * apply list_elem_of_fmap. exists (m, o). split; [reflexivity|].
        apply list_elem_of_In. exact Hk.
      * apply list_elem_of_In. left. reflexivity.
    + apply Hd2. apply list_elem_of_fmap. exists (m, o). split; [reflexivity|].
      apply list_elem_of_In. exact Hk.
Qed.

Lemma noUnlockOn_spec m n :
  noUnlockOn m n = true -> forall y, In y (preorder n) -> isUnlockSelector m y = false.
Proof.
  unfold noUnlockOn. rewrite forallb_forall. intros H y Hy.
  specialize (H y Hy). apply negb_true_iff in H. exact H.
Qed.

Lemma noLockInSpawn_spec m n :
  noLockInSpawn m n = true ->
  forall x body, In x (preorder n) -> inlineBody x = Some body ->
  forall y, In y (preorder body) -> isLockSelector m y = false.
Proof.
  unfold noLockInSpawn. rewrite forallb_forall. intros H x body Hx Hbody y Hy.
  specialize (H x Hx). rewrite Hbody in H. rewrite forallb_forall in H.
  specialize (H y Hy). apply negb_true_iff in H. exact H.
Qed.

(** The patterns of a body that calls [m.Lock()], never unlocks [m] and
    does not lock [m] inside a spawned function literal: one deadlock
    pattern for [m], among patterns that are not about [m]. *)
Lemma analyzeBlockingPatterns_one_deadlock {go : Platform} m body :
  callsLock m body = true ->
  noUnlockOn m body = true ->
  noLockInSpawn m body = true ->
  exists before after ops,
    services.analyzeBlockingPatterns body
    = before ++ [services.mutexPattern m ops] ++ after
    /\ Forall (fun op => op = "lock") ops
    /\ (2 <= length ops)%nat
    /\ Forall (notAbout m) (before ++ after).
Proof.
  intros Hcall Hun Hspawn.
  pose proof (noUnlockOn_spec m body Hun) as Hunlock.
  pose proof (noLockInSpawn_spec m body Hspawn) as Hlock.
  rewrite analyzeBlockingPatterns_unfold, Inspect_preorder.
  destruct (fold_blockingVisit_unlocked m services.analyzeBlockingPatterns (preorder body)
              (services.mkBlockingState [] ∅ ∅)) as (HP & HJ & _ & Hc).
  { intros x Hx y Hy. apply Hunlock. exact (preorder_incl body x Hx y Hy). }
  { intros x b Hx Hb. apply untouched_block_notAbout. intros y Hy.
    split; [exact (Hlock x b Hx Hb y Hy)|].
    apply Hunlock. apply (preorder_incl body b); [|exact Hy].
    apply (preorder_incl body x Hx). rewrite preorder_children. right.
    apply inlineBody_below, Hb. }
  { constructor. }
  { intros ops. cbn [services.mutexOps]. rewrite lookup_empty. discriminate. }
  specialize (Hc Hcall). cbv zeta in HP, HJ, Hc.
  set (st := fold_left _ _ _) in *.
  unfold lockCount in Hc.
  destruct (services.mutexOps st !! m) as [ops|] eqn:E; [|simpl in Hc; lia].
  cbn [default] in Hc. unfold id in Hc.
  pose proof (HJ ops E) as Hall.
  destruct (mutexImbalancePatterns_split m (services.mutexOps st) ops E
              (hasPotentialDeadlock_locks ops Hall Hc)) as (b1 & b2 & Hsplit & Hothers).
  exists (services.patterns st
          ++ services.channelImbalancePatterns (services.channelOps st) ++ b1), b2, ops.
  split; [|split; [exact Hall|split; [exact Hc|]]].
  - unfold services.tallyPatterns. rewrite Hsplit, <- !app_assoc. reflexivity.
  - apply Forall_app in Hothers. destruct Hothers as [Hb1 Hb2].
    rewrite <- !app_assoc. apply Forall_app. split; [exact HP|].
    apply Forall_app. split.
    + eapply Forall_impl; [|apply channelImbalancePatterns_cause].
      intros p Hp. left. exact Hp.
    + apply Forall_app. split; assumption.
Qed.

Lemma notAbout_finding filepath_Clean pos name m p :
  notAbout m p ->
  findingNotAbout filepath_Clean pos name m
    (services.blockingFinding filepath_Clean pos name p).
Proof.
  intros [Hp|(k & ops & Hk & ->)].
  - left. rewrite blockingFinding_fields.
    cbn [entities.findingType entities.severity entities.message]. rewrite Hp.
    split; [reflexivity|]. split; [reflexivity|].
    do 2 apply strings_Contains_app_r. reflexivity.
  - right. exists k, ops. split; [exact Hk|reflexivity].
Qed.

(** C1, as the code has it.  For a function whose body calls [m.Lock()] or
    [m.RLock()] at least once, holds no [Unlock] or [RUnlock] on [m], and
    does not lock [m] inside a function literal it spawns, the detector
    emits exactly one deadlock finding for [m]: a Bug finding of Critical
    severity whose message names the mutex and lists its tally, lock
    operations only.  Whatever else it emits for the function is a
    channel-misuse Bug finding of Warning severity or the deadlock finding
    of another identifier. *)
Theorem C1_lock_without_unlock_one_deadlock {go : Platform}
    (filepath_Clean : string -> string) (m : string)
    (pos : Position) (recv : list node) (name ty body : node) :
  callsLock m body = true ->
  noUnlockOn m body = true ->
  noLockInSpawn m body = true ->
  exists before deadlock after ops,
    services.analyzeFunctionConcurrency filepath_Clean
      (FuncDecl pos recv name ty (Some body)) = before ++ [deadlock] ++ after
    /\ deadlock
       = services.blockingFinding filepath_Clean pos name (services.mutexPattern m ops)
    /\ Forall (fun op => op = "lock") ops
    /\ (2 <= length ops)%nat
    /\ entities.findingType deadlock = entities.FindingTypeBug
    /\ entities.severity deadlock = valueobjects.SeverityCritical
    /\ strings_Contains (entities.message deadlock) "deadlock" = true
    /\ strings_Contains (entities.message deadlock)
         ("mutex '" +:+ m +:+ "' usage pattern may cause deadlock: " +:+ fmt_v ops) = true
    /\ Forall (findingNotAbout filepath_Clean pos name m) (before ++ after).
Proof.
  intros Hcall Hun Hspawn.
  destruct (analyzeBlockingPatterns_one_deadlock m body Hcall Hun Hspawn)
    as (b1 & b2 & ops & Hpat & Hall & Hlen & Hothers).
  exists (List.map (services.blockingFinding filepath_Clean pos name) b1),
    (services.blockingFinding filepath_Clean pos name (services.mutexPattern m ops)),
    (List.map (services.blockingFinding filepath_Clean pos name) b2), ops.
  split; [|split; [reflexivity|split; [exact Hall|split; [exact Hlen|]]]].
  - rewrite analyzeFunctionConcurrency_map, Hpat, !List.map_app. reflexivity.
  - rewrite blockingFinding_fields.
    cbn [entities.findingType entities.severity entities.message services.cause
         services.mutexPattern services.description].
    split; [reflexivity|]. split; [reflexivity|]. split; [|split].
    + do 2 apply strings_Contains_app_r. reflexivity.
    + do 3 apply strings_Contains_app_r. apply strings_Contains_prefix, prefix_refl.
    + rewrite <- List.map_app. apply List.Forall_forall. intros finding Hin.
      apply in_map_iff in Hin. destruct Hin as (p & <- & Hp).
      rewrite List.Forall_forall in Hothers.
      apply notAbout_finding, Hothers, Hp.
Qed.

(** C1 fails as stated: [func test() { go func() { mu.Lock() }() }] holds one
    [Lock] call and no [Unlock], and gets two deadlock findings, one from the
    analysis of the spawned body and one from the walk of the function going
    on into that body. *)
Lemma C1_lock_in_spawn_two_deadlocks :
  exists first second,
    fst (services.DetectBugs (fun path => path) lockInSpawn) = [first; second]
    /\ entities.severity first = valueobjects.SeverityCritical
    /\ strings_Contains (entities.message first) "deadlock" = true
    /\ entities.severity second = valueobjects.SeverityCritical
    /\ strings_Contains (entities.message second) "deadlock" = true
    /\ length (fst (services.DetectBugs (fun path => path) lockInSpawn)) <> 1%nat.
Proof.
  do 2 eexists. split; [vm_compute; reflexivity|].
  repeat split; try reflexivity. vm_compute. discriminate.
Qed.

(** The statement applies to [{ mu.Lock(); go func() { work() }() }], a lock
    next to a spawn, where the finding for [mu] is the only one. *)
Lemma C1_lock_without_unlock_one_deadlock_witness :
  (callsLock "mu" lockThenSpawn = true
   /\ noUnlockOn "mu" lockThenSpawn = true
   /\ noLockInSpawn "mu" lockThenSpawn = true)
  /\ exists before deadlock after ops,
      services.analyzeFunctionConcurrency (fun path => path)
        (FuncDecl (mkPosition "main.go" 4 1) [] (Ident "test") (FuncType [] [])
           (Some lockThenSpawn)) = before ++ [deadlock] ++ after
      /\ deadlock
         = services.blockingFinding (fun path => path) (mkPosition "main.go" 4 1)
             (Ident "test") (services.mutexPattern "mu" ops)
      /\ Forall (fun op => op = "lock") ops
      /\ (2 <= length ops)%nat
      /\ entities.findingType deadlock = entities.FindingTypeBug
      /\ entities.severity deadlock = valueobjects.SeverityCritical
      /\ strings_Contains (entities.message deadlock) "deadlock" = true
      /\ strings_Contains (entities.message deadlock)
           ("mutex '" +:+ "mu" +:+ "' usage pattern may cause deadlock: " +:+ fmt_v ops)
         = true
      /\ Forall (findingNotAbout (fun path => path) (mkPosition "main.go" 4 1)
                   (Ident "test") "mu") (before ++ after).
Proof.
  split; [split; [reflexivity | split; reflexivity]|].
  apply (C1_lock_without_unlock_one_deadlock (fun path => path) "mu"
           (mkPosition "main.go" 4 1) [] (Ident "test") (FuncType [] [])
           lockThenSpawn); reflexivity.
Defined.

(** On the two bodies below the finding for the locked mutex is the only
    finding of the function: a spawn that holds no lock operation adds
    none, nor does the balanced use of another mutex. *)
Lemma lock_beside_other_statements {go : Platform} filepath_Clean pos name :
  services.analyzeFunctionConcurrency filepath_Clean
    (FuncDecl pos [] name (FuncType [] []) (Some lockThenSpawn))
  = [services.blockingFinding filepath_Clean pos name
       (services.mutexPattern "mu" ["lock"; "lock"])]
  /\ (callsLock "a" lockBesideBalanced = true
      /\ noUnlockOn "a" lockBesideBalanced = true
      /\ noLockInSpawn "a" lockBesideBalanced = true)
  /\ services.analyzeFunctionConcurrency filepath_Clean
       (FuncDecl pos [] name (FuncType [] []) (Some lockBesideBalanced))
     = [services.blockingFinding filepath_Clean pos name
          (services.mutexPattern "a" ["lock"; "lock"])].
Proof.
  rewrite !analyzeFunctionConcurrency_map.
  split; [|split; [repeat split; reflexivity|]].
  - vm_compute. reflexivity.
  - vm_compute. reflexivity.
Qed.
